(** * Gudang Mitra: request approval, stock mutation and stock history

    A shallow embedding of the Express handlers of [server.js] (carried
    in [src/src/App.tsx]) that write the [items], [requests],
    [request_items] and [stock_history] tables, together with the
    PostgreSQL schema they run against:

    - [POST   /api/items]                 ([post_item], lines 812-824)
    - [PUT    /api/items/:id]             ([put_item], lines 685-746)
    - [DELETE /api/items/:id]             ([delete_item], lines 827-836)
    - [POST   /api/requests]              ([post_request], lines 650-682)
    - [PATCH  /api/requests/:id/status]   ([patch_request_status],
                                           lines 932-990)

    Tables are lists of rows in insertion order.  An [UPDATE] rewrites
    a row where it stands in the list; the store itself promises no
    order for a query without [ORDER BY], and [rows_updated] and
    [Permutation] state what an [UPDATE] or a listing does without the
    order.  [INT] columns are [Z],
    [VARCHAR]/[TEXT] columns are [string], a nullable column is an
    [option].  A field of a request body is absent ([None]) or holds a
    value of the type of its column.

    A handler is a computation in a small monad that threads the store
    and may throw.  Every SQL statement it issues is numbered, and a
    fault oracle says which of them the store rejects: connection loss,
    a value outside the range or length of its column, a violated
    constraint on a table that is not modelled.  A statement the oracle
    rejects leaves the store as it was; an [INSERT INTO items] the
    model rejects itself, for a row without a name, has drawn its id
    from the sequence and the sequence stays moved.  A pool query is
    committed on its own; the statements a client issues between [BEGIN]
    and [COMMIT] are committed together or not at all.  Handlers run one
    at a time.

    The second half of the development adds the handlers that read the
    stock tables ([get_items], [get_item], [get_item_history],
    [get_dashboard_items], [get_request]), [delete_request], the
    summary of the stock card of the history modal
    ([src/unnamed/part_003]), and the handlers of accounts and
    categories ([login], [post_user], [get_dashboard_users],
    [post_category], [put_category], [delete_category]) over a store
    that holds the [users] and [categories] tables beside the stock
    tables. *)

From Stdlib Require Import ZArith List String Bool Lia DecimalString
  Permutation.
Import ListNotations.

Local Open Scope string_scope.
Local Open Scope Z_scope.

(* ================================================================== *)
(** ** JavaScript helpers *)
(* ================================================================== *)

Module Js.

(** [x || 0] on a number: a falsy number is [0]. *)
Definition or0 (x : Z) : Z := if x =? 0 then 0 else x.

(** [x || 0] where [x] may be [undefined]. *)
Definition opt_or0 (x : option Z) : Z :=
  match x with
  | Some v => or0 v
  | None => 0
  end.

(** Truthiness of a possibly missing string: [undefined] and the empty string are
    falsy. *)
Definition truthy (s : option string) : bool :=
  match s with
  | Some v => negb (v =? EmptyString)%string
  | None => false
  end.

(** [a || b] on possibly missing strings. *)
Definition or_str (a b : option string) : option string :=
  if truthy a then a else b.

(** [a || null]: [undefined] and [null] are both stored as SQL NULL. *)
Definition or_null (a : option string) : option string :=
  if truthy a then a else None.

(** [x === "lit"] for a possibly missing string. *)
Definition is_str (x : option string) (lit : string) : bool :=
  match x with
  | Some v => (v =? lit)%string
  | None => false
  end.

End Js.

(* ================================================================== *)
(** ** Tables (schema of the Supabase database) *)
(* ================================================================== *)

(** [items]: [id SERIAL PRIMARY KEY], [quantity INT NOT NULL],
    ["minQuantity" INT NOT NULL]; [price] is [DECIMAL(15,2)], kept in
    hundredths. *)
Record Item := mkItem {
  item_id : Z;
  item_name : string;
  item_description : option string;
  item_category : option string;
  item_quantity : Z;
  item_minQuantity : Z;
  item_unit : option string;
  item_status : option string;
  item_price : option Z;
  item_isActive : option Z
}.

(** [requests]: [id VARCHAR PRIMARY KEY]; timestamps are instants. *)
Record Request := mkRequest {
  req_id : string;
  req_project_name : option string;
  req_requester_id : option string;
  req_reason : option string;
  req_priority : option string;
  req_due_date : option string;
  req_status : option string;
  req_createdAt : Z;
  req_updatedAt : Z
}.

(** [request_items]: no uniqueness constraint on (request, item). *)
Record RequestItem := mkRequestItem {
  ri_request_id : string;
  ri_item_id : Z;
  ri_quantity : Z
}.

(** [stock_history]; the serial id and ["createdAt"] of an entry are its
    position in the list. *)
Record StockHistory := mkStockHistory {
  sh_item_id : Z;
  sh_change_type : string;
  sh_quantity_before : Z;
  sh_quantity_change : Z;
  sh_quantity_after : Z;
  sh_notes : option string;
  sh_created_by : option string
}.

Record DB := mkDB {
  items : list Item;
  items_id_seq : Z;
  requests : list Request;
  request_items : list RequestItem;
  stock_history : list StockHistory
}.

Definition set_items (d : DB) (l : list Item) : DB :=
  mkDB l (items_id_seq d) (requests d) (request_items d) (stock_history d).

Definition set_requests (d : DB) (l : list Request) : DB :=
  mkDB (items d) (items_id_seq d) l (request_items d) (stock_history d).

Definition set_request_items (d : DB) (l : list RequestItem) : DB :=
  mkDB (items d) (items_id_seq d) (requests d) l (stock_history d).

Definition set_stock_history (d : DB) (l : list StockHistory) : DB :=
  mkDB (items d) (items_id_seq d) (requests d) (request_items d) l.

(* ================================================================== *)
(** ** SQL statements *)
(* ================================================================== *)

(** A statement maps the store to a result and a new store; [None] is a
    constraint violation, which the driver raises as an exception. *)
Definition Stmt (A : Type) : Type := DB -> option (A * DB).

(** Row of the join issued by the approval. *)
Record LineRow := mkLineRow {
  row_item_id : Z;
  requested_qty : Z;
  current_qty : Z;
  row_minQuantity : Z;
  row_name : string
}.

(** One assignment of the [UPDATE items SET ...] built by [PUT]. *)
Inductive Assignment :=
| SetName (v : string)
| SetDescription (v : string)
| SetCategory (v : string)
| SetQuantity (v : Z)
| SetMinQuantity (v : Z)
| SetUnit (v : string)
| SetPrice (v : Z).

Module Sql.

(** [SELECT status FROM requests WHERE id = $1] *)
Definition select_request_status (id : string) : Stmt (list (option string)) :=
  fun d =>
    Some (map req_status (filter (fun r => (req_id r =? id)%string) (requests d)), d).

(** [SELECT ri.item_id, ri.quantity AS requested_qty, i.quantity AS
    current_qty, i."minQuantity", i.name FROM request_items ri JOIN
    items i ON ri.item_id = i.id WHERE ri.request_id = $1] *)
Definition join_lines (id : string) (d : DB) : list LineRow :=
  flat_map
    (fun ri =>
       map (fun i => mkLineRow (ri_item_id ri) (ri_quantity ri)
                       (item_quantity i) (item_minQuantity i) (item_name i))
           (filter (fun i => (ri_item_id ri =? item_id i)%Z) (items d)))
    (filter (fun ri => (ri_request_id ri =? id)%string) (request_items d)).

Definition select_request_lines (id : string) : Stmt (list LineRow) :=
  fun d => Some (join_lines id d, d).

Definition with_quantity_status (q : Z) (st : string) (i : Item) : Item :=
  mkItem (item_id i) (item_name i) (item_description i) (item_category i)
         q (item_minQuantity i) (item_unit i) (Some st) (item_price i)
         (item_isActive i).

(** [UPDATE items SET quantity = $1, status = $2 WHERE id = $3] *)
Definition update_item_quantity_status (q : Z) (st : string) (id : Z)
  : Stmt unit :=
  fun d =>
    Some (tt, set_items d
                (map (fun i => if (item_id i =? id)%Z
                               then with_quantity_status q st i else i)
                     (items d))).

(** [INSERT INTO stock_history (item_id, change_type, quantity_before,
    quantity_change, quantity_after, notes, created_by) VALUES (...)] *)
Definition insert_stock_history (e : StockHistory) : Stmt unit :=
  fun d => Some (tt, set_stock_history d (stock_history d ++ [e])).

Definition with_status_updatedAt (st : option string) (now : Z)
           (r : Request) : Request :=
  mkRequest (req_id r) (req_project_name r) (req_requester_id r)
            (req_reason r) (req_priority r) (req_due_date r) st
            (req_createdAt r) now.

(** [UPDATE requests SET status = $1, "updatedAt" = NOW() WHERE id = $2] *)
Definition update_request_status (st : option string) (now : Z)
           (id : string) : Stmt unit :=
  fun d =>
    Some (tt, set_requests d
                (map (fun r => if (req_id r =? id)%string
                               then with_status_updatedAt st now r else r)
                     (requests d))).

(** [SELECT quantity FROM items WHERE id = $1] *)
Definition select_item_quantity (id : Z) : Stmt (list Z) :=
  fun d =>
    Some (map item_quantity
              (filter (fun i => (item_id i =? id)%Z) (items d)), d).

Definition assign (a : Assignment) (i : Item) : Item :=
  match a with
  | SetName v =>
      mkItem (item_id i) v (item_description i) (item_category i)
             (item_quantity i) (item_minQuantity i) (item_unit i)
             (item_status i) (item_price i) (item_isActive i)
  | SetDescription v =>
      mkItem (item_id i) (item_name i) (Some v) (item_category i)
             (item_quantity i) (item_minQuantity i) (item_unit i)
             (item_status i) (item_price i) (item_isActive i)
  | SetCategory v =>
      mkItem (item_id i) (item_name i) (item_description i) (Some v)
             (item_quantity i) (item_minQuantity i) (item_unit i)
             (item_status i) (item_price i) (item_isActive i)
  | SetQuantity v =>
      mkItem (item_id i) (item_name i) (item_description i) (item_category i)
             v (item_minQuantity i) (item_unit i)
             (item_status i) (item_price i) (item_isActive i)
  | SetMinQuantity v =>
      mkItem (item_id i) (item_name i) (item_description i) (item_category i)
             (item_quantity i) v (item_unit i)
             (item_status i) (item_price i) (item_isActive i)
  | SetUnit v =>
      mkItem (item_id i) (item_name i) (item_description i) (item_category i)
             (item_quantity i) (item_minQuantity i) (Some v)
             (item_status i) (item_price i) (item_isActive i)
  | SetPrice v =>
      mkItem (item_id i) (item_name i) (item_description i) (item_category i)
             (item_quantity i) (item_minQuantity i) (item_unit i)
             (item_status i) (Some v) (item_isActive i)
  end.

Definition assign_all (updates : list Assignment) (i : Item) : Item :=
  fold_left (fun acc a => assign a acc) updates i.

(** [UPDATE items SET <fields> WHERE id = $n RETURNING *] *)
Definition update_item_fields (updates : list Assignment) (id : Z)
  : Stmt (list Item) :=
  fun d =>
    let items' := map (fun i => if (item_id i =? id)%Z
                                then assign_all updates i else i) (items d) in
    Some (filter (fun i => (item_id i =? id)%Z) items', set_items d items').

(** [INSERT INTO items (name, description, category, quantity,
    "minQuantity", price, unit, status, "isActive") VALUES (...)
    RETURNING *].  The id is drawn from the sequence first; [name] is
    [NOT NULL], and a row without a name is rejected after the draw: the
    result is [None] then, and the sequence has moved all the same. *)
Definition insert_item (name description category : option string)
           (quantity minQuantity price : Z) (unit : option string)
           (status : string) (isActive : Z) : Stmt (option (list Item)) :=
  fun d =>
    let id := items_id_seq d in
    match name with
    | None =>
        Some (None,
              mkDB (items d) (id + 1) (requests d) (request_items d)
                   (stock_history d))
    | Some n =>
        let row := mkItem id n description category quantity
                          minQuantity unit (Some status) (Some price)
                          (Some isActive) in
        Some (Some [row],
              mkDB (items d ++ [row]) (id + 1) (requests d)
                   (request_items d) (stock_history d))
    end.

Definition with_isActive (v : Z) (i : Item) : Item :=
  mkItem (item_id i) (item_name i) (item_description i) (item_category i)
         (item_quantity i) (item_minQuantity i) (item_unit i)
         (item_status i) (item_price i) (Some v).

(** [UPDATE items SET "isActive" = 0 WHERE id = $1] *)
Definition update_item_inactive (id : Z) : Stmt unit :=
  fun d =>
    Some (tt, set_items d
                (map (fun i => if (item_id i =? id)%Z
                               then with_isActive 0 i else i) (items d))).

(** [INSERT INTO requests (id, project_name, requester_id, reason,
    priority, due_date, status) VALUES ($1, ..., 'pending')]; the id is
    the primary key, both timestamps default to the current instant. *)
Definition insert_request (id : string)
           (project_name requester_id reason priority due_date : option string)
           (now : Z) : Stmt unit :=
  fun d =>
    if existsb (fun r => (req_id r =? id)%string) (requests d) then None
    else Some (tt, set_requests d
                     (requests d ++
                        [mkRequest id project_name requester_id reason
                                   priority due_date (Some "pending")
                                   now now])).

(** [INSERT INTO request_items (request_id, item_id, quantity) VALUES
    ($1, $2, $3)]; [item_id] references [items(id)]. *)
Definition insert_request_item (request_id : string) (item : Z)
           (quantity : Z) : Stmt unit :=
  fun d =>
    if existsb (fun i => (item_id i =? item)%Z) (items d)
    then Some (tt, set_request_items d
                     (request_items d ++
                        [mkRequestItem request_id item quantity]))
    else None.

End Sql.

(* ================================================================== *)
(** ** Handlers as computations over the store *)
(* ================================================================== *)

(** What a handler can catch: an error raised by the driver for a
    rejected statement, or [new Error(message)] thrown by the handler. *)
Inductive Exn :=
| StoreError
| Error (message : string).

(** [f n = true]: the store rejects the [n]-th statement the handler
    issues (counting from 0, transaction control included). *)
Definition Faults := nat -> bool.

Definition no_faults : Faults := fun _ => false.

(** The handler's view of the store.  [committed] is what every
    connection reads; [working] is the state inside the transaction the
    checked-out client has open, if any.  One handler runs at a time, so
    [committed] does not move under an open transaction. *)
Record Session := mkSession {
  committed : DB;
  working : option DB;
  issued : nat
}.

Inductive Outcome (A : Type) :=
| Return (a : A)
| Throw (e : Exn).
Arguments Return {A} a.
Arguments Throw {A} e.

Definition M (A : Type) : Type := Faults -> Session -> Outcome A * Session.

Definition ret {A} (a : A) : M A := fun _ s => (Return a, s).

Definition bind {A B} (m : M A) (k : A -> M B) : M B :=
  fun f s =>
    match m f s with
    | (Return a, s') => k a f s'
    | (Throw e, s') => (Throw e, s')
    end.

Definition throw {A} (e : Exn) : M A := fun _ s => (Throw e, s).

(** [try { body } catch (error) { handler }] *)
Definition try_catch {A} (body : M A) (handler : Exn -> M A) : M A :=
  fun f s =>
    match body f s with
    | (Return a, s') => (Return a, s')
    | (Throw e, s') => handler e f s'
    end.

Notation "x <- m ;; k" := (bind m (fun x => k))
  (at level 61, m at next level, right associativity).
Notation "m ;;; k" := (bind m (fun _ => k))
  (at level 61, right associativity).

(** [for (const x of l) { await body(x) }] *)
Fixpoint for_of {A} (l : list A) (body : A -> M unit) : M unit :=
  match l with
  | [] => ret tt
  | x :: rest => body x ;;; for_of rest body
  end.

Definition tick (s : Session) : Session :=
  mkSession (committed s) (working s) (S (issued s)).

(** [db.query(text, params)]: a pool query, committed on its own. *)
Definition pool_query {A} (q : Stmt A) : M A :=
  fun f s =>
    if f (issued s) then (Throw StoreError, tick s)
    else match q (committed s) with
         | Some (a, d) => (Return a, mkSession d (working s) (S (issued s)))
         | None => (Throw StoreError, tick s)
         end.

(** A pool query whose statement can be rejected after it has drawn an
    id from a sequence: the draw is committed, the query throws. *)
Definition pool_query_drawing {A} (q : Stmt (option A)) : M A :=
  result <- pool_query q ;;
  match result with
  | Some a => ret a
  | None => throw StoreError
  end.

(** [client.query(text, params)] on the checked-out client: inside the
    open transaction if there is one, committed on its own otherwise. *)
Definition client_query {A} (q : Stmt A) : M A :=
  fun f s =>
    if f (issued s) then (Throw StoreError, tick s)
    else match working s with
         | Some w =>
             match q w with
             | Some (a, w') =>
                 (Return a, mkSession (committed s) (Some w') (S (issued s)))
             | None => (Throw StoreError, tick s)
             end
         | None =>
             match q (committed s) with
             | Some (a, d) => (Return a, mkSession d None (S (issued s)))
             | None => (Throw StoreError, tick s)
             end
         end.

(** [client.query('BEGIN')] *)
Definition client_begin : M unit :=
  fun f s =>
    if f (issued s) then (Throw StoreError, tick s)
    else (Return tt,
          mkSession (committed s)
                    (Some (match working s with
                           | Some w => w
                           | None => committed s
                           end))
                    (S (issued s))).

(** [client.query('COMMIT')] *)
Definition client_commit : M unit :=
  fun f s =>
    if f (issued s) then (Throw StoreError, tick s)
    else (Return tt,
          mkSession (match working s with
                     | Some w => w
                     | None => committed s
                     end)
                    None (S (issued s))).

(** [client.query('ROLLBACK')] *)
Definition client_rollback : M unit :=
  fun f s =>
    if f (issued s) then (Throw StoreError, tick s)
    else (Return tt, mkSession (committed s) None (S (issued s))).

(** JSON bodies the handlers send. *)
Inductive Body :=
| JSuccess                              (* { success: true } *)
| JSuccessMessage (message : string)    (* { success: true, message } *)
| JSuccessId (id : string)              (* { success: true, id } *)
| JFailMessage (message : string)       (* { success: false, message } *)
| JFailError (error : Exn)              (* { success: false, error: error.message } *)
| JRow (row : option Item).             (* a row of [items] *)

Record Response := mkResponse {
  res_status : Z;
  res_body : Body
}.

(** [res.json(body)] answers with status 200. *)
Definition json (b : Body) : Response := mkResponse 200 b.

(** Running a handler on a request: the committed store afterwards and
    the response, [None] when an exception escaped the handler.  A
    transaction left open when the handler ends is never committed. *)
Definition run (h : M Response) (f : Faults) (d : DB) : DB * option Response :=
  match h f (mkSession d None 0) with
  | (Return r, s) => (committed s, Some r)
  | (Throw _, s) => (committed s, None)
  end.

(* ------------------------------------------------------------------ *)
(** *** POST /api/items *)

Record PostItemBody := mkPostItemBody {
  pi_name : option string;
  pi_description : option string;
  pi_category : option string;
  pi_quantity : option Z;
  pi_minQuantity : option Z;
  pi_price : option Z;
  pi_unit : option string
}.

Definition post_item (b : PostItemBody) : M Response :=
  try_catch
    (result <- pool_query_drawing
                 (Sql.insert_item (pi_name b) (pi_description b) (pi_category b)
                    (Js.opt_or0 (pi_quantity b)) (Js.opt_or0 (pi_minQuantity b))
                    (Js.opt_or0 (pi_price b))
                    (Js.or_str (pi_unit b) (Some "pcs"))
                    "in-stock" 1) ;;
     ret (mkResponse 201 (JRow (hd_error result))))
    (fun error => ret (mkResponse 500 (JFailError error))).

(* ------------------------------------------------------------------ *)
(** *** DELETE /api/items/:id *)

Definition delete_item (id : Z) : M Response :=
  try_catch
    (pool_query (Sql.update_item_inactive id) ;;;
     ret (json JSuccess))
    (fun error => ret (mkResponse 500 (JFailError error))).

(* ------------------------------------------------------------------ *)
(** *** PUT /api/items/:id *)

Record PutItemBody := mkPutItemBody {
  pu_quantity : option Z;
  pu_notes : option string;
  pu_historyNotes : option string;
  pu_userId : option string;
  pu_name : option string;
  pu_description : option string;
  pu_category : option string;
  pu_minQuantity : option Z;
  pu_unit : option string;
  pu_price : option Z
}.

Definition field {A} (mk : A -> Assignment) (v : option A) : list Assignment :=
  match v with
  | Some x => [mk x]
  | None => []
  end.

(** The [updates] object (lines 699-706), keys in insertion order. *)
Definition put_updates (b : PutItemBody) : list Assignment :=
  field SetName (pu_name b) ++
  field SetDescription (pu_description b) ++
  field SetCategory (pu_category b) ++
  field SetQuantity (pu_quantity b) ++
  field SetMinQuantity (pu_minQuantity b) ++
  field SetUnit (pu_unit b) ++
  field SetPrice (pu_price b).

(** The history row written when the quantity changes (lines 722-735). *)
Definition put_history (id : Z) (b : PutItemBody) (quantity oldQty : Z)
  : StockHistory :=
  mkStockHistory id
    (if quantity >? oldQty then "restock" else "adjustment")
    (Js.or0 oldQty)
    (Js.or0 quantity - Js.or0 oldQty)
    quantity
    (Js.or_str (pu_historyNotes b)
       (Js.or_str (pu_notes b) (Some "Manual update")))
    (pu_userId b).

Definition put_item (id : Z) (b : PutItemBody) : M Response :=
  try_catch
    (existingResult <- pool_query (Sql.select_item_quantity id) ;;
     match existingResult with
     | [] => ret (mkResponse 404 (JFailMessage "Item not found"))
     | oldQty :: _ =>
         let updates := put_updates b in
         match updates with
         | [] => ret (json (JSuccessMessage "No updates provided"))
         | _ :: _ =>
             updatedResult <- pool_query (Sql.update_item_fields updates id) ;;
             let updatedItem := hd_error updatedResult in
             match pu_quantity b with
             | Some quantity =>
                 if negb (quantity =? oldQty)
                 then pool_query
                        (Sql.insert_stock_history
                           (put_history id b quantity oldQty))
                 else ret tt
             | None => ret tt
             end ;;;
             ret (json (JRow updatedItem))
         end
     end)
    (fun error => ret (mkResponse 500 (JFailError error))).

(* ------------------------------------------------------------------ *)
(** *** POST /api/requests *)

Record RequestLine := mkRequestLine {
  line_item_id : Z;
  line_quantity : Z
}.

Record PostRequestBody := mkPostRequestBody {
  pr_project_name : option string;
  pr_requester_id : option string;
  pr_reason : option string;
  pr_priority : option string;
  pr_due_date : option string;
  pr_items : list RequestLine
}.

(** [uuid] is the value [uuidv4()] returns, [now] the instant of the
    transaction. *)
Definition post_request (uuid : string) (now : Z) (b : PostRequestBody)
  : M Response :=
  try_catch
    (if (negb (Js.truthy (pr_project_name b))
        || (List.length (pr_items b) =? 0)%nat)%bool
     then ret (mkResponse 400 (JFailMessage "Missing required fields"))
     else
       client_begin ;;;
       let requestId := uuid in
       client_query
         (Sql.insert_request requestId (pr_project_name b) (pr_requester_id b)
            (Js.or_str (pr_reason b) (Some EmptyString))
            (Js.or_str (pr_priority b) (Some "medium"))
            (Js.or_null (pr_due_date b)) now) ;;;
       for_of (pr_items b)
         (fun item =>
            client_query
              (Sql.insert_request_item requestId (line_item_id item)
                 (line_quantity item))) ;;;
       client_commit ;;;
       ret (mkResponse 201 (JSuccessId requestId)))
    (fun error =>
       client_rollback ;;;
       ret (mkResponse 500 (JFailError error))).

(* ------------------------------------------------------------------ *)
(** *** PATCH /api/requests/:id/status *)

(** The status the approval stores for a deducted item (line 963). *)
Definition itemStatus (newQty minQuantity : Z) : string :=
  if newQty =? 0 then "out-of-stock"
  else if newQty <=? Js.or0 minQuantity then "low-stock"
  else "in-stock".

Definition newQty (item : LineRow) : Z :=
  Z.max 0 (current_qty item - requested_qty item).

(** The history row written for one line of an approved request. *)
Definition approval_history (id : string) (approved_by : option string)
           (item : LineRow) : StockHistory :=
  mkStockHistory (row_item_id item) "request" (current_qty item)
                 (- requested_qty item) (newQty item)
                 (Some ("Approved request " ++ id))
                 (Js.or_null approved_by).

(** Body of the loop over the lines of the request (lines 961-974; the
    test [items.length > 0] around the loop changes nothing). *)
Definition approve_line (id : string) (approved_by : option string)
           (item : LineRow) : M unit :=
  client_query
    (Sql.update_item_quantity_status (newQty item)
       (itemStatus (newQty item) (row_minQuantity item)) (row_item_id item)) ;;;
  client_query (Sql.insert_stock_history (approval_history id approved_by item)).

(** The [try] block; [status] and [approved_by] come from the request
    body, [now] is [NOW()]. *)
Definition patch_body (id : string) (status approved_by : option string)
           (now : Z) : M Response :=
  client_begin ;;;
  requestResult <- client_query (Sql.select_request_status id) ;;
  match requestResult with
  | [] => throw (Error "Request not found")
  | oldStatus :: _ =>
      (if (Js.is_str status "approved"
           && negb (Js.is_str oldStatus "approved"))%bool
       then
         items <- client_query (Sql.select_request_lines id) ;;
         for_of items (approve_line id approved_by)
       else ret tt) ;;;
      client_query (Sql.update_request_status status now id) ;;;
      client_commit ;;;
      ret (json JSuccess)
  end.

Definition patch_request_status (id : string) (status : option string)
           (approved_by : option string) (now : Z) : M Response :=
  try_catch
    (patch_body id status approved_by now)
    (fun error =>
       client_rollback ;;;
       ret (mkResponse 500 (JFailError error))).

(* ================================================================== *)
(** ** What a status change does to the store when nothing fails *)
(* ================================================================== *)

(** Effect of one pass of the loop body: the [UPDATE items] followed by
    the [INSERT INTO stock_history]. *)
(** What one pass of the loop does to one row of [items]. *)
Definition deduct (i : Item) (item : LineRow) : Item :=
  if item_id i =? row_item_id item
  then Sql.with_quantity_status (newQty item)
         (itemStatus (newQty item) (row_minQuantity item)) i
  else i.

Definition approve_row (id : string) (approved_by : option string)
           (d : DB) (item : LineRow) : DB :=
  let d1 := set_items d (map (fun i => deduct i item) (items d)) in
  set_stock_history d1
    (stock_history d1 ++ [approval_history id approved_by item]).

Definition approve_rows (id : string) (approved_by : option string)
           (rows : list LineRow) (d : DB) : DB :=
  fold_left (approve_row id approved_by) rows d.

(** The guard of step 2 of the handler. *)
Definition approving (status oldStatus : option string) : bool :=
  Js.is_str status "approved" && negb (Js.is_str oldStatus "approved").

Definition mark_request (id : string) (status : option string) (now : Z)
           (d : DB) : DB :=
  set_requests d
    (map (fun r => if (req_id r =? id)%string
                   then Sql.with_status_updatedAt status now r else r)
         (requests d)).

(** The store after a status change that runs to [COMMIT], for a request
    whose first selected status is [oldStatus]. *)
Definition set_status_effect (id : string) (status oldStatus : option string)
           (approved_by : option string) (now : Z) (d : DB) : DB :=
  mark_request id status now
    (if approving status oldStatus
     then approve_rows id approved_by (Sql.join_lines id d) d
     else d).

(** The status [SELECT status FROM requests WHERE id = $1] returns first. *)
Definition current_status (id : string) (d : DB) : option (option string) :=
  hd_error (map req_status
              (filter (fun r => (req_id r =? id)%string) (requests d))).

Definition never_fails (f : Faults) : Prop := forall n, f n = false.


(* ================================================================== *)
(** ** Statements of the specification, in its own words *)
(* ================================================================== *)

(** The derivation rule of the data model: [out-of-stock] iff the
    quantity is 0, [low-stock] iff [0 < quantity <= minQuantity],
    [in-stock] otherwise. *)
Definition spec_status (quantity minQuantity : Z) : string :=
  if quantity =? 0 then "out-of-stock"
  else if (0 <? quantity) && (quantity <=? minQuantity) then "low-stock"
  else "in-stock".

(** "Only the request's status field is updated". *)
Definition with_status (st : option string) (r : Request) : Request :=
  mkRequest (req_id r) (req_project_name r) (req_requester_id r)
            (req_reason r) (req_priority r) (req_due_date r) st
            (req_createdAt r) (req_updatedAt r).

Definition only_status_updated (id : string) (status : option string)
           (d d' : DB) : Prop :=
  items d' = items d
  /\ stock_history d' = stock_history d
  /\ request_items d' = request_items d
  /\ requests d'
     = map (fun r => if (req_id r =? id)%string then with_status status r else r)
           (requests d).


(** "For every line item of the request the item's new persisted
    quantity equals max(0, currentQuantity - requestedQuantity)". *)
Definition every_line_deducted (id : string) (d d' : DB) : Prop :=
  forall ri i i',
    In ri (request_items d) -> ri_request_id ri = id ->
    In i (items d) -> item_id i = ri_item_id ri ->
    In i' (items d') -> item_id i' = item_id i ->
    item_quantity i' = Z.max 0 (item_quantity i - ri_quantity ri).

(** "quantity_after = quantity_before + quantity_change". *)
Definition balanced (e : StockHistory) : Prop :=
  sh_quantity_after e = sh_quantity_before e + sh_quantity_change e.

(** What the approval writes instead: the sum, floored at 0. *)
Definition clamped (e : StockHistory) : Prop :=
  sh_quantity_after e = Z.max 0 (sh_quantity_before e + sh_quantity_change e).

(* ================================================================== *)
(** ** Example stores *)
(* ================================================================== *)

Definition item_A : Item :=
  mkItem 1 "A" None None 10 2 (Some "pcs") (Some "in-stock") (Some 0) (Some 1).

Definition request_r1 (status : string) : Request :=
  mkRequest "r1" (Some "P") None (Some EmptyString) (Some "medium") None
            (Some status) 100 100.

(** One item with quantity 10 and threshold 2, one request with the
    given lines. *)
Definition store_with (status : string) (lines : list RequestItem) : DB :=
  mkDB [item_A] 2 [request_r1 status] lines [].

Definition empty_store : DB := mkDB [] 1 [] [] [].

Definition body_item_A : PostItemBody :=
  mkPostItemBody (Some "A") None None (Some 10) (Some 2) None None.

Definition body_request (lines : list RequestLine) : PostRequestBody :=
  mkPostRequestBody (Some "P") None None None None lines.

Definition body_quantity (q : Z) : PutItemBody :=
  mkPutItemBody (Some q) None None None None None None None None None.

(* ================================================================== *)
(** ** The ledger: history rows of one item, oldest first *)
(* ================================================================== *)

Definition entries_of (k : Z) (h : list StockHistory) : list StockHistory :=
  filter (fun e => sh_item_id e =? k) h.

(** Each row starts from the quantity the row before it ended with;
    [prev] is where the row before the list ended, if there is one. *)
Fixpoint chained_from (prev : option Z) (l : list StockHistory) : Prop :=
  match l with
  | [] => True
  | e :: rest =>
      match prev with
      | Some a => sh_quantity_before e = a
      | None => True
      end
      /\ chained_from (Some (sh_quantity_after e)) rest
  end.

(** The quantity the last row ends with. *)
Fixpoint closing_from (prev : option Z) (l : list StockHistory) : option Z :=
  match l with
  | [] => prev
  | e :: rest => closing_from (Some (sh_quantity_after e)) rest
  end.

(** The rows of every item chain, and an item that has rows holds the
    quantity its last row ended with. *)
Definition ledger_chained (d : DB) : Prop :=
  forall k,
    chained_from None (entries_of k (stock_history d))
    /\ forall i a,
         In i (items d) -> item_id i = k ->
         closing_from None (entries_of k (stock_history d)) = Some a ->
         item_quantity i = a.

(** What the schema keeps true of [items] and [stock_history]: the id is
    a primary key drawn from the sequence, and history rows reference
    items. *)
Definition keys_ok (d : DB) : Prop :=
  NoDup (map item_id (items d))
  /\ (forall i, In i (items d) -> item_id i < items_id_seq d)
  /\ (forall e, In e (stock_history d) -> sh_item_id e < items_id_seq d).

Definition store_ok (d : DB) : Prop := keys_ok d /\ ledger_chained d.

(** "For every stock history entry ever written by any operation,
    quantity_after = quantity_before + quantity_change". *)
Definition every_entry_balanced (d : DB) : Prop :=
  Forall balanced (stock_history d).

(* ================================================================== *)
(** ** The five handlers as operations on the store *)
(* ================================================================== *)

Inductive Op :=
| PostItem (b : PostItemBody)
| PutItem (id : Z) (b : PutItemBody)
| DeleteItem (id : Z)
| PostRequest (uuid : string) (now : Z) (b : PostRequestBody)
| PatchStatus (id : string) (status approved_by : option string) (now : Z).

Definition handle (op : Op) : M Response :=
  match op with
  | PostItem b => post_item b
  | PutItem id b => put_item id b
  | DeleteItem id => delete_item id
  | PostRequest uuid now b => post_request uuid now b
  | PatchStatus id status approved_by now =>
      patch_request_status id status approved_by now
  end.

(** How the quantities of a history row relate, by the handler that
    writes it. *)
Definition written_as (op : Op) (e : StockHistory) : Prop :=
  match op with
  | PatchStatus _ _ _ _ =>
      clamped e
      /\ (balanced e <-> - sh_quantity_change e <= sh_quantity_before e)
  | _ => balanced e
  end.

(** When the operation is an approval that deducts stock - the status
    "approved" for a request that does not read "approved" - the lines
    of the request name pairwise different items.  Nothing is asked of
    any other operation, a rejection or a completion included. *)
Definition distinct_lines (op : Op) (d : DB) : Prop :=
  match op with
  | PatchStatus id status _ _ =>
      forall oldStatus,
        current_status id d = Some oldStatus ->
        approving status oldStatus = true ->
        NoDup (map row_item_id (Sql.join_lines id d))
  | _ => True
  end.

(** The handler answered, and not with status 500. *)
Definition answered (r : option Response) : Prop :=
  exists resp, r = Some resp /\ res_status resp <> 500.

(** [PUT] is the one handler whose writes are not in one transaction. *)
Definition went_through (op : Op) (r : option Response) : Prop :=
  match op with
  | PutItem _ _ => answered r
  | _ => True
  end.

(** The rows of [items] after the [UPDATE] of [PUT]. *)
Definition put_items (id : Z) (b : PutItemBody) (d : DB) : DB :=
  set_items d
    (map (fun i => if item_id i =? id
                   then Sql.assign_all (put_updates b) i else i)
         (items d)).

(** Two stores with the same items, sequence and history. *)
Definition same_stock (d d' : DB) : Prop :=
  items d' = items d
  /\ items_id_seq d' = items_id_seq d
  /\ stock_history d' = stock_history d.


(* ================================================================== *)
(** ** Handlers that read the store *)
(* ================================================================== *)

(** What a handler that sends rows answers: the rows with their status,
    or one of the fixed bodies. *)
Inductive Answer (A : Type) :=
| Sent (status : Z) (payload : A)
| Refused (status : Z) (b : Body).
Arguments Sent {A} status payload.
Arguments Refused {A} status b.

(** Running a handler whose answer is not a [Response]. *)
Definition run_as {A} (h : M A) (f : Faults) (d : DB) : DB * option A :=
  match h f (mkSession d None 0) with
  | (Return a, s) => (committed s, Some a)
  | (Throw _, s) => (committed s, None)
  end.

(** [n.toString()] on an integer. *)
Definition toString (z : Z) : string := NilZero.string_of_int (Z.to_int z).

(** [a || dflt] where the result is used as a string. *)
Definition str_or (a : option string) (dflt : string) : string :=
  match a with
  | Some v => if (v =? EmptyString)%string then dflt else v
  | None => dflt
  end.

(** The object [GET /api/items] sends for a row (lines 199-209);
    [price] in hundredths. *)
Record ItemView := mkItemView {
  iv_id : string;
  iv_name : string;
  iv_description : option string;
  iv_category : option string;
  iv_quantity : Z;
  iv_minQuantity : Z;
  iv_unit : string;
  iv_status : string;
  iv_price : Z
}.

(** The status expression of lines 207 and 233. *)
Definition listed_status (quantity minQuantity : Z) : string :=
  if quantity >? 0
  then if quantity <=? Js.or0 minQuantity then "low-stock" else "in-stock"
  else "out-of-stock".

Definition format_item (item : Item) : ItemView :=
  mkItemView (toString (item_id item)) (item_name item)
             (item_description item) (item_category item)
             (Js.or0 (item_quantity item)) (Js.or0 (item_minQuantity item))
             (str_or (item_unit item) "pcs")
             (listed_status (item_quantity item) (item_minQuantity item))
             (Js.opt_or0 (item_price item)).

(** ["isActive" = 1 OR "isActive" IS NULL] *)
Definition is_active (i : Item) : bool :=
  match item_isActive i with
  | Some v => v =? 1
  | None => true
  end.

(** [SELECT * FROM items WHERE "isActive" = 1 OR "isActive" IS NULL] *)
Definition select_active_items : Stmt (list Item) :=
  fun d => Some (filter is_active (items d), d).

(** [SELECT * FROM items WHERE id = $1] *)
Definition select_item (id : Z) : Stmt (list Item) :=
  fun d => Some (filter (fun i => item_id i =? id) (items d), d).

(** [GET /api/items] (lines 195-215). *)
Definition get_items : M (Answer (list ItemView)) :=
  try_catch
    (result <- pool_query select_active_items ;;
     let items := result in
     let formatted := map format_item items in
     ret (Sent 200 formatted))
    (fun error => ret (Refused 500 (JFailError error))).

(** [GET /api/items/:id] (lines 217-240). *)
Definition get_item (id : Z) : M (Answer ItemView) :=
  try_catch
    (result <- pool_query (select_item id) ;;
     match result with
     | [] => ret (Refused 404 (JFailMessage "Item not found"))
     | item :: _ => ret (Sent 200 (format_item item))
     end)
    (fun error => ret (Refused 500 (JFailError error))).

(** A row of [SELECT sh.*, i.name AS item_name FROM stock_history sh
    JOIN items i ON sh.item_id = i.id]. *)
Record HistoryView := mkHistoryView {
  hv_entry : StockHistory;
  hv_item_name : string
}.

(** [SELECT sh.*, i.name as item_name FROM stock_history sh JOIN items i
    ON sh."item_id" = i.id WHERE sh."item_id" = $1 ORDER BY
    sh."createdAt" ASC]; rows are kept in the order they were written. *)
Definition select_item_history (itemId : Z) : Stmt (list HistoryView) :=
  fun d =>
    Some (flat_map
            (fun sh =>
               map (fun i => mkHistoryView sh (item_name i))
                   (filter (fun i => sh_item_id sh =? item_id i) (items d)))
            (filter (fun sh => sh_item_id sh =? itemId) (stock_history d)),
          d).

(** The body [{ item, history }] of the stock card. *)
Record StockCard := mkStockCard {
  card_item : option Item;
  card_history : list HistoryView
}.

(** [GET /api/stock-history/item/:itemId] (lines 297-315). *)
Definition get_item_history (itemId : Z) : M (Answer StockCard) :=
  try_catch
    (result <- pool_query (select_item_history itemId) ;;
     let history := result in
     itemResult <- pool_query (select_item itemId) ;;
     ret (Sent 200 (mkStockCard (hd_error itemResult) history)))
    (fun error => ret (Refused 500 (JFailError error))).

(** The summary the stock card page computes from that body
    ([StockHistoryModal], [fetchHistory]): current quantity, total in,
    total out. *)
Record CardSummary := mkCardSummary {
  current_quantity : Z;
  total_in : Z;
  total_out : Z
}.

Definition sum_by (g : StockHistory -> Z) (l : list StockHistory) : Z :=
  fold_left (fun sum h => sum + g h) l 0.

Definition card_summary (item : Item) (history : list StockHistory)
  : CardSummary :=
  mkCardSummary
    (Js.or0 (item_quantity item))
    (Js.or0 (sum_by sh_quantity_change
               (filter (fun h => sh_quantity_change h >? 0) history)))
    (Js.or0 (sum_by (fun h => Z.abs (sh_quantity_change h))
               (filter (fun h => sh_quantity_change h <? 0) history))).

(** The figures of [GET /api/dashboard/items] (lines 859-874). *)
Record ItemStats := mkItemStats {
  totalItems : Z;
  totalQuantity : Z;
  lowStockItems : Z;
  totalCategories : Z
}.

Definition count {A} (l : list A) : Z := Z.of_nat (List.length l).

(** [SELECT COUNT( * ) as total_items, COALESCE(SUM(quantity), 0) as
    total_quantity FROM items WHERE "isActive" = 1 OR "isActive" IS NULL] *)
Definition select_item_stats : Stmt (Z * Z) :=
  fun d =>
    let rows := filter is_active (items d) in
    Some ((count rows, fold_right Z.add 0 (map item_quantity rows)), d).

(** [SELECT COUNT( * ) as low_stock_count FROM items WHERE ("isActive" = 1
    OR "isActive" IS NULL) AND quantity <= COALESCE("minQuantity", 0)] *)
Definition select_low_stock_count : Stmt Z :=
  fun d =>
    Some (count (filter (fun i => is_active i
                                  && (item_quantity i <=? item_minQuantity i))
                        (items d)), d).

Definition category_eqb (a b : string) : bool := (a =? b)%string.

(** The distinct values of a list of strings, first occurrences kept. *)
Fixpoint distinct (l : list string) : list string :=
  match l with
  | [] => []
  | x :: rest =>
      x :: filter (fun y => negb (category_eqb x y)) (distinct rest)
  end.

Definition non_null (l : list (option string)) : list string :=
  flat_map (fun o => match o with Some v => [v] | None => [] end) l.

(** [SELECT COUNT(DISTINCT category) FROM items] *)
Definition select_category_count : Stmt Z :=
  fun d => Some (count (distinct (non_null (map item_category (items d)))), d).

Definition get_dashboard_items : M (Answer ItemStats) :=
  try_catch
    (itemStats <- pool_query select_item_stats ;;
     lowStock <- pool_query select_low_stock_count ;;
     categories <- pool_query select_category_count ;;
     ret (Sent 200 (mkItemStats (fst itemStats) (snd itemStats) lowStock
                                categories)))
    (fun error => ret (Refused 500 (JFailError error))).

(* ================================================================== *)
(** ** DELETE /api/requests/:id *)
(* ================================================================== *)

(** [DELETE FROM requests WHERE id = $1]; the lines of a deleted request
    go with it ([ON DELETE CASCADE]).  The result is [rowCount]. *)
Definition delete_request_rows (id : string) : Stmt nat :=
  fun d =>
    let hit := filter (fun r => (req_id r =? id)%string) (requests d) in
    Some (List.length hit,
          match hit with
          | [] => d
          | _ :: _ =>
              mkDB (items d) (items_id_seq d)
                   (filter (fun r => negb (req_id r =? id)%string) (requests d))
                   (filter (fun ri => negb (ri_request_id ri =? id)%string)
                           (request_items d))
                   (stock_history d)
          end).

(** Lines 636-648. *)
Definition delete_request (id : string) : M Response :=
  try_catch
    (result <- pool_query (delete_request_rows id) ;;
     if (result =? 0)%nat
     then ret (mkResponse 404 (JFailMessage "Request not found"))
     else ret (json JSuccess))
    (fun error => ret (mkResponse 500 (JFailError error))).

(* ================================================================== *)
(** ** What creating a request adds *)
(* ================================================================== *)

Definition line_row (requestId : string) (item : RequestLine) : RequestItem :=
  mkRequestItem requestId (line_item_id item) (line_quantity item).

(** The row [POST /api/requests] inserts into [requests]. *)
Definition new_request (uuid : string) (now : Z) (b : PostRequestBody)
  : Request :=
  mkRequest uuid (pr_project_name b) (pr_requester_id b)
            (Js.or_str (pr_reason b) (Some EmptyString))
            (Js.or_str (pr_priority b) (Some "medium"))
            (Js.or_null (pr_due_date b)) (Some "pending") now now.

(** The store after a [POST /api/requests] that runs to [COMMIT]. *)
Definition post_request_effect (uuid : string) (now : Z) (b : PostRequestBody)
           (d : DB) : DB :=
  mkDB (items d) (items_id_seq d)
       (requests d ++ [new_request uuid now b])
       (request_items d ++ map (line_row uuid) (pr_items b))
       (stock_history d).

(** The body passes the test of line 654. *)
Definition has_required_fields (b : PostRequestBody) : bool :=
  Js.truthy (pr_project_name b) && negb (List.length (pr_items b) =? 0)%nat.

(** Every line names an item of the store. *)
Definition items_known (lines : list RequestLine) (d : DB) : bool :=
  forallb (fun item =>
             existsb (fun i => item_id i =? line_item_id item) (items d))
          lines.

(** No request has the id yet, and every line names an item of the
    store: what the primary key of [requests] and the foreign key of
    [request_items] ask of the inserts. *)
Definition insertable (uuid : string) (b : PostRequestBody) (d : DB) : bool :=
  negb (existsb (fun r => (req_id r =? uuid)%string) (requests d))
  && items_known (pr_items b) d.

(** A run that ended without touching the store and without success. *)
Definition gave_up (d d' : DB) (r : option Response) : Prop :=
  d' = d /\ (r = None \/ exists e, r = Some (mkResponse 500 (JFailError e))).

(* ================================================================== *)
(** ** Referential integrity *)
(* ================================================================== *)

(** Request ids are a primary key, every line references a request and
    an item of the store. *)
Definition refs_ok (d : DB) : Prop :=
  NoDup (map req_id (requests d))
  /\ (forall ri, In ri (request_items d) ->
        In (ri_request_id ri) (map req_id (requests d)))
  /\ (forall ri, In ri (request_items d) ->
        In (ri_item_id ri) (map item_id (items d))).

(** The handlers that write, [DELETE /api/requests/:id] included. *)
Inductive Call :=
| Write (op : Op)
| DeleteRequest (id : string).

Definition serve (c : Call) : M Response :=
  match c with
  | Write op => handle op
  | DeleteRequest id => delete_request id
  end.

Definition sum_list (l : list Z) : Z := fold_right Z.add 0 l.

(** The rows of a listing that are not shown as in stock. *)
Definition not_in_stock (rows : list ItemView) : list ItemView :=
  filter (fun v => negb (iv_status v =? "in-stock")%string) rows.

(** The row [RETURNING *] gives back after the [UPDATE]. *)
Definition updated_row (id : Z) (b : PutItemBody) (d : DB) : option Item :=
  hd_error (filter (fun i => item_id i =? id) (items (put_items id b d))).

(* ================================================================== *)
(** ** GET /api/requests/:id *)
(* ================================================================== *)

(** A row of [users].  [GET /api/requests/:id] only reads the table and
    takes its rows as an argument. *)
Record User := mkUser {
  user_id : string;
  user_name : string;
  user_email : string;
  user_password : string;
  user_role : string
}.

(** A row of [SELECT r.*, u.name as requester_name, u.email as
    requester_email FROM requests r LEFT JOIN users u ON
    r."requester_id" = u.id]. *)
Record RequesterRow := mkRequesterRow {
  rr_request : Request;
  rr_requester_name : option string;
  rr_requester_email : option string
}.

Definition left_join_requester (users : list User) (r : Request)
  : list RequesterRow :=
  match req_requester_id r with
  | None => [mkRequesterRow r None None]
  | Some uid =>
      match filter (fun u => (user_id u =? uid)%string) users with
      | [] => [mkRequesterRow r None None]
      | us => map (fun u => mkRequesterRow r (Some (user_name u))
                              (Some (user_email u))) us
      end
  end.

(** [... WHERE r.id = $1] *)
Definition select_request (users : list User) (id : string)
  : Stmt (list RequesterRow) :=
  fun d =>
    Some (flat_map (left_join_requester users)
                   (filter (fun r => (req_id r =? id)%string) (requests d)),
          d).

(** A row of [SELECT ri.*, i.name, i.category FROM request_items ri JOIN
    items i ON ri."item_id" = i.id]. *)
Record LineView := mkLineView {
  lv_line : RequestItem;
  lv_name : string;
  lv_category : option string
}.

(** [... WHERE ri."request_id" = $1] *)
Definition select_request_items (id : string) : Stmt (list LineView) :=
  fun d =>
    Some (flat_map
            (fun ri =>
               map (fun i => mkLineView ri (item_name i) (item_category i))
                   (filter (fun i => ri_item_id ri =? item_id i) (items d)))
            (filter (fun ri => (ri_request_id ri =? id)%string)
                    (request_items d)),
          d).

(** [{ ...request, items: itemResult.rows }] *)
Record RequestView := mkRequestView {
  rv_request : RequesterRow;
  rv_items : list LineView
}.

(** Lines 607-634. *)
Definition get_request (users : list User) (id : string)
  : M (Answer RequestView) :=
  try_catch
    (result <- pool_query (select_request users id) ;;
     match result with
     | [] => ret (Refused 404 (JFailMessage "Request not found"))
     | request :: _ =>
         itemResult <- pool_query (select_request_items id) ;;
         ret (Sent 200 (mkRequestView request itemResult))
     end)
    (fun error => ret (Refused 500 (JFailError error))).



(* ================================================================== *)
(** ** Accounts and categories *)
(* ================================================================== *)

(** A row of [categories]. *)
Record Category := mkCategory {
  cat_id : Z;
  cat_name : string;
  cat_description : option string;
  cat_createdAt : Z;
  cat_updatedAt : Z
}.

(** The store with the tables of accounts and categories beside the
    stock tables. *)
Record Site := mkSite {
  site_db : DB;
  site_users : list User;
  site_categories : list Category;
  site_categories_id_seq : Z
}.

Definition set_users (s : Site) (users : list User) : Site :=
  mkSite (site_db s) users (site_categories s) (site_categories_id_seq s).

Definition set_categories (s : Site) (categories : list Category) : Site :=
  mkSite (site_db s) (site_users s) categories (site_categories_id_seq s).

(** A statement on the whole store.  [None] is a statement the store
    rejects; a rejected [INSERT] has still drawn its id from the
    sequence. *)
Definition Query (A : Type) : Type := Site -> option A * Site.

(** Handlers that only use pool queries: the number of statements issued
    and the store. *)
Definition Pool (A : Type) : Type :=
  Faults -> nat * Site -> Outcome A * (nat * Site).

Definition pool_ret {A} (a : A) : Pool A := fun _ s => (Return a, s).

Definition pool_bind {A B} (m : Pool A) (k : A -> Pool B) : Pool B :=
  fun f s =>
    match m f s with
    | (Return a, s') => k a f s'
    | (Throw e, s') => (Throw e, s')
    end.

Definition pool_throw {A} (e : Exn) : Pool A := fun _ s => (Throw e, s).

Definition pool_try_catch {A} (body : Pool A) (handler : Exn -> Pool A)
  : Pool A :=
  fun f s =>
    match body f s with
    | (Return a, s') => (Return a, s')
    | (Throw e, s') => handler e f s'
    end.

Notation "x <~ m ;; k" := (pool_bind m (fun x => k))
  (at level 61, m at next level, right associativity).

(** [db.query(text, params)] *)
Definition db_query {A} (q : Query A) : Pool A :=
  fun f s =>
    if f (fst s) then (Throw StoreError, (S (fst s), snd s))
    else match q (snd s) with
         | (Some a, s') => (Return a, (S (fst s), s'))
         | (None, s') => (Throw StoreError, (S (fst s), s'))
         end.

(** The store after the handler and its answer, [None] when an exception
    escaped. *)
Definition run_pool {A} (h : Pool A) (f : Faults) (s : Site)
  : Site * option A :=
  match h f (0%nat, s) with
  | (Return a, s') => (snd s', Some a)
  | (Throw _, s') => (snd s', None)
  end.

(* ------------------------------------------------------------------ *)
(** *** bcrypt *)

(** The two calls the handlers make: [bcrypt.hash(password, 10)], with
    the salt it draws, and [bcrypt.compare(password, hash)]. *)
Record Bcrypt := mkBcrypt {
  bc_hash : string -> string;
  bc_compare : string -> string -> bool
}.

(** [password.startsWith('$2a$') || password.startsWith('$2b$')] *)
Definition is_bcrypt_hash (password : string) : bool :=
  String.prefix "$2a$" password || String.prefix "$2b$" password.

(** The test of lines 173-177. *)
Definition password_matches (bc : Bcrypt) (password stored : string) : bool :=
  if is_bcrypt_hash stored then bc_compare bc password stored
  else (stored =? password)%string.

(* ------------------------------------------------------------------ *)
(** *** POST /api/auth/login and POST /api/users *)

Inductive AuthBody :=
| AuthUser (message : option string) (id username email role : string)
    (* { success: true, [message,] user: { id, username, email, role } } *)
| AuthFail (message : string)           (* { success: false, message } *)
| AuthError (error : Exn).              (* { success: false, error: error.message } *)

Record AuthResponse := mkAuthResponse {
  auth_status : Z;
  auth_body : AuthBody
}.

Record LoginBody := mkLoginBody {
  lb_email : option string;
  lb_password : option string
}.

(** [SELECT * FROM users WHERE email = $1] *)
Definition select_users_by_email (email : string) : Query (list User) :=
  fun s =>
    (Some (filter (fun u => (user_email u =? email)%string) (site_users s)), s).

(** Lines 156-192.  [!email || !password] holds when either is missing
    or the empty string. *)
Definition login (bc : Bcrypt) (b : LoginBody) : Pool AuthResponse :=
  pool_try_catch
    (match lb_email b, lb_password b with
     | Some email, Some password =>
         if (email =? EmptyString)%string || (password =? EmptyString)%string
         then pool_ret (mkAuthResponse 400
                          (AuthFail "Email and password are required"))
         else
           users <~ db_query (select_users_by_email email) ;;
           match users with
           | [] => pool_ret (mkAuthResponse 401
                               (AuthFail "Invalid email or password"))
           | user :: _ =>
               let passwordMatches :=
                 if is_bcrypt_hash (user_password user)
                 then bc_compare bc password (user_password user)
                 else (user_password user =? password)%string in
               if negb passwordMatches
               then pool_ret (mkAuthResponse 401
                                (AuthFail "Invalid email or password"))
               else pool_ret
                      (mkAuthResponse 200
                         (AuthUser (Some "Login successful") (user_id user)
                                   (user_name user) (user_email user)
                                   (user_role user)))
           end
     | _, _ => pool_ret (mkAuthResponse 400
                           (AuthFail "Email and password are required"))
     end)
    (fun error =>
       pool_ret (mkAuthResponse 500 (AuthFail "Internal server error"))).

Record PostUserBody := mkPostUserBody {
  ub_name : option string;
  ub_email : option string;
  ub_password : option string;
  ub_role : option string
}.

(** [INSERT INTO users (id, name, email, password, role) VALUES (...)
    RETURNING id, name, email, role]; [id] is the primary key, [email]
    is [UNIQUE]. *)
Definition insert_user (id name email password role : string)
  : Query (list User) :=
  fun s =>
    if existsb (fun u => (user_id u =? id)%string) (site_users s)
       || existsb (fun u => (user_email u =? email)%string) (site_users s)
    then (None, s)
    else let row := mkUser id name email password role in
         (Some [row], set_users s (site_users s ++ [row])).

(** Lines 511-542. *)
Definition post_user (bc : Bcrypt) (uuid : string) (b : PostUserBody)
  : Pool AuthResponse :=
  pool_try_catch
    (match ub_name b, ub_email b, ub_password b with
     | Some name, Some email, Some password =>
         if (name =? EmptyString)%string || (email =? EmptyString)%string
            || (password =? EmptyString)%string
         then pool_ret (mkAuthResponse 400 (AuthFail "Missing required fields"))
         else
           existing <~ db_query (select_users_by_email email) ;;
           match existing with
           | _ :: _ =>
               pool_ret (mkAuthResponse 400
                           (AuthFail "Email already registered"))
           | [] =>
               let hashedPassword := bc_hash bc password in
               let userId := uuid in
               result <~ db_query (insert_user userId name email hashedPassword
                                               (str_or (ub_role b) "user")) ;;
               match result with
               | newUser :: _ =>
                   pool_ret (mkAuthResponse 201
                               (AuthUser None (user_id newUser)
                                         (user_name newUser)
                                         (user_email newUser)
                                         (user_role newUser)))
               | [] =>
                   pool_throw
                     (Error "Cannot read properties of undefined (reading 'id')")
               end
           end
     | _, _, _ =>
         pool_ret (mkAuthResponse 400 (AuthFail "Missing required fields"))
     end)
    (fun error => pool_ret (mkAuthResponse 500 (AuthError error))).

(* ------------------------------------------------------------------ *)
(** *** GET /api/dashboard/users *)

Record UserStats := mkUserStats {
  totalUsers : nat;
  role_admin : nat;
  role_manager : nat;
  role_user : nat
}.

(** [SELECT COUNT( * ) FROM users] *)
Definition count_users : Query nat :=
  fun s => (Some (List.length (site_users s)), s).

(** [SELECT COUNT( * ) FROM users WHERE role = '...'] *)
Definition count_users_with_role (role : string) : Query nat :=
  fun s =>
    (Some (List.length
             (filter (fun u => (user_role u =? role)%string) (site_users s))),
     s).

(** Lines 839-857; the handler sends [{ success: false, error }] with
    status 500 when a query fails. *)
Definition get_dashboard_users : Pool (Answer UserStats) :=
  pool_try_catch
    (result <~ db_query count_users ;;
     adminCount <~ db_query (count_users_with_role "admin") ;;
     managerCount <~ db_query (count_users_with_role "manager") ;;
     userCount <~ db_query (count_users_with_role "user") ;;
     pool_ret (Sent 200 (mkUserStats result adminCount managerCount userCount)))
    (fun error => pool_ret (Refused 500 (JFailError error))).

(* ------------------------------------------------------------------ *)
(** *** POST, PUT and DELETE /api/categories *)

Inductive CategoryBody :=
| CatRow (row : option Category)        (* a row of [categories] *)
| CatSuccess                            (* { success: true } *)
| CatFail (message : string)            (* { success: false, message } *)
| CatError (error : Exn).               (* { success: false, error: err.message } *)

Record CategoryResponse := mkCategoryResponse {
  cat_status : Z;
  cat_body : CategoryBody
}.

Record CategoryFields := mkCategoryFields {
  cb_name : option string;
  cb_description : option string
}.

(** [INSERT INTO categories (name, description) VALUES ($1, $2)
    RETURNING *]; the id is drawn from the sequence, [name] is
    [UNIQUE]. *)
Definition insert_category (name : string) (description : option string)
           (now : Z) : Query (list Category) :=
  fun s =>
    let id := site_categories_id_seq s in
    let drawn := mkSite (site_db s) (site_users s) (site_categories s)
                        (id + 1) in
    if existsb (fun c => (cat_name c =? name)%string) (site_categories s)
    then (None, drawn)
    else let row := mkCategory id name description now now in
         (Some [row], set_categories drawn (site_categories s ++ [row])).

(** Lines 437-451. *)
Definition post_category (now : Z) (b : CategoryFields)
  : Pool CategoryResponse :=
  pool_try_catch
    (match cb_name b with
     | Some name =>
         if (name =? EmptyString)%string
         then pool_ret (mkCategoryResponse 400 (CatFail "Name required"))
         else
           result <~ db_query (insert_category name (cb_description b) now) ;;
           pool_ret (mkCategoryResponse 201 (CatRow (hd_error result)))
     | None => pool_ret (mkCategoryResponse 400 (CatFail "Name required"))
     end)
    (fun err => pool_ret (mkCategoryResponse 500 (CatError err))).

(** [UPDATE categories SET name = $1, description = $2, "updatedAt" =
    NOW() WHERE id = $3 RETURNING *]; [name] is [NOT NULL] and
    [UNIQUE]. *)
Definition update_category (name description : option string) (id : Z)
           (now : Z) : Query (list Category) :=
  fun s =>
    match filter (fun c => cat_id c =? id) (site_categories s) with
    | [] => (Some [], s)
    | hit =>
        match name with
        | None => (None, s)
        | Some n =>
            let rows' :=
              map (fun c => if cat_id c =? id
                            then mkCategory (cat_id c) n description
                                            (cat_createdAt c) now
                            else c)
                  (site_categories s) in
            if existsb (fun c => (cat_name c =? n)%string)
                       (filter (fun c => negb (cat_id c =? id))
                               (site_categories s))
               || (1 <? List.length hit)%nat
            then (None, s)
            else (Some (filter (fun c => cat_id c =? id) rows'),
                  set_categories s rows')
        end
    end.

(** Lines 453-470. *)
Definition put_category (id : Z) (now : Z) (b : CategoryFields)
  : Pool CategoryResponse :=
  pool_try_catch
    (result <~ db_query (update_category (cb_name b) (cb_description b) id now) ;;
     if (List.length result =? 0)%nat
     then pool_ret (mkCategoryResponse 404 (CatFail "Category not found"))
     else pool_ret (mkCategoryResponse 200 (CatRow (hd_error result))))
    (fun err => pool_ret (mkCategoryResponse 500 (CatError err))).

(** [SELECT name FROM categories WHERE id = $1] *)
Definition select_category_name (id : Z) : Query (list string) :=
  fun s =>
    (Some (map cat_name (filter (fun c => cat_id c =? id) (site_categories s))),
     s).

(** The items of [SELECT COUNT( * ) FROM items WHERE category = $1 AND
    ("isActive" = 1 OR "isActive" IS NULL)]. *)
Definition active_items_in (categoryName : string) (d : DB) : list Item :=
  filter (fun i => Js.is_str (item_category i) categoryName && is_active i)
         (items d).

Definition count_active_items_in (categoryName : string) : Query nat :=
  fun s => (Some (List.length (active_items_in categoryName (site_db s))), s).

(** [DELETE FROM categories WHERE id = $1]; the result is [rowCount]. *)
Definition delete_category_rows (id : Z) : Query nat :=
  fun s =>
    (Some (List.length (filter (fun c => cat_id c =? id) (site_categories s))),
     set_categories s
       (filter (fun c => negb (cat_id c =? id)) (site_categories s))).

Definition quote : string := String (Ascii.ascii_of_nat 34) EmptyString.

(** The message of lines 484-487. *)
Definition in_use_message (useCount : nat) (categoryName : string) : string :=
  "Tidak dapat menghapus. Masih ada "
  ++ NilZero.string_of_uint (Nat.to_uint useCount)
  ++ " barang aktif yang menggunakan kategori " ++ quote ++ categoryName
  ++ quote
  ++ ". Silakan ubah kategori barang tersebut terlebih dahulu.".

(** The [DELETE] and the answer after it (lines 491-494). *)
Definition delete_category_then_answer (id : Z) : Pool CategoryResponse :=
  result <~ db_query (delete_category_rows id) ;;
  if (result =? 0)%nat
  then pool_ret (mkCategoryResponse 404 (CatFail "Category not found"))
  else pool_ret (mkCategoryResponse 200 CatSuccess).

(** Lines 472-498. *)
Definition delete_category (id : Z) : Pool CategoryResponse :=
  pool_try_catch
    (catResult <~ db_query (select_category_name id) ;;
     match catResult with
     | categoryName :: _ =>
         useCount <~ db_query (count_active_items_in categoryName) ;;
         if (0 <? useCount)%nat
         then pool_ret (mkCategoryResponse 400
                          (CatFail (in_use_message useCount categoryName)))
         else delete_category_then_answer id
     | [] => delete_category_then_answer id
     end)
    (fun err => pool_ret (mkCategoryResponse 500 (CatError err))).

(** Category names and ids are keys, ids are below the sequence. *)
Definition categories_ok (s : Site) : Prop :=
  NoDup (map cat_name (site_categories s))
  /\ NoDup (map cat_id (site_categories s))
  /\ (forall c, In c (site_categories s) -> cat_id c < site_categories_id_seq s).

(** The three handlers that write [categories]. *)
Inductive CategoryCall :=
| PostCategory (now : Z) (b : CategoryFields)
| PutCategory (id : Z) (now : Z) (b : CategoryFields)
| DeleteCategory (id : Z).

Definition serve_category (c : CategoryCall) : Pool CategoryResponse :=
  match c with
  | PostCategory now b => post_category now b
  | PutCategory id now b => put_category id now b
  | DeleteCategory id => delete_category id
  end.

(* ------------------------------------------------------------------ *)
(** *** Examples *)

(** The two accounts the schema file inserts, with plain text
    passwords. *)
Definition seed_users : list User :=
  [mkUser "user_admin_01" "Admin Gudang 03" "admin@gudang.com" "admin123"
          "admin";
   mkUser "user_manager_01" "Manager Gudang 03" "manager@gudang.com"
          "manager123" "manager"].

Definition seed_site : Site := mkSite (store_with "pending" []) seed_users [] 1.

(** A stand-in for bcrypt in the examples: the hash is the password
    behind the prefix of a bcrypt hash. *)
Definition toy_bcrypt : Bcrypt :=
  mkBcrypt (fun password => "$2b$" ++ password)
           (fun password hash => (hash =? "$2b$" ++ password)%string).

Definition item_pen : Item :=
  mkItem 1 "Pen" None (Some "ATK") 10 2 (Some "pcs") (Some "in-stock") (Some 0)
         (Some 1).

(** One active item in the one category. *)
Definition category_site : Site :=
  mkSite (mkDB [item_pen] 2 [] [] []) seed_users
         [mkCategory 1 "ATK" None 0 0] 2.



(* ================================================================== *)
(** ** The rows of an approval against the stock *)
(* ================================================================== *)

(** "quantity_before equal to the item's pre-deduction quantity ... and
    quantity_after equal to the clamped new quantity", line by line:
    among the rows [new] an approval appends, those of one item start
    from the quantity the item held before the call, each next one
    starts from the quantity the one before ended with, and the last
    ends with the quantity the item holds afterwards. *)
Definition rows_record_deductions (d : DB) (new : list StockHistory)
           (d' : DB) : Prop :=
  forall i i',
    In i (items d) -> In i' (items d') -> item_id i' = item_id i ->
    chained_from (Some (item_quantity i)) (entries_of (item_id i) new)
    /\ closing_from (Some (item_quantity i)) (entries_of (item_id i) new)
       = Some (item_quantity i').

(** "DELETE /items/:id always responds {success:true}". *)
Definition delete_always_succeeds : Prop :=
  forall id f d, snd (run (delete_item id) f d) = Some (json JSuccess).

(* ================================================================== *)
(** ** Rows before and after an [UPDATE] *)
(* ================================================================== *)

(** Every row of [before] has its counterpart in [after], related by
    [rel], and [after] has no other rows.  The order in which the store
    keeps the rows is not part of the statement. *)
Definition rows_updated {A} (rel : A -> A -> Prop) (before after : list A)
  : Prop :=
  exists l, Permutation l after /\ Forall2 rel before l.

(** A request before and after a status change of the request [id] at
    the instant [now]: the request [id] has the new status and [now] as
    ["updatedAt"]; every other field, and every other request, is as it
    was. *)
Definition status_changed (id : string) (status : option string) (now : Z)
           (q q' : Request) : Prop :=
  req_id q' = req_id q
  /\ req_project_name q' = req_project_name q
  /\ req_requester_id q' = req_requester_id q
  /\ req_reason q' = req_reason q
  /\ req_priority q' = req_priority q
  /\ req_due_date q' = req_due_date q
  /\ req_createdAt q' = req_createdAt q
  /\ if (req_id q =? id)%string
     then req_status q' = status /\ req_updatedAt q' = now
     else req_status q' = req_status q /\ req_updatedAt q' = req_updatedAt q.

(** An item before and after the soft delete of the id [id]: a row with
    the id has ["isActive"] 0; every other column, and every other row,
    is as it was. *)
Definition soft_deleted (id : Z) (i i' : Item) : Prop :=
  item_id i' = item_id i
  /\ item_name i' = item_name i
  /\ item_description i' = item_description i
  /\ item_category i' = item_category i
  /\ item_quantity i' = item_quantity i
  /\ item_minQuantity i' = item_minQuantity i
  /\ item_unit i' = item_unit i
  /\ item_status i' = item_status i
  /\ item_price i' = item_price i
  /\ if item_id i =? id
     then item_isActive i' = Some 0
     else item_isActive i' = item_isActive i.

(** An item before and after [PUT /api/items/:id]: id, stored status and
    ["isActive"] are kept, and a row with another id is kept whole. *)
Definition put_kept (id : Z) (i i' : Item) : Prop :=
  item_id i' = item_id i
  /\ item_status i' = item_status i
  /\ item_isActive i' = item_isActive i
  /\ (item_id i <> id -> i' = i).

(** A second item beside [item_A]. *)
Definition item_B : Item :=
  mkItem 2 "Pen" None (Some "ATK") 5 1 (Some "pcs") (Some "in-stock") (Some 0)
         (Some 1).

(* ================================================================== *)
(** ** Facts about the JavaScript helpers *)
(* ================================================================== *)

Lemma or0_id x : Js.or0 x = x.
Proof. unfold Js.or0. destruct (Z.eqb_spec x 0); congruence. Qed.

Lemma is_str_true x lit : Js.is_str x lit = true <-> x = Some lit.
Proof.
  destruct x as [v|]; simpl.
  - rewrite String.eqb_eq. split; congruence.
  - split; discriminate.
Qed.

Lemma is_str_false x lit : Js.is_str x lit = false <-> x <> Some lit.
Proof.
  rewrite <- is_str_true. destruct (Js.is_str x lit); split; congruence.
Qed.

(* ================================================================== *)
(** ** Filters *)
(* ================================================================== *)

Lemma filter_none {A} (p : A -> bool) (l : list A) :
  (forall x, In x l -> p x = false) ->
  filter p l = [] /\ filter (fun x => negb (p x)) l = l.
Proof.
  intros H. induction l as [|x l IH]; simpl; [split; reflexivity|].
  rewrite (H x (or_introl eq_refl)). simpl.
  destruct IH as [IH1 IH2]; [intros y Hy; apply H; right; exact Hy|].
  split; [exact IH1|rewrite IH2; reflexivity].
Qed.

Lemma filter_all {A} (p : A -> bool) (l : list A) :
  (forall x, In x l -> p x = true) ->
  filter p l = l /\ filter (fun x => negb (p x)) l = [].
Proof.
  intros H. induction l as [|x l IH]; simpl; [split; reflexivity|].
  rewrite (H x (or_introl eq_refl)). simpl.
  destruct IH as [IH1 IH2]; [intros y Hy; apply H; right; exact Hy|].
  split; [rewrite IH1; reflexivity|exact IH2].
Qed.

(* ================================================================== *)
(** ** Stepping lemmas *)
(* ================================================================== *)

Lemma never_fails_no_faults : never_fails no_faults.
Proof. intro n. reflexivity. Qed.

Section Stepping.

Variables (id : string) (approved_by : option string).

(** One pass of the loop inside an open transaction: the committed
    store never moves, and a pass that returns has done both writes. *)
Lemma approve_line_tx f s w item :
  working s = Some w ->
  match approve_line id approved_by item f s with
  | (Return _, s') =>
      committed s' = committed s
      /\ working s' = Some (approve_row id approved_by w item)
  | (Throw e, s') => committed s' = committed s /\ e = StoreError
  end.
Proof.
  intros Hw. unfold approve_line, bind, client_query.
  destruct (f (issued s)); simpl; [tauto|].
  rewrite Hw. simpl.
  destruct (f (S (issued s))); simpl; tauto.
Qed.

Lemma for_of_approve_tx rows : forall f s w,
  working s = Some w ->
  match for_of rows (approve_line id approved_by) f s with
  | (Return _, s') =>
      committed s' = committed s
      /\ working s' = Some (approve_rows id approved_by rows w)
  | (Throw e, s') => committed s' = committed s /\ e = StoreError
  end.
Proof.
  induction rows as [|item rest IH]; intros f s w Hw; simpl.
  - unfold ret. auto.
  - unfold bind.
    pose proof (approve_line_tx f s w item Hw) as H1.
    destruct (approve_line id approved_by item f s) as [[u|e] s1].
    + destruct H1 as [Hc Hw1].
      specialize (IH f s1 _ Hw1).
      destruct (for_of rest (approve_line id approved_by) f s1) as [[u'|e'] s2].
      * destruct IH as [Hc2 Hw2]. split; [congruence|exact Hw2].
      * destruct IH as [Hc2 He]. split; congruence.
    + exact H1.
Qed.

(** With a store that rejects nothing the loop always returns. *)
Lemma for_of_approve_ok rows : forall f s w,
  never_fails f ->
  working s = Some w ->
  exists n,
    for_of rows (approve_line id approved_by) f s
    = (Return tt,
       mkSession (committed s)
                 (Some (approve_rows id approved_by rows w)) n).
Proof.
  induction rows as [|item rest IH]; intros f s w Hf Hw; simpl.
  - exists (issued s). unfold ret. destruct s; simpl in *. congruence.
  - unfold bind at 1. unfold approve_line, bind, client_query.
    rewrite Hf. rewrite Hw. simpl. rewrite Hf. simpl.
    match goal with
    | |- context [for_of rest _ f ?s1] =>
        destruct (IH f s1 (approve_row id approved_by w item) Hf eq_refl)
          as [n Hn]
    end.
    exists n. exact Hn.
Qed.

End Stepping.

(** The [catch] block never touches the committed store. *)
Lemma catch_rollback f s e :
  match (client_rollback ;;; ret (mkResponse 500 (JFailError e))) f s with
  | (Return r, s') =>
      committed s' = committed s /\ r = mkResponse 500 (JFailError e)
  | (Throw _, s') => committed s' = committed s
  end.
Proof.
  unfold bind, client_rollback, ret.
  destruct (f (issued s)); simpl; auto.
Qed.

(** Every way the [try] body can end, for any fault oracle. *)
Lemma patch_body_cases id status approved_by now f d :
  match patch_body id status approved_by now f (mkSession d None 0) with
  | (Return r, s') =>
      r = json JSuccess
      /\ exists oldStatus,
           current_status id d = Some oldStatus
           /\ committed s'
              = set_status_effect id status oldStatus approved_by now d
  | (Throw _, s') => committed s' = d
  end.
Proof.
  unfold patch_body, bind at 1, client_begin. simpl.
  destruct (f 0%nat); simpl; [reflexivity|].
  unfold bind at 1, client_query at 1. simpl.
  destruct (f 1%nat); simpl; [reflexivity|].
  unfold current_status, set_status_effect, approving.
  destruct (map req_status _) as [|oldStatus rest] eqn:Hsel; simpl;
    [reflexivity|].
  unfold bind at 1.
  destruct (Js.is_str status "approved" && negb (Js.is_str oldStatus "approved"))%bool
    eqn:Hguard.
  - unfold bind at 1, client_query at 1. simpl.
    destruct (f 2%nat); simpl; [reflexivity|].
    match goal with
    | |- context [for_of ?rows _ f ?s0] =>
        pose proof (for_of_approve_tx id approved_by rows f s0 d eq_refl) as Hloop;
        destruct (for_of rows (approve_line id approved_by) f s0) as [[u|e] s1]
    end; simpl in Hloop.
    + destruct Hloop as [Hc Hw].
      unfold bind, client_query, client_commit, ret. rewrite Hw. simpl.
      destruct (f (issued s1)); simpl; [exact Hc|].
      destruct (f (S (issued s1))); simpl; [exact Hc|].
      split; [reflexivity|]. exists oldStatus. rewrite Hguard.
      split; reflexivity.
    + tauto.
  - unfold bind, client_query, client_commit, ret. simpl.
    destruct (f 2%nat); simpl; [reflexivity|].
    destruct (f 3%nat); simpl; [reflexivity|].
    split; [reflexivity|]. exists oldStatus. rewrite Hguard.
    split; reflexivity.
Qed.

(** The same body when the store rejects nothing. *)
Lemma patch_body_ok id status approved_by now f d oldStatus :
  never_fails f ->
  current_status id d = Some oldStatus ->
  exists n,
    patch_body id status approved_by now f (mkSession d None 0)
    = (Return (json JSuccess),
       mkSession (set_status_effect id status oldStatus approved_by now d)
                 None n).
Proof.
  intros Hf Hcur.
  unfold patch_body, bind at 1, client_begin. simpl. rewrite Hf. simpl.
  unfold bind at 1, client_query at 1. simpl. rewrite Hf. simpl.
  unfold current_status in Hcur.
  destruct (map req_status _) as [|o rest] eqn:Hsel; simpl in Hcur;
    [discriminate|].
  injection Hcur as ->.
  unfold set_status_effect, approving.
  unfold bind at 1.
  destruct (Js.is_str status "approved" && negb (Js.is_str oldStatus "approved"))%bool.
  - unfold bind at 1, client_query at 1. simpl. rewrite Hf. simpl.
    match goal with
    | |- context [for_of ?rows _ f ?s0] =>
        destruct (for_of_approve_ok id approved_by rows f s0 d Hf eq_refl)
          as [n Hn]; rewrite Hn
    end.
    unfold bind, client_query, client_commit, ret. simpl.
    rewrite !Hf. simpl. eexists. reflexivity.
  - unfold bind, client_query, client_commit, ret. simpl.
    rewrite !Hf. simpl. eexists. reflexivity.
Qed.

(** A status change that answers success has run to [COMMIT]. *)
Lemma patch_run_success id status approved_by now f d d' :
  run (patch_request_status id status approved_by now) f d
  = (d', Some (json JSuccess)) ->
  exists oldStatus,
    current_status id d = Some oldStatus
    /\ d' = set_status_effect id status oldStatus approved_by now d.
Proof.
  unfold run, patch_request_status, try_catch.
  pose proof (patch_body_cases id status approved_by now f d) as Hb.
  destruct (patch_body id status approved_by now f (mkSession d None 0))
    as [[r|e] s1].
  - destruct Hb as [-> (o & Hcur & Hc)]. intros H. injection H as <-.
    exists o. split; [exact Hcur|exact Hc].
  - pose proof (catch_rollback f s1 e) as Hr.
    destruct ((client_rollback ;;; ret (mkResponse 500 (JFailError e))) f s1)
      as [[r|e'] s2].
    + destruct Hr as [_ ->]. intros H. discriminate H.
    + intros H. discriminate H.
Qed.

(** With a store that rejects nothing, a status change on an existing
    request answers success. *)
Lemma patch_run_ok id status approved_by now f d oldStatus :
  never_fails f ->
  current_status id d = Some oldStatus ->
  run (patch_request_status id status approved_by now) f d
  = (set_status_effect id status oldStatus approved_by now d,
     Some (json JSuccess)).
Proof.
  intros Hf Hcur. unfold run, patch_request_status, try_catch.
  destruct (patch_body_ok id status approved_by now f d oldStatus Hf Hcur)
    as [n Hn].
  rewrite Hn. reflexivity.
Qed.

(* ================================================================== *)
Lemma approve_rows_requests id approved_by rows : forall d,
  requests (approve_rows id approved_by rows d) = requests d.
Proof.
  induction rows as [|item rest IH]; intros d; simpl; [reflexivity|].
  rewrite IH. reflexivity.
Qed.

Lemma approve_rows_items_id_seq id approved_by rows : forall d,
  items_id_seq (approve_rows id approved_by rows d) = items_id_seq d.
Proof.
  induction rows as [|item rest IH]; intros d; simpl; [reflexivity|].
  rewrite IH. reflexivity.
Qed.

(** The loop appends one history row per row of the join, in order. *)
Lemma approve_rows_stock_history id approved_by rows : forall d,
  stock_history (approve_rows id approved_by rows d)
  = (stock_history d ++ map (approval_history id approved_by) rows)%list.
Proof.
  induction rows as [|item rest IH]; intros d; simpl.
  - rewrite app_nil_r. reflexivity.
  - rewrite IH. simpl. rewrite <- app_assoc. reflexivity.
Qed.

Lemma approve_rows_items id approved_by rows : forall d,
  items (approve_rows id approved_by rows d)
  = map (fun i => fold_left deduct rows i) (items d).
Proof.
  induction rows as [|item rest IH]; intros d; simpl.
  - rewrite map_id. reflexivity.
  - rewrite IH. simpl. rewrite map_map. reflexivity.
Qed.

Lemma deduct_item_id i item : item_id (deduct i item) = item_id i.
Proof. unfold deduct. destruct (item_id i =? row_item_id item); reflexivity. Qed.

Lemma fold_deduct_item_id rows : forall i,
  item_id (fold_left deduct rows i) = item_id i.
Proof.
  induction rows as [|item rest IH]; intros i; simpl; [reflexivity|].
  rewrite IH. apply deduct_item_id.
Qed.

(** An item no row names is left as it is. *)
Lemma fold_deduct_untouched rows : forall i,
  (forall item, In item rows -> row_item_id item <> item_id i) ->
  fold_left deduct rows i = i.
Proof.
  induction rows as [|item rest IH]; intros i H; simpl; [reflexivity|].
  assert (Hd : deduct i item = i).
  { unfold deduct. destruct (Z.eqb_spec (item_id i) (row_item_id item)) as [E|E];
      [|reflexivity].
    exfalso. apply (H item); [left; reflexivity|]. symmetry. exact E. }
  rewrite Hd. apply IH. intros it Hit. apply H. right. exact Hit.
Qed.

(** When every row naming the item computes the same quantity, that is
    the quantity that stays. *)
Lemma fold_deduct_quantity q rows : forall i,
  (forall item, In item rows -> row_item_id item = item_id i -> newQty item = q) ->
  (exists item, In item rows /\ row_item_id item = item_id i) ->
  item_quantity (fold_left deduct rows i) = q.
Proof.
  induction rows as [|item rest IH]; intros i Hall [r [Hin Hr]];
    [destruct Hin|].
  simpl.
  destruct (Z.eqb_spec (item_id i) (row_item_id item)) as [E|E].
  - destruct (in_dec Z.eq_dec (item_id i) (map row_item_id rest)) as [Hm|Hm].
    + apply IH.
      * intros it Hit Hid. rewrite deduct_item_id in Hid.
        apply Hall; [right; exact Hit|exact Hid].
      * apply in_map_iff in Hm. destruct Hm as [it [Hid Hit]].
        exists it. rewrite deduct_item_id. auto.
    + rewrite fold_deduct_untouched.
      * unfold deduct. rewrite (proj2 (Z.eqb_eq _ _) E). simpl.
        apply Hall; [left; reflexivity|symmetry; exact E].
      * intros it Hit Hid. apply Hm. apply in_map_iff. exists it.
        rewrite deduct_item_id in Hid. auto.
  - destruct Hin as [->|Hin]; [exfalso; apply E; symmetry; exact Hr|].
    apply IH.
    + intros it Hit Hid. rewrite deduct_item_id in Hid.
      apply Hall; [right; exact Hit|exact Hid].
    + exists r. rewrite deduct_item_id. auto.
Qed.

Lemma mark_request_items id status now d :
  items (mark_request id status now d) = items d.
Proof. reflexivity. Qed.

Lemma mark_request_stock_history id status now d :
  stock_history (mark_request id status now d) = stock_history d.
Proof. reflexivity. Qed.

(** After the status update the request reads back the new status. *)
Lemma mark_request_current_status id status now d oldStatus :
  current_status id d = Some oldStatus ->
  current_status id (mark_request id status now d) = Some status.
Proof.
  unfold current_status, mark_request. simpl.
  induction (requests d) as [|r rest IH]; simpl; [discriminate|].
  destruct (String.eqb_spec (req_id r) id) as [E|E]; simpl.
  - rewrite (proj2 (String.eqb_eq _ _) E). simpl. reflexivity.
  - rewrite (proj2 (String.eqb_neq _ _) E). exact IH.
Qed.

Lemma set_status_effect_current_status id status oldStatus approved_by now d :
  current_status id d = Some oldStatus ->
  current_status id (set_status_effect id status oldStatus approved_by now d)
  = Some status.
Proof.
  intros H. unfold set_status_effect.
  apply mark_request_current_status with (oldStatus := oldStatus).
  destruct (approving status oldStatus); [|exact H].
  unfold current_status. rewrite approve_rows_requests. exact H.
Qed.

(** A status change that is not an approval only marks the request. *)
Lemma set_status_effect_not_approving id status oldStatus approved_by now d :
  approving status oldStatus = false ->
  set_status_effect id status oldStatus approved_by now d
  = mark_request id status now d.
Proof. intros H. unfold set_status_effect. rewrite H. reflexivity. Qed.

(** Every way a status change can end, for any fault oracle. *)
Lemma patch_run_cases id status approved_by now f d :
  let (d', r) := run (patch_request_status id status approved_by now) f d in
  (r = Some (json JSuccess)
   /\ exists oldStatus,
        current_status id d = Some oldStatus
        /\ d' = set_status_effect id status oldStatus approved_by now d)
  \/ ((r = None \/ exists e, r = Some (mkResponse 500 (JFailError e)))
      /\ d' = d).
Proof.
  unfold run, patch_request_status, try_catch.
  pose proof (patch_body_cases id status approved_by now f d) as Hb.
  destruct (patch_body id status approved_by now f (mkSession d None 0))
    as [[r|e] s1].
  - cbv beta iota. left. destruct Hb as [-> (o & Hcur & Hc)].
    split; [reflexivity|]. exists o. auto.
  - pose proof (catch_rollback f s1 e) as Hr.
    destruct ((client_rollback ;;; ret (mkResponse 500 (JFailError e))) f s1)
      as [[r|e'] s2]; cbv beta iota; right.
    + destruct Hr as [Hc ->]. split; [right; exists e; reflexivity|congruence].
    + split; [left; reflexivity|congruence].
Qed.

(* ================================================================== *)
(** ** The rows of the join and the primary key of [items] *)
(* ================================================================== *)

Lemma in_join_lines id d item :
  In item (Sql.join_lines id d) <->
  exists ri i,
    In ri (request_items d) /\ ri_request_id ri = id
    /\ In i (items d) /\ item_id i = ri_item_id ri
    /\ item = mkLineRow (ri_item_id ri) (ri_quantity ri) (item_quantity i)
                        (item_minQuantity i) (item_name i).
Proof.
  unfold Sql.join_lines. rewrite in_flat_map. split.
  - intros (ri & Hri & Hrow).
    apply filter_In in Hri. destruct Hri as [Hri Hid].
    apply in_map_iff in Hrow. destruct Hrow as (i & <- & Hi).
    apply filter_In in Hi. destruct Hi as [Hi Hk].
    exists ri, i. repeat split; try assumption.
    + apply String.eqb_eq. exact Hid.
    + symmetry. apply Z.eqb_eq. exact Hk.
  - intros (ri & i & Hri & Hid & Hi & Hk & ->).
    exists ri. split.
    + apply filter_In. split; [exact Hri|]. apply String.eqb_eq. exact Hid.
    + apply in_map_iff. exists i. split; [reflexivity|].
      apply filter_In. split; [exact Hi|]. apply Z.eqb_eq. symmetry. exact Hk.
Qed.

(** [id] is the primary key of [items]: a row is determined by its id. *)
Lemma primary_key_items (l : list Item) a b :
  NoDup (map item_id l) -> In a l -> In b l -> item_id a = item_id b -> a = b.
Proof.
  induction l as [|x rest IH]; simpl; intros Hnd Ha Hb Hid; [contradiction|].
  inversion Hnd as [|? ? Hx Hrest]; subst.
  destruct Ha as [->|Ha]; destruct Hb as [->|Hb].
  - reflexivity.
  - exfalso. apply Hx. rewrite Hid. apply in_map. exact Hb.
  - exfalso. apply Hx. rewrite <- Hid. apply in_map. exact Ha.
  - apply IH; assumption.
Qed.

Lemma approving_approve oldStatus :
  oldStatus <> Some "approved" ->
  approving (Some "approved") oldStatus = true.
Proof.
  intros H. unfold approving.
  rewrite (proj2 (is_str_false oldStatus "approved") H). reflexivity.
Qed.

(** The store an approval commits when nothing fails. *)
Lemma approval_effect id approved_by now d oldStatus :
  oldStatus <> Some "approved" ->
  let d' := set_status_effect id (Some "approved") oldStatus approved_by now d in
  items d' = map (fun i => fold_left deduct (Sql.join_lines id d) i) (items d)
  /\ stock_history d'
     = (stock_history d
        ++ map (approval_history id approved_by) (Sql.join_lines id d))%list.
Proof.
  intros H. unfold set_status_effect. rewrite (approving_approve _ H). simpl.
  rewrite approve_rows_items, approve_rows_stock_history. split; reflexivity.
Qed.

(** A status change answers success when the store rejects nothing, and
    a success answer means the whole effect is committed. *)
Lemma patch_success_effect id status approved_by now f d oldStatus :
  current_status id d = Some oldStatus ->
  let (d', r) := run (patch_request_status id status approved_by now) f d in
  (never_fails f -> r = Some (json JSuccess))
  /\ (r = Some (json JSuccess) ->
      d' = set_status_effect id status oldStatus approved_by now d).
Proof.
  intros Hcur.
  pose proof (patch_run_cases id status approved_by now f d) as Hc.
  pose proof (patch_run_ok id status approved_by now f d oldStatus) as Hok.
  destruct (run (patch_request_status id status approved_by now) f d)
    as [d' r].
  split.
  - intros Hf. specialize (Hok Hf Hcur). congruence.
  - intros ->. destruct Hc as [[_ (o & Ho & ->)]|[[H|[e H]] _]];
      try discriminate H.
    congruence.
Qed.

(** The example stores are what the handlers build from an empty store. *)
Lemma store_with_reachable :
  let d1 := fst (run (post_item body_item_A) no_faults empty_store) in
  fst (run (post_request "r1" 100
              (body_request [mkRequestLine 1 3; mkRequestLine 1 4]))
           no_faults d1)
  = store_with "pending" [mkRequestItem "r1" 1 3; mkRequestItem "r1" 1 4].
Proof. vm_compute. reflexivity. Qed.

(* ================================================================== *)
(** ** Atomicity of a status change *)
(* ================================================================== *)

(** C3. Whatever statement the store rejects, a status change ends in
    one of two ways: it answers success and the committed store is the
    complete effect (every line deducted with its history row, and the
    request marked), or it does not answer success and the committed
    store is exactly the one before the call, so the request keeps its
    status and every item its quantity.  No store with only some of the
    lines applied is ever committed. *)
Theorem patch_request_status_atomic id status approved_by now f d :
  let (d', r) := run (patch_request_status id status approved_by now) f d in
  (r = Some (json JSuccess)
   /\ exists oldStatus,
        current_status id d = Some oldStatus
        /\ d' = set_status_effect id status oldStatus approved_by now d)
  \/ (r <> Some (json JSuccess)
      /\ d' = d
      /\ current_status id d' = current_status id d
      /\ map item_quantity (items d') = map item_quantity (items d)).
Proof.
  pose proof (patch_run_cases id status approved_by now f d) as H.
  destruct (run (patch_request_status id status approved_by now) f d)
    as [d' r].
  destruct H as [[Hr Heff]|[Hr ->]].
  - left. split; assumption.
  - right. repeat split.
    destruct Hr as [->|[e ->]]; discriminate.
Qed.

(* ================================================================== *)
(** ** Approving an approved request *)
(* ================================================================== *)

(** A status change never touches items or history unless it is the
    approval of a request that is not approved yet. *)
Lemma patch_frame id status approved_by now f d oldStatus :
  current_status id d = Some oldStatus ->
  approving status oldStatus = false ->
  let d' := fst (run (patch_request_status id status approved_by now) f d) in
  items d' = items d
  /\ stock_history d' = stock_history d
  /\ request_items d' = request_items d
  /\ (requests d' = requests d \/ d' = mark_request id status now d).
Proof.
  intros Hcur Hg.
  pose proof (patch_run_cases id status approved_by now f d) as H.
  destruct (run (patch_request_status id status approved_by now) f d)
    as [d' r]. simpl.
  destruct H as [[_ (o & Ho & ->)]|[_ ->]].
  - assert (o = oldStatus) by congruence. subst o.
    rewrite set_status_effect_not_approving by exact Hg.
    repeat split; try reflexivity. right. reflexivity.
  - repeat split; try reflexivity. left. reflexivity.
Qed.

(** C2. Approving a request that is already approved - because it was
    approved before, or because the store is the result of a successful
    approval of the same request - changes no item and appends no
    history row, whatever the store rejects: approving twice deducts
    once. *)
Theorem approve_twice_deducts_once
        id by1 now1 f1 by2 now2 f2 (d0 d1 : DB) :
  current_status id d1 = Some (Some "approved")
  \/ run (patch_request_status id (Some "approved") by1 now1) f1 d0
     = (d1, Some (json JSuccess)) ->
  let d2 := fst (run (patch_request_status id (Some "approved") by2 now2) f2 d1) in
  items d2 = items d1 /\ stock_history d2 = stock_history d1.
Proof.
  intros H.
  assert (Hcur : current_status id d1 = Some (Some "approved")).
  { destruct H as [H|H]; [exact H|].
    apply patch_run_success in H. destruct H as (o & Ho & ->).
    eapply set_status_effect_current_status. exact Ho. }
  pose proof (patch_frame id (Some "approved") by2 now2 f2 d1 _ Hcur eq_refl)
    as (Hi & Hh & _).
  split; assumption.
Qed.

Lemma approve_twice_deducts_once_witness :
  let d0 := store_with "pending" [mkRequestItem "r1" 1 5] in
  let d1 := fst (run (patch_request_status "r1" (Some "approved")
                        (Some "manager") 200) no_faults d0) in
  let d2 := fst (run (patch_request_status "r1" (Some "approved")
                        (Some "manager") 300) no_faults d1) in
  map item_quantity (items d0) = [10]
  /\ map item_quantity (items d1) = [5]
  /\ items d2 = items d1 /\ stock_history d2 = stock_history d1.
Proof.
  split; [reflexivity|]. split; [reflexivity|].
  apply (approve_twice_deducts_once "r1" (Some "manager") 200 no_faults
           (Some "manager") 300 no_faults
           (store_with "pending" [mkRequestItem "r1" 1 5])).
  right. vm_compute. reflexivity.
Defined.

(* ================================================================== *)
(** ** Status changes other than an approval *)
(* ================================================================== *)

Lemma not_approved_not_approving status oldStatus :
  status <> Some "approved" -> approving status oldStatus = false.
Proof.
  intros H. unfold approving.
  rewrite (proj2 (is_str_false status "approved") H). reflexivity.
Qed.

(** C7, as the handler has it. A status change to anything but
    "approved" on an existing request leaves every item, the history and
    the request's lines as they are, whatever the store rejects.  It
    answers success whenever the store rejects nothing.  When it answers
    success the request has the new status and the instant of the call
    as "updatedAt", every other field of it and every other request are
    as they were; when it does not, the store is the one before the
    call. *)
Theorem set_status_other_frame id status approved_by now f d oldStatus :
  status <> Some "approved" ->
  current_status id d = Some oldStatus ->
  let (d', r) := run (patch_request_status id status approved_by now) f d in
  items d' = items d
  /\ stock_history d' = stock_history d
  /\ request_items d' = request_items d
  /\ items_id_seq d' = items_id_seq d
  /\ (never_fails f -> r = Some (json JSuccess))
  /\ (r = Some (json JSuccess) ->
      rows_updated (status_changed id status now) (requests d) (requests d')
      /\ current_status id d' = Some status)
  /\ (r <> Some (json JSuccess) -> d' = d).
Proof.
  intros Hst Hcur.
  pose proof (not_approved_not_approving status oldStatus Hst) as Hg.
  pose proof (patch_run_cases id status approved_by now f d) as Hc.
  pose proof (patch_run_ok id status approved_by now f d oldStatus) as Hok.
  destruct (run (patch_request_status id status approved_by now) f d)
    as [d' r].
  assert (Heff : set_status_effect id status oldStatus approved_by now d
                 = mark_request id status now d)
    by (apply set_status_effect_not_approving; exact Hg).
  assert (Hd' : d' = mark_request id status now d \/ d' = d).
  { destruct Hc as [[_ (o & Ho & ->)]|[_ ->]]; [left|right; reflexivity].
    assert (o = oldStatus) by congruence. subst o. exact Heff. }
  split; [destruct Hd' as [->| ->]; reflexivity|].
  split; [destruct Hd' as [->| ->]; reflexivity|].
  split; [destruct Hd' as [->| ->]; reflexivity|].
  split; [destruct Hd' as [->| ->]; reflexivity|].
  split; [intros Hf; specialize (Hok Hf Hcur); congruence|].
  split.
  - intros Hr.
    assert (Hm : d' = mark_request id status now d).
    { destruct Hc as [[_ (o & Ho & ->)]|[[Hn|[e He]] _]].
      - assert (o = oldStatus) by congruence. subst o. exact Heff.
      - congruence.
      - rewrite He in Hr. discriminate Hr. }
    subst d'. split.
    + exists (requests (mark_request id status now d)).
      split; [apply Permutation_refl|].
      unfold mark_request. simpl.
      induction (requests d) as [|q l IH]; simpl; constructor; [|exact IH].
      unfold status_changed.
      destruct (req_id q =? id)%string; simpl; repeat split.
    + apply (mark_request_current_status id status now d oldStatus Hcur).
  - intros Hr. destruct Hc as [[Hs _]|[_ ->]]; [contradiction|reflexivity].
Qed.

Lemma set_status_other_frame_witness :
  let d := store_with "pending" [mkRequestItem "r1" 1 5] in
  let (d', r) := run (patch_request_status "r1" (Some "rejected") None 200)
                     no_faults d in
  requests d = [mkRequest "r1" (Some "P") None (Some EmptyString)
                          (Some "medium") None (Some "pending") 100 100]
  /\ requests d' = [mkRequest "r1" (Some "P") None (Some EmptyString)
                              (Some "medium") None (Some "rejected") 100 200]
  /\ items d' = items d
  /\ stock_history d' = stock_history d
  /\ request_items d' = request_items d
  /\ items_id_seq d' = items_id_seq d
  /\ (never_fails no_faults -> r = Some (json JSuccess))
  /\ (r = Some (json JSuccess) ->
      rows_updated (status_changed "r1" (Some "rejected") 200)
                   (requests d) (requests d')
      /\ current_status "r1" d' = Some (Some "rejected"))
  /\ (r <> Some (json JSuccess) -> d' = d).
Proof.
  cbv zeta.
  pose proof (set_status_other_frame "r1" (Some "rejected") None 200 no_faults
                (store_with "pending" [mkRequestItem "r1" 1 5])
                (Some "pending")) as H.
  destruct (run (patch_request_status "r1" (Some "rejected") None 200)
                no_faults (store_with "pending" [mkRequestItem "r1" 1 5]))
    as [d' r] eqn:E.
  injection E as <- <-.
  split; [reflexivity|]. split; [reflexivity|].
  apply H.
  - discriminate.
  - reflexivity.
Defined.

(** C7 as stated fails: rejecting a pending request also moves its
    "updatedAt" from 100 to the instant of the call. *)
Lemma set_status_touches_updatedAt :
  let d := store_with "pending" [mkRequestItem "r1" 1 5] in
  ~ only_status_updated "r1" (Some "rejected") d
      (fst (run (patch_request_status "r1" (Some "rejected") None 200)
                no_faults d)).
Proof.
  intros d (_ & _ & _ & H). vm_compute in H. discriminate H.
Qed.

(* ================================================================== *)
(** ** Completed requests *)
(* ================================================================== *)




(* ================================================================== *)
(** ** Soft delete of an item *)
(* ================================================================== *)

(** C10, as the handler has it. Deleting an item never touches the
    history, the requests or their lines.  When the store executes the
    statement the answer is [{success: true}] whether or not a row has
    the given id; every row of [items] is still there, a row with the id
    has ["isActive" = 0] and every other column as before, every other
    row is as before.  When the store rejects the statement the answer
    is the 500 of the catch block and nothing has changed. *)
Theorem delete_item_soft id f d :
  let (d', r) := run (delete_item id) f d in
  stock_history d' = stock_history d
  /\ requests d' = requests d
  /\ request_items d' = request_items d
  /\ items_id_seq d' = items_id_seq d
  /\ if f 0%nat
     then r = Some (mkResponse 500 (JFailError StoreError)) /\ d' = d
     else r = Some (json JSuccess)
          /\ rows_updated (soft_deleted id) (items d) (items d')
          /\ List.length (items d') = List.length (items d).
Proof.
  unfold run, delete_item, try_catch, bind, pool_query. simpl.
  destruct (f 0%nat); simpl.
  - repeat split.
  - split; [reflexivity|]. split; [reflexivity|]. split; [reflexivity|].
    split; [reflexivity|]. split; [reflexivity|].
    split; [|apply length_map].
    exists (map (fun i => if item_id i =? id then Sql.with_isActive 0 i else i)
                (items d)).
    split; [apply Permutation_refl|].
    induction (items d) as [|i l IH]; simpl; constructor; [|exact IH].
    unfold soft_deleted.
    destruct (item_id i =? id); simpl; repeat split.
Qed.

Lemma delete_item_soft_witness :
  let d := store_with "pending" [mkRequestItem "r1" 1 5] in
  let (d', r) := run (delete_item 1) no_faults d in
  items d = [mkItem 1 "A" None None 10 2 (Some "pcs") (Some "in-stock")
                    (Some 0) (Some 1)]
  /\ items d' = [mkItem 1 "A" None None 10 2 (Some "pcs") (Some "in-stock")
                        (Some 0) (Some 0)]
  /\ stock_history d' = stock_history d
  /\ requests d' = requests d
  /\ request_items d' = request_items d
  /\ items_id_seq d' = items_id_seq d
  /\ r = Some (json JSuccess)
  /\ rows_updated (soft_deleted 1) (items d) (items d')
  /\ List.length (items d') = List.length (items d).
Proof.
  cbv zeta.
  pose proof (delete_item_soft 1 no_faults
                (store_with "pending" [mkRequestItem "r1" 1 5])) as H.
  destruct (run (delete_item 1) no_faults
                (store_with "pending" [mkRequestItem "r1" 1 5]))
    as [d' r] eqn:E.
  injection E as <- <-.
  split; [reflexivity|]. split; [reflexivity|].
  exact H.
Defined.

(** C10 as stated fails: the answer is not always [{success: true}].
    An id outside the range of the [INT] column makes the store reject
    the statement, and the catch block answers 500. *)
Lemma delete_item_rejected :
  let d := store_with "pending" [mkRequestItem "r1" 1 5] in
  run (delete_item 2147483648) (fun n => Nat.eqb n 0) d
  = (d, Some (mkResponse 500 (JFailError StoreError)))
  /\ ~ delete_always_succeeds.
Proof.
  split; [reflexivity|].
  intros H.
  specialize (H 2147483648 (fun n => Nat.eqb n 0)
                (store_with "pending" [mkRequestItem "r1" 1 5])).
  discriminate H.
Qed.

(* ================================================================== *)
(** ** Quantities after an approval *)
(* ================================================================== *)

(** Approving a request that is not approved yet answers success
    whenever the store rejects no statement - there is no stock check to
    fail.  When it answers success, for a line whose item is named by no
    other line of the request (or only by lines asking for the same
    quantity), the item's persisted quantity afterwards is
    [max 0 (current - requested)], with [current] the quantity before
    the call. *)
Lemma approval_deducts_line id approved_by now f d oldStatus ri i :
  current_status id d = Some oldStatus ->
  oldStatus <> Some "approved" ->
  NoDup (map item_id (items d)) ->
  In ri (request_items d) -> ri_request_id ri = id ->
  In i (items d) -> item_id i = ri_item_id ri ->
  (forall ri', In ri' (request_items d) -> ri_request_id ri' = id ->
               ri_item_id ri' = ri_item_id ri ->
               ri_quantity ri' = ri_quantity ri) ->
  let (d', r) :=
    run (patch_request_status id (Some "approved") approved_by now) f d in
  (never_fails f -> r = Some (json JSuccess))
  /\ (r = Some (json JSuccess) ->
      (exists i', In i' (items d') /\ item_id i' = item_id i)
      /\ (forall i', In i' (items d') -> item_id i' = item_id i ->
                     item_quantity i'
                     = Z.max 0 (item_quantity i - ri_quantity ri))).
Proof.
  intros Hcur Hold Hpk Hri Hid Hi Hk Hsame.
  pose proof (patch_success_effect id (Some "approved") approved_by now f d
                oldStatus Hcur) as Hrun.
  destruct (run (patch_request_status id (Some "approved") approved_by now) f d)
    as [d' r].
  destruct Hrun as [Hsucc Heff]. split; [exact Hsucc|].
  intros Hr. rewrite (Heff Hr).
  destruct (approval_effect id approved_by now d oldStatus Hold) as [Hitems _].
  rewrite Hitems. split.
  - exists (fold_left deduct (Sql.join_lines id d) i). split.
    + apply in_map_iff. exists i. split; [reflexivity|exact Hi].
    + apply fold_deduct_item_id.
  - intros i' Hin' Hid'.
    apply in_map_iff in Hin'. destruct Hin' as (i0 & <- & Hi0).
    rewrite fold_deduct_item_id in Hid'.
    assert (i0 = i) by (apply (primary_key_items (items d)); assumption).
    subst i0.
    apply fold_deduct_quantity.
    + intros item Hitem Hnames.
      apply in_join_lines in Hitem.
      destruct Hitem as (ri' & i2 & Hri' & Hid2 & Hi2 & Hk2 & ->).
      simpl in Hnames. unfold newQty. simpl.
      assert (i2 = i).
      { apply (primary_key_items (items d)); try assumption. congruence. }
      subst i2.
      rewrite (Hsame ri' Hri' Hid2) by congruence. reflexivity.
    + exists (mkLineRow (ri_item_id ri) (ri_quantity ri) (item_quantity i)
                        (item_minQuantity i) (item_name i)).
      split; [|simpl; congruence].
      apply in_join_lines. exists ri, i. repeat split; assumption.
Qed.

(** C1 fails on the code when two lines of the request name the same
    item.  The handler reads the quantity of every line once, in the one
    join before the loop, and each pass of the loop writes
    [max 0 (current - requested)] from that reading: the second
    [UPDATE] overwrites the first.  With lines for 3 and for 4 of an
    item that holds 10 the approval answers success, the item ends with
    6 and not with [max 0 (10 - 3) = 7] for the first line - while the
    two history rows it writes say that 3 and 4 were taken. *)
Theorem approval_two_lines_same_item :
  let d := store_with "pending"
             [mkRequestItem "r1" 1 3; mkRequestItem "r1" 1 4] in
  let (d', r) :=
    run (patch_request_status "r1" (Some "approved") None 200) no_faults d in
  r = Some (json JSuccess)
  /\ map item_quantity (items d) = [10]
  /\ map item_quantity (items d') = [6]
  /\ map sh_quantity_change (stock_history d') = [-3; -4]
  /\ Z.max 0 (10 - 3) = 7
  /\ ~ every_line_deducted "r1" d d'.
Proof.
  cbv zeta.
  assert (E : run (patch_request_status "r1" (Some "approved") None 200)
                  no_faults
                  (store_with "pending"
                     [mkRequestItem "r1" 1 3; mkRequestItem "r1" 1 4])
              = (mkDB [Sql.with_quantity_status 6 "in-stock" item_A] 2
                      [Sql.with_status_updatedAt (Some "approved") 200
                         (request_r1 "pending")]
                      [mkRequestItem "r1" 1 3; mkRequestItem "r1" 1 4]
                      [mkStockHistory 1 "request" 10 (-3) 7
                                      (Some "Approved request r1") None;
                       mkStockHistory 1 "request" 10 (-4) 6
                                      (Some "Approved request r1") None],
                 Some (json JSuccess))) by reflexivity.
  rewrite E. repeat (split; [reflexivity|]).
  intros H.
  specialize (H (mkRequestItem "r1" 1 3) item_A
                (Sql.with_quantity_status 6 "in-stock" item_A)).
  assert (E6 : 6 = Z.max 0 (10 - 3)).
  { apply H; try reflexivity.
    - left. reflexivity.
    - left. reflexivity.
    - left. reflexivity. }
  discriminate E6.
Qed.

(* ================================================================== *)
(** ** History rows written by an approval *)
(* ================================================================== *)

(** Approving a request that is not approved yet answers success
    whenever the store rejects no statement.  When it answers success it
    has appended one history row per line of the request (per row of the
    join), in order, and nothing else.  Each row has change type
    "request", [quantity_before] the item's quantity before the call,
    [quantity_change] the negated requested quantity, not clamped, and
    [quantity_after] the clamped new quantity. *)
Lemma approval_history_rows id approved_by now f d oldStatus :
  current_status id d = Some oldStatus ->
  oldStatus <> Some "approved" ->
  let (d', r) :=
    run (patch_request_status id (Some "approved") approved_by now) f d in
  (never_fails f -> r = Some (json JSuccess))
  /\ (r = Some (json JSuccess) ->
      (exists new,
         stock_history d' = (stock_history d ++ new)%list
         /\ List.length new = List.length (Sql.join_lines id d)
         /\ Forall
              (fun e =>
                 sh_change_type e = "request"
                 /\ exists ri i,
                      In ri (request_items d) /\ ri_request_id ri = id
                      /\ In i (items d) /\ item_id i = ri_item_id ri
                      /\ sh_item_id e = item_id i
                      /\ sh_quantity_before e = item_quantity i
                      /\ sh_quantity_change e = - ri_quantity ri
                      /\ sh_quantity_after e
                         = Z.max 0 (item_quantity i - ri_quantity ri))
              new)
      /\ (forall ri i,
            In ri (request_items d) -> ri_request_id ri = id ->
            In i (items d) -> item_id i = ri_item_id ri ->
            In (mkStockHistory (item_id i) "request" (item_quantity i)
                  (- ri_quantity ri)
                  (Z.max 0 (item_quantity i - ri_quantity ri))
                  (Some ("Approved request " ++ id)) (Js.or_null approved_by))
               (stock_history d'))).
Proof.
  intros Hcur Hold.
  pose proof (patch_success_effect id (Some "approved") approved_by now f d
                oldStatus Hcur) as Hrun.
  destruct (run (patch_request_status id (Some "approved") approved_by now) f d)
    as [d' r].
  destruct Hrun as [Hsucc Heff]. split; [exact Hsucc|].
  intros Hr. rewrite (Heff Hr).
  destruct (approval_effect id approved_by now d oldStatus Hold) as [_ Hhist].
  rewrite Hhist. split.
  - exists (map (approval_history id approved_by) (Sql.join_lines id d)).
    split; [reflexivity|]. split; [apply length_map|].
    apply Forall_forall. intros e He.
    apply in_map_iff in He. destruct He as (item & <- & Hitem).
    apply in_join_lines in Hitem.
    destruct Hitem as (ri & i & Hri & Hid & Hi & Hk & ->).
    split; [reflexivity|]. exists ri, i.
    unfold approval_history, newQty. simpl.
    repeat split; try assumption. symmetry. exact Hk.
  - intros ri i Hri Hid Hi Hk. apply in_or_app. right.
    apply in_map_iff.
    exists (mkLineRow (ri_item_id ri) (ri_quantity ri) (item_quantity i)
                      (item_minQuantity i) (item_name i)).
    split.
    + unfold approval_history, newQty. simpl. rewrite Hk. reflexivity.
    + apply in_join_lines. exists ri, i. repeat split; assumption.
Qed.

(** C5 fails on the code when two lines of the request name the same
    item: both rows are computed from the one reading before the loop.
    With lines for 3 and for 4 of an item that holds 10, the second row
    records [quantity_before] 10 although the item held 7 when that line
    was deducted, and the first row records [quantity_after] 7, a
    quantity that is never the persisted one: the item ends with 6. *)
Theorem approval_rows_of_repeated_item :
  let d := store_with "pending"
             [mkRequestItem "r1" 1 3; mkRequestItem "r1" 1 4] in
  let (d', r) :=
    run (patch_request_status "r1" (Some "approved") (Some "manager") 200)
        no_faults d in
  r = Some (json JSuccess)
  /\ stock_history d = []
  /\ stock_history d'
     = [mkStockHistory 1 "request" 10 (-3) 7 (Some "Approved request r1")
                       (Some "manager");
        mkStockHistory 1 "request" 10 (-4) 6 (Some "Approved request r1")
                       (Some "manager")]
  /\ map item_quantity (items d') = [6]
  /\ ~ rows_record_deductions d (stock_history d') d'.
Proof.
  cbv zeta.
  assert (E : run (patch_request_status "r1" (Some "approved")
                     (Some "manager") 200)
                  no_faults
                  (store_with "pending"
                     [mkRequestItem "r1" 1 3; mkRequestItem "r1" 1 4])
              = (mkDB [Sql.with_quantity_status 6 "in-stock" item_A] 2
                      [Sql.with_status_updatedAt (Some "approved") 200
                         (request_r1 "pending")]
                      [mkRequestItem "r1" 1 3; mkRequestItem "r1" 1 4]
                      [mkStockHistory 1 "request" 10 (-3) 7
                                      (Some "Approved request r1")
                                      (Some "manager");
                       mkStockHistory 1 "request" 10 (-4) 6
                                      (Some "Approved request r1")
                                      (Some "manager")],
                 Some (json JSuccess))) by reflexivity.
  rewrite E. repeat (split; [reflexivity|]).
  intros H.
  destruct (H item_A (Sql.with_quantity_status 6 "in-stock" item_A))
    as [Hch _]; [left; reflexivity|left; reflexivity|reflexivity|].
  simpl in Hch. destruct Hch as (_ & Hbad & _). discriminate Hbad.
Qed.

(* ================================================================== *)
(** ** Approving a request whose lines name different items *)
(* ================================================================== *)

Lemma key_determines {A} (key : A -> Z) (l : list A) a b :
  NoDup (map key l) -> In a l -> In b l -> key a = key b -> a = b.
Proof.
  induction l as [|x rest IH]; simpl; intros Hnd Ha Hb Hk; [contradiction|].
  inversion Hnd as [|? ? Hx Hrest]; subst.
  destruct Ha as [->|Ha]; destruct Hb as [->|Hb].
  - reflexivity.
  - exfalso. apply Hx. rewrite Hk. apply in_map. exact Hb.
  - exfalso. apply Hx. rewrite <- Hk. apply in_map. exact Ha.
  - apply IH; assumption.
Qed.

Lemma entries_of_approval_rows id approved_by k rows :
  entries_of k (map (approval_history id approved_by) rows)
  = map (approval_history id approved_by)
        (filter (fun item => row_item_id item =? k) rows).
Proof.
  unfold entries_of. induction rows as [|item rest IH]; simpl; [reflexivity|].
  destruct (row_item_id item =? k); simpl; rewrite IH; reflexivity.
Qed.

Lemma filter_key_one (rows : list LineRow) k :
  NoDup (map row_item_id rows) ->
  filter (fun item => row_item_id item =? k) rows = []
  \/ exists item, In item rows /\ row_item_id item = k
                  /\ filter (fun item => row_item_id item =? k) rows = [item].
Proof.
  induction rows as [|x rest IH]; simpl; intros Hnd; [left; reflexivity|].
  inversion Hnd as [|? ? Hx Hrest]; subst.
  destruct (Z.eqb_spec (row_item_id x) k) as [E|E].
  - right. exists x. split; [left; reflexivity|]. split; [exact E|].
    f_equal. apply filter_none. intros y Hy. apply Z.eqb_neq.
    intros Ey. apply Hx. rewrite E, <- Ey. apply in_map. exact Hy.
  - destruct (IH Hrest) as [Hn|(item & Hin & Hk & Hf)]; [left; exact Hn|].
    right. exists item. split; [right; exact Hin|]. split; assumption.
Qed.

(** X27. Approving a request whose lines name pairwise different items,
    on a store where item ids are a key.  The approval answers success
    whenever the store rejects no statement, and when it answers
    success: it has appended exactly one history row per line; for every
    line the item holds [max 0 (current - requested)] afterwards, and
    the row of the line says so - change type "request", the quantity
    before the call, the negated requested quantity, not clamped, and
    the quantity the item now holds; the rows follow the stock. *)
Theorem approval_of_distinct_lines id approved_by now f d oldStatus :
  current_status id d = Some oldStatus ->
  oldStatus <> Some "approved" ->
  NoDup (map item_id (items d)) ->
  NoDup (map row_item_id (Sql.join_lines id d)) ->
  let (d', r) :=
    run (patch_request_status id (Some "approved") approved_by now) f d in
  (never_fails f -> r = Some (json JSuccess))
  /\ (r = Some (json JSuccess) ->
      exists new,
        stock_history d' = (stock_history d ++ new)%list
        /\ List.length new = List.length (Sql.join_lines id d)
        /\ rows_record_deductions d new d'
        /\ forall ri i,
             In ri (request_items d) -> ri_request_id ri = id ->
             In i (items d) -> item_id i = ri_item_id ri ->
             exists i',
               In i' (items d') /\ item_id i' = item_id i
               /\ item_quantity i'
                  = Z.max 0 (item_quantity i - ri_quantity ri)
               /\ In (mkStockHistory (item_id i) "request" (item_quantity i)
                        (- ri_quantity ri) (item_quantity i')
                        (Some ("Approved request " ++ id))
                        (Js.or_null approved_by))
                     new).
Proof.
  intros Hcur Hold Hpk Hnd.
  pose proof (patch_success_effect id (Some "approved") approved_by now f d
                oldStatus Hcur) as Hrun.
  destruct (run (patch_request_status id (Some "approved") approved_by now) f d)
    as [d' r].
  destruct Hrun as [Hsucc Heff]. split; [exact Hsucc|].
  intros Hr. rewrite (Heff Hr).
  destruct (approval_effect id approved_by now d oldStatus Hold)
    as [Hitems Hhist].
  rewrite Hitems, Hhist.
  exists (map (approval_history id approved_by) (Sql.join_lines id d)).
  split; [reflexivity|]. split; [apply length_map|].
  assert (Hline : forall item i,
             In item (Sql.join_lines id d) -> In i (items d) ->
             row_item_id item = item_id i ->
             current_qty item = item_quantity i
             /\ item_quantity (fold_left deduct (Sql.join_lines id d) i)
                = newQty item).
  { intros item i Hitem Hi Hk. split.
    - apply in_join_lines in Hitem.
      destruct Hitem as (ri & i2 & _ & _ & Hi2 & Hk2 & ->). simpl in *.
      rewrite (primary_key_items (items d) i i2 Hpk Hi Hi2); congruence.
    - apply fold_deduct_quantity.
      + intros item' Hitem' Hk'.
        rewrite (key_determines row_item_id _ item' item Hnd Hitem' Hitem);
          congruence.
      + exists item. auto. }
  split.
  - intros i i' Hi Hi' Hid. rewrite Hitems in Hi'.
    apply in_map_iff in Hi'. destruct Hi' as (i0 & <- & Hi0).
    rewrite fold_deduct_item_id in Hid.
    assert (i0 = i) by (apply (primary_key_items (items d)); assumption).
    subst i0. rewrite entries_of_approval_rows.
    destruct (filter_key_one (Sql.join_lines id d) (item_id i) Hnd)
      as [Hn|(item & Hitem & Hk & Hf)].
    + rewrite Hn. simpl. split; [exact I|].
      rewrite fold_deduct_untouched; [reflexivity|].
      intros item Hitem Hk.
      assert (Hin : In item (filter (fun it => row_item_id it =? item_id i)
                                    (Sql.join_lines id d)))
        by (apply filter_In; split; [exact Hitem|apply Z.eqb_eq; exact Hk]).
      rewrite Hn in Hin. exact Hin.
    + rewrite Hf. simpl.
      destruct (Hline item i Hitem Hi Hk) as [Hq Hnew].
      split; [split; [exact Hq|exact I]|]. rewrite Hnew. reflexivity.
  - intros ri i Hri Hid Hi Hk.
    assert (Hitem : In (mkLineRow (ri_item_id ri) (ri_quantity ri)
                          (item_quantity i) (item_minQuantity i) (item_name i))
                       (Sql.join_lines id d))
      by (apply in_join_lines; exists ri, i; repeat split; assumption).
    destruct (Hline _ i Hitem Hi) as [_ Hnew]; [simpl; congruence|].
    exists (fold_left deduct (Sql.join_lines id d) i).
    split; [apply in_map_iff; exists i; split; [reflexivity|exact Hi]|].
    split; [apply fold_deduct_item_id|].
    split; [exact Hnew|].
    apply in_map_iff. eexists. split; [|exact Hitem].
    unfold approval_history. simpl. rewrite Hnew, Hk. reflexivity.
Qed.

Lemma approval_of_distinct_lines_witness :
  let d := store_with "pending" [mkRequestItem "r1" 1 20] in
  let (d', r) :=
    run (patch_request_status "r1" (Some "approved") (Some "manager") 200)
        no_faults d in
  map item_quantity (items d') = [0]
  /\ stock_history d'
     = [mkStockHistory 1 "request" 10 (-20) 0 (Some "Approved request r1")
                       (Some "manager")]
  /\ (never_fails no_faults -> r = Some (json JSuccess))
  /\ (r = Some (json JSuccess) ->
      exists new,
        stock_history d' = (stock_history d ++ new)%list
        /\ List.length new = List.length (Sql.join_lines "r1" d)
        /\ rows_record_deductions d new d'
        /\ forall ri i,
             In ri (request_items d) -> ri_request_id ri = "r1" ->
             In i (items d) -> item_id i = ri_item_id ri ->
             exists i',
               In i' (items d') /\ item_id i' = item_id i
               /\ item_quantity i'
                  = Z.max 0 (item_quantity i - ri_quantity ri)
               /\ In (mkStockHistory (item_id i) "request" (item_quantity i)
                        (- ri_quantity ri) (item_quantity i')
                        (Some ("Approved request " ++ "r1"))
                        (Js.or_null (Some "manager")))
                     new).
Proof.
  cbv zeta.
  pose proof (approval_of_distinct_lines "r1" (Some "manager") 200 no_faults
                (store_with "pending" [mkRequestItem "r1" 1 20])
                (Some "pending")) as H.
  destruct (run (patch_request_status "r1" (Some "approved") (Some "manager")
                                      200)
                no_faults (store_with "pending" [mkRequestItem "r1" 1 20]))
    as [d' r] eqn:E.
  injection E as <- <-.
  split; [reflexivity|]. split; [reflexivity|].
  apply H.
  - reflexivity.
  - discriminate.
  - repeat constructor. intros [].
  - repeat constructor. intros [].
Defined.

(* ================================================================== *)
(** ** The stored status of an item *)
(* ================================================================== *)

(** On a quantity that is not negative the handler's expression is the
    derivation rule of the data model. *)
Lemma itemStatus_spec_status q m : 0 <= q -> itemStatus q m = spec_status q m.
Proof.
  intros Hq. unfold itemStatus, spec_status. rewrite or0_id.
  destruct (Z.eqb_spec q 0) as [E|E]; [reflexivity|].
  assert (H0 : (0 <? q) = true) by (apply Z.ltb_lt; lia).
  rewrite H0. reflexivity.
Qed.

Lemma newQty_nonneg item : 0 <= newQty item.
Proof. unfold newQty. lia. Qed.

(** The loop leaves an item alone or leaves it as its last row set it. *)
Lemma fold_deduct_cases rows : forall i,
  ((forall item, In item rows -> row_item_id item <> item_id i)
   /\ fold_left deduct rows i = i)
  \/ exists item,
       In item rows /\ row_item_id item = item_id i
       /\ fold_left deduct rows i
          = Sql.with_quantity_status (newQty item)
              (itemStatus (newQty item) (row_minQuantity item)) i.
Proof.
  induction rows as [|item rest IH]; intros i; simpl.
  - left. split; [intros ? []|reflexivity].
  - destruct (IH (deduct i item)) as [[Hno Heq]|(r & Hr & Hid & Heq)].
    + rewrite Heq. unfold deduct.
      destruct (Z.eqb_spec (item_id i) (row_item_id item)) as [E|E].
      * right. exists item. split; [left; reflexivity|]. split; congruence.
      * left. split; [|reflexivity].
        intros it [<-|Hit]; [congruence|].
        specialize (Hno it Hit). rewrite deduct_item_id in Hno. exact Hno.
    + right. exists r. rewrite deduct_item_id in Hid.
      split; [right; exact Hr|]. split; [exact Hid|].
      rewrite Heq. unfold deduct.
      destruct (item_id i =? row_item_id item); reflexivity.
Qed.

(** X1. The approval path does recompute the status: after an approval
    every item named by a line of the request stores the status derived
    from its new quantity and its threshold. *)
Lemma approval_status_derived id approved_by now f d oldStatus i' :
  never_fails f ->
  current_status id d = Some oldStatus ->
  oldStatus <> Some "approved" ->
  NoDup (map item_id (items d)) ->
  let d' := fst (run (patch_request_status id (Some "approved") approved_by now)
                     f d) in
  In i' (items d') ->
  (exists ri, In ri (request_items d) /\ ri_request_id ri = id
              /\ ri_item_id ri = item_id i') ->
  item_status i' = Some (spec_status (item_quantity i') (item_minQuantity i')).
Proof.
  intros Hf Hcur Hold Hpk.
  rewrite (patch_run_ok id (Some "approved") approved_by now f d _ Hf Hcur).
  cbv zeta. unfold fst.
  destruct (approval_effect id approved_by now d oldStatus Hold) as [Hitems _].
  rewrite Hitems. clear Hitems.
  intros Hin (ri & Hri & Hid & Hk).
  apply in_map_iff in Hin. destruct Hin as (i & <- & Hi).
  rewrite fold_deduct_item_id in Hk.
  destruct (fold_deduct_cases (Sql.join_lines id d) i)
    as [[Hno _]|(item & Hitem & Hnames & ->)].
  - exfalso.
    apply (Hno (mkLineRow (ri_item_id ri) (ri_quantity ri) (item_quantity i)
                          (item_minQuantity i) (item_name i))).
    + apply in_join_lines. exists ri, i. repeat split; auto.
    + simpl. exact Hk.
  - simpl. rewrite itemStatus_spec_status by apply newQty_nonneg.
    apply in_join_lines in Hitem.
    destruct Hitem as (ri' & i2 & _ & _ & Hi2 & Hk2 & ->).
    simpl in Hnames. simpl.
    assert (i2 = i).
    { apply (primary_key_items (items d)); try assumption. congruence. }
    subst i2. reflexivity.
Qed.

(** C4 fails on the code. Creating an item with quantity 0 stores the
    status "in-stock" where the rule gives "out-of-stock"; setting the
    quantity of an item to 0 through [PUT] leaves the stored status
    "in-stock"; neither handler recomputes the status. *)
Theorem stored_status_not_rederived :
  (let d' := fst (run (post_item
                         (mkPostItemBody (Some "B") None None (Some 0) (Some 0)
                                         None None))
                      no_faults empty_store) in
   map item_quantity (items d') = [0]
   /\ map item_status (items d') = [Some "in-stock"]
   /\ spec_status 0 0 = "out-of-stock")
  /\ (let d := store_with "pending" [] in
      let d' := fst (run (put_item 1 (body_quantity 0)) no_faults d) in
      map item_quantity (items d') = [0]
      /\ map item_minQuantity (items d') = [2]
      /\ map item_status (items d') = [Some "in-stock"]
      /\ spec_status 0 2 = "out-of-stock").
Proof.
  split.
  - vm_compute. repeat split.
  - vm_compute. repeat split.
Qed.

(* ================================================================== *)
(** ** [PUT /api/items/:id] and its history row *)
(* ================================================================== *)

(** C8 fails on the code. The [UPDATE] and the [INSERT] of the handler
    are two pool queries, each committed on its own: when the store
    rejects the [INSERT] (the third statement), the new quantity stays
    persisted and no history row exists for it. *)
Theorem put_item_update_without_history :
  let d := store_with "pending" [] in
  let (d', r) := run (put_item 1 (body_quantity 5)) (fun n => Nat.eqb n 2) d in
  r = Some (mkResponse 500 (JFailError StoreError))
  /\ map item_quantity (items d) = [10]
  /\ map item_quantity (items d') = [5]
  /\ stock_history d' = [].
Proof.
  vm_compute. repeat split.
Qed.

(* ================================================================== *)
(** ** Chains of history rows *)
(* ================================================================== *)

Lemma chained_from_app l : forall prev l',
  chained_from prev (l ++ l')
  <-> chained_from prev l /\ chained_from (closing_from prev l) l'.
Proof.
  induction l as [|e rest IH]; intros prev l'; simpl.
  - tauto.
  - rewrite IH. tauto.
Qed.

Lemma closing_from_app l : forall prev l',
  closing_from prev (l ++ l') = closing_from (closing_from prev l) l'.
Proof.
  induction l as [|e rest IH]; intros prev l'; simpl; [reflexivity|].
  apply IH.
Qed.

Lemma entries_of_app k h h' :
  entries_of k (h ++ h') = (entries_of k h ++ entries_of k h')%list.
Proof. unfold entries_of. apply filter_app. Qed.

Lemma entries_of_none k h :
  (forall e, In e h -> sh_item_id e <> k) -> entries_of k h = [].
Proof.
  induction h as [|e rest IH]; intros H; simpl; [reflexivity|].
  destruct (Z.eqb_spec (sh_item_id e) k) as [E|E].
  - exfalso. apply (H e); [left; reflexivity|exact E].
  - apply IH. intros e' He'. apply H. right. exact He'.
Qed.

(** Appending one row for item [k0] that starts from the quantity every
    row of that item holds and sets all of them to the quantity it ends
    with keeps the ledger chained. *)
Lemma ledger_chained_write d items' e :
  ledger_chained d ->
  (exists i, In i (items d) /\ item_id i = sh_item_id e) ->
  (forall i, In i (items d) -> item_id i = sh_item_id e ->
             item_quantity i = sh_quantity_before e) ->
  (forall i', In i' items' ->
     exists i, In i (items d) /\ item_id i' = item_id i
               /\ item_quantity i'
                  = if item_id i =? sh_item_id e
                    then sh_quantity_after e else item_quantity i) ->
  ledger_chained
    (set_stock_history (set_items d items') (stock_history d ++ [e])).
Proof.
  intros Hl (i0 & Hi0 & Hid0) Hbefore Hitems k.
  destruct (Hl k) as [Hch Hq]. simpl.
  rewrite entries_of_app, chained_from_app, closing_from_app. simpl.
  destruct (Z.eqb_spec (sh_item_id e) k) as [E|E]; simpl.
  - subst k. split.
    + split; [exact Hch|]. split; [|exact I].
      destruct (closing_from None (entries_of (sh_item_id e) (stock_history d)))
        as [a|] eqn:Hc; [|exact I].
      rewrite <- (Hbefore i0 Hi0 Hid0). apply (Hq i0 a Hi0 Hid0 eq_refl).
    + intros i' a Hi' Hid' Ha. injection Ha as <-.
      destruct (Hitems i' Hi') as (i & Hi & Hsame & Hqty).
      rewrite Hqty. rewrite <- Hsame, Hid'. rewrite Z.eqb_refl. reflexivity.
  - split; [tauto|].
    intros i' a Hi' Hid' Ha.
    destruct (Hitems i' Hi') as (i & Hi & Hsame & Hqty).
    rewrite Hqty.
    destruct (Z.eqb_spec (item_id i) (sh_item_id e)) as [E'|E'];
      [exfalso; apply E; congruence|].
    apply (Hq i a Hi); [congruence|exact Ha].
Qed.

(** Rewriting rows of [items] without moving an id or a quantity keeps
    the ledger chained. *)
Lemma ledger_chained_same_quantities d d' :
  ledger_chained d ->
  stock_history d' = stock_history d ->
  (forall i', In i' (items d') ->
     exists i, In i (items d) /\ item_id i' = item_id i
               /\ item_quantity i' = item_quantity i) ->
  ledger_chained d'.
Proof.
  intros Hl Hh Hitems k. destruct (Hl k) as [Hch Hq]. rewrite Hh.
  split; [exact Hch|].
  intros i' a Hi' Hid' Ha.
  destruct (Hitems i' Hi') as (i & Hi & Hsame & Hqty).
  rewrite Hqty. apply (Hq i a Hi); [congruence|exact Ha].
Qed.

(* ================================================================== *)
(** ** Every way [PUT /api/items/:id] can end *)
(* ================================================================== *)

Lemma assign_all_item_id updates : forall i,
  item_id (Sql.assign_all updates i) = item_id i.
Proof.
  unfold Sql.assign_all.
  induction updates as [|a rest IH]; intros i; simpl; [reflexivity|].
  rewrite IH. destruct a; reflexivity.
Qed.

(** The quantity [PUT] stores is the one of the body, when it has one. *)
Lemma put_updates_quantity b i :
  item_quantity (Sql.assign_all (put_updates b) i)
  = match pu_quantity b with
    | Some q => q
    | None => item_quantity i
    end.
Proof.
  unfold put_updates.
  destruct (pu_name b), (pu_description b), (pu_category b), (pu_quantity b),
    (pu_minQuantity b), (pu_unit b), (pu_price b); reflexivity.
Qed.

Lemma answered_json b : answered (Some (json b)).
Proof. exists (json b). split; [reflexivity|discriminate]. Qed.

Lemma not_answered_500 b : ~ answered (Some (mkResponse 500 b)).
Proof. intros (resp & H & Hne). injection H as <-. apply Hne. reflexivity. Qed.

(** In the cases where the [UPDATE] has run, the selected quantity is the
    witness. *)
Ltac after_update oldQty := right; exists oldQty; split; [reflexivity|].

Lemma put_run_cases id b f d :
  let (d', r) := run (put_item id b) f d in
  (d' = d /\ (r = Some (mkResponse 500 (JFailError StoreError)) \/ answered r))
  \/ exists oldQty,
       hd_error (map item_quantity
                   (filter (fun i => item_id i =? id) (items d))) = Some oldQty
       /\ ((d' = put_items id b d /\ answered r
            /\ (pu_quantity b = None \/ pu_quantity b = Some oldQty))
           \/ exists q,
                pu_quantity b = Some q /\ q <> oldQty
                /\ ((d' = put_items id b d
                     /\ r = Some (mkResponse 500 (JFailError StoreError)))
                    \/ (d' = set_stock_history (put_items id b d)
                               (stock_history d ++ [put_history id b q oldQty])
                        /\ answered r))).
Proof.
  unfold run, put_item, try_catch, bind at 1, pool_query at 1. simpl.
  destruct (f 0%nat); simpl; [left; auto|].
  destruct (map item_quantity (filter (fun i => item_id i =? id) (items d)))
    as [|oldQty rest] eqn:Hsel; simpl.
  { left. split; [reflexivity|]. right.
    exists (mkResponse 404 (JFailMessage "Item not found")).
    split; [reflexivity|discriminate]. }
  destruct (put_updates b) as [|u us] eqn:Hup; simpl.
  { left. split; [reflexivity|]. right. apply answered_json. }
  unfold bind at 1, pool_query at 1. simpl.
  destruct (f 1%nat); simpl; [left; auto|].
  unfold put_items. rewrite Hup.
  destruct (pu_quantity b) as [q|] eqn:Hq.
  - destruct (Z.eqb_spec q oldQty) as [E|E]; simpl.
    + unfold bind, ret. simpl.
      after_update oldQty. left.
      split; [reflexivity|]. split; [apply answered_json|].
      right. congruence.
    + unfold bind, pool_query, ret. simpl.
      destruct (f 2%nat); simpl.
      * after_update oldQty. right.
        exists q. split; [reflexivity|]. split; [exact E|].
        left. split; reflexivity.
      * after_update oldQty. right.
        exists q. split; [reflexivity|]. split; [exact E|].
        right. split; [reflexivity|apply answered_json].
  - unfold bind, ret. simpl.
    after_update oldQty. left.
    split; [reflexivity|]. split; [apply answered_json|]. left. reflexivity.
Qed.

Lemma put_history_balanced id b q oldQty : balanced (put_history id b q oldQty).
Proof. unfold balanced, put_history. simpl. rewrite !or0_id. lia. Qed.

Lemma approval_history_clamped id approved_by item :
  clamped (approval_history id approved_by item)
  /\ (balanced (approval_history id approved_by item)
      <-> - sh_quantity_change (approval_history id approved_by item)
          <= sh_quantity_before (approval_history id approved_by item)).
Proof.
  unfold clamped, balanced, approval_history, newQty. simpl. split; lia.
Qed.

(* ================================================================== *)
(** ** The other handlers *)
(* ================================================================== *)

Lemma post_item_run_cases b f d :
  let (d', r) := run (post_item b) f d in
  d' = d
  \/ d' = mkDB (items d) (items_id_seq d + 1) (requests d) (request_items d)
               (stock_history d)
  \/ exists row,
       item_id row = items_id_seq d
       /\ d' = mkDB (items d ++ [row]) (items_id_seq d + 1) (requests d)
                    (request_items d) (stock_history d).
Proof.
  unfold run, post_item, try_catch, pool_query_drawing, bind, pool_query,
    Sql.insert_item. simpl.
  destruct (f 0%nat); simpl; [left; reflexivity|].
  destruct (pi_name b) as [n|]; simpl; [|right; left; reflexivity].
  right. right. eexists. split; [|reflexivity]. reflexivity.
Qed.

(** A sequence that moved on leaves a store in order. *)
Lemma drawn_store_ok d :
  store_ok d ->
  store_ok (mkDB (items d) (items_id_seq d + 1) (requests d) (request_items d)
                 (stock_history d)).
Proof.
  intros [(Hpk & Hlt & Hfk) Hl]. split; [repeat split|]; simpl.
  - exact Hpk.
  - intros i Hi. specialize (Hlt i Hi). lia.
  - intros e He. specialize (Hfk e He). lia.
  - exact Hl.
Qed.

Lemma delete_item_run_cases id f d :
  let (d', r) := run (delete_item id) f d in
  d' = d
  \/ d' = set_items d
            (map (fun i => if item_id i =? id then Sql.with_isActive 0 i else i)
                 (items d)).
Proof.
  unfold run, delete_item, try_catch, bind, pool_query. simpl.
  destruct (f 0%nat); simpl; [left|right]; reflexivity.
Qed.

Lemma same_stock_refl d : same_stock d d.
Proof. repeat split. Qed.

Lemma same_stock_trans a b c : same_stock a b -> same_stock b c -> same_stock a c.
Proof.
  intros (H1 & H2 & H3) (H4 & H5 & H6). repeat split; congruence.
Qed.

Lemma insert_line_tx requestId item f s w :
  working s = Some w ->
  match client_query
          (Sql.insert_request_item requestId (line_item_id item)
             (line_quantity item)) f s with
  | (Return _, s') =>
      committed s' = committed s
      /\ exists w', working s' = Some w' /\ same_stock w w'
  | (Throw _, s') => committed s' = committed s
  end.
Proof.
  intros Hw. unfold client_query, Sql.insert_request_item.
  destruct (f (issued s)); simpl; [reflexivity|].
  rewrite Hw.
  destruct (existsb (fun i => item_id i =? line_item_id item) (items w));
    simpl; [|reflexivity].
  split; [reflexivity|]. eexists. split; [reflexivity|]. repeat split.
Qed.

Lemma for_of_insert_tx requestId lines : forall f s w,
  working s = Some w ->
  match for_of lines
          (fun item =>
             client_query
               (Sql.insert_request_item requestId (line_item_id item)
                  (line_quantity item))) f s with
  | (Return _, s') =>
      committed s' = committed s
      /\ exists w', working s' = Some w' /\ same_stock w w'
  | (Throw _, s') => committed s' = committed s
  end.
Proof.
  induction lines as [|item rest IH]; intros f s w Hw; simpl.
  - unfold ret. split; [reflexivity|]. exists w. split; [exact Hw|].
    apply same_stock_refl.
  - unfold bind.
    pose proof (insert_line_tx requestId item f s w Hw) as H1.
    destruct (client_query
                (Sql.insert_request_item requestId (line_item_id item)
                   (line_quantity item)) f s) as [[u|e] s1].
    + destruct H1 as [Hc (w1 & Hw1 & Hs1)].
      specialize (IH f s1 w1 Hw1).
      match goal with
      | |- context [for_of rest ?body f s1] =>
          destruct (for_of rest body f s1) as [[u'|e'] s2]
      end.
      * destruct IH as [Hc2 (w2 & Hw2 & Hs2)]. split; [congruence|].
        exists w2. split; [exact Hw2|].
        eapply same_stock_trans; eassumption.
      * congruence.
    + exact H1.
Qed.

(** Creating a request never touches items, the sequence or history. *)
Lemma post_request_frame uuid now b f d :
  same_stock d (fst (run (post_request uuid now b) f d)).
Proof.
  unfold run, post_request, try_catch.
  destruct (negb (Js.truthy (pr_project_name b))
            || (List.length (pr_items b) =? 0)%nat)%bool.
  { unfold ret. simpl. apply same_stock_refl. }
  assert (Hcatch : forall s e,
             committed s = d ->
             same_stock d
               (fst (let (o, s2) :=
                       (client_rollback ;;;
                        ret (mkResponse 500 (JFailError e))) f s in
                     match o with
                     | Return r => (committed s2, Some r)
                     | Throw _ => (committed s2, None)
                     end))).
  { intros s e Hs. pose proof (catch_rollback f s e) as Hr.
    destruct ((client_rollback ;;; ret (mkResponse 500 (JFailError e))) f s)
      as [[r|e'] s2]; simpl in *.
    - destruct Hr as [-> _]. rewrite Hs. apply same_stock_refl.
    - rewrite Hr, Hs. apply same_stock_refl. }
  unfold bind at 1, client_begin. simpl.
  destruct (f 0%nat); simpl.
  { apply (Hcatch _ StoreError). reflexivity. }
  unfold bind at 1, client_query at 1, Sql.insert_request. simpl.
  destruct (f 1%nat); simpl.
  { apply (Hcatch _ StoreError). reflexivity. }
  destruct (existsb (fun r => (req_id r =? uuid)%string) (requests d)); simpl.
  { apply (Hcatch _ StoreError). reflexivity. }
  unfold bind at 1.
  match goal with
  | |- context [for_of ?lines ?body f ?s1] =>
      pose proof (for_of_insert_tx uuid lines f s1 _ eq_refl) as Hloop;
      destruct (for_of lines body f s1) as [[u|e] s2]
  end; simpl in Hloop.
  - destruct Hloop as [Hc (w' & Hw' & Hs)].
    unfold bind, client_commit, ret.
    destruct (f (issued s2)); simpl.
    + apply (Hcatch _ StoreError). simpl. exact Hc.
    + rewrite Hw'. eapply same_stock_trans; [|exact Hs]. repeat split.
  - apply (Hcatch _ e). exact Hloop.
Qed.

(* ================================================================== *)
(** ** The ledger across handlers *)
(* ================================================================== *)

Lemma map_item_id_same (g : Item -> Item) l :
  (forall i, item_id (g i) = item_id i) ->
  map item_id (map g l) = map item_id l.
Proof.
  intros H. rewrite map_map. apply map_ext. exact H.
Qed.

Lemma same_stock_store_ok d d' : same_stock d d' -> store_ok d -> store_ok d'.
Proof.
  intros (Hi & Hs & Hh) [(Hpk & Hlt & Hfk) Hl].
  split; [repeat split|].
  - rewrite Hi. exact Hpk.
  - rewrite Hi, Hs. exact Hlt.
  - rewrite Hh, Hs. exact Hfk.
  - apply (ledger_chained_same_quantities d); [exact Hl|exact Hh|].
    rewrite Hi. intros i' Hi'. exists i'. auto.
Qed.

(** One pass of the approval loop keeps the ledger chained when the row
    carries the quantity its item holds. *)
Lemma approve_row_ledger id approved_by w item :
  ledger_chained w ->
  (exists i, In i (items w) /\ item_id i = row_item_id item) ->
  (forall i, In i (items w) -> item_id i = row_item_id item ->
             item_quantity i = current_qty item) ->
  ledger_chained (approve_row id approved_by w item).
Proof.
  intros Hl Hex Hqty.
  apply (ledger_chained_write w
           (map (fun i => deduct i item) (items w))
           (approval_history id approved_by item)); simpl; try assumption.
  intros i' Hi'. apply in_map_iff in Hi'. destruct Hi' as (i & <- & Hi).
  exists i. split; [exact Hi|]. split; [apply deduct_item_id|].
  unfold deduct. destruct (item_id i =? row_item_id item); reflexivity.
Qed.

Lemma approve_row_items id approved_by w item :
  items (approve_row id approved_by w item)
  = map (fun i => deduct i item) (items w).
Proof. reflexivity. Qed.

Lemma approve_rows_ledger id approved_by rows : forall w,
  ledger_chained w ->
  NoDup (map row_item_id rows) ->
  (forall item, In item rows ->
     (exists i, In i (items w) /\ item_id i = row_item_id item)
     /\ forall i, In i (items w) -> item_id i = row_item_id item ->
                  item_quantity i = current_qty item) ->
  ledger_chained (approve_rows id approved_by rows w).
Proof.
  induction rows as [|item rest IH]; intros w Hl Hnd Hrows; simpl;
    [exact Hl|].
  inversion Hnd as [|? ? Hfresh Hnd']; subst.
  destruct (Hrows item (or_introl eq_refl)) as [Hex Hqty].
  apply IH.
  - apply approve_row_ledger; assumption.
  - exact Hnd'.
  - intros item' Hin'.
    destruct (Hrows item' (or_intror Hin')) as [(i & Hi & Hid) Hq'].
    assert (Hne : row_item_id item' <> row_item_id item).
    { intros E. apply Hfresh. rewrite <- E. apply in_map. exact Hin'. }
    rewrite approve_row_items. split.
    + exists (deduct i item).
      split; [apply (in_map (fun i => deduct i item)); exact Hi|].
      rewrite deduct_item_id. exact Hid.
    + intros i' Hi' Hid'.
      apply in_map_iff in Hi'. destruct Hi' as (i0 & <- & Hi0).
      rewrite deduct_item_id in Hid'.
      unfold deduct.
      destruct (Z.eqb_spec (item_id i0) (row_item_id item)) as [E|E];
        [exfalso; apply Hne; congruence|].
      apply Hq'; assumption.
Qed.

Lemma approve_rows_keys_ok id approved_by rows d :
  keys_ok d ->
  (forall item, In item rows ->
     exists i, In i (items d) /\ item_id i = row_item_id item) ->
  keys_ok (approve_rows id approved_by rows d).
Proof.
  intros (Hpk & Hlt & Hfk) Hrows. unfold keys_ok.
  rewrite approve_rows_items, approve_rows_stock_history,
    approve_rows_items_id_seq.
  split; [|split].
  - rewrite map_item_id_same by (intros; apply fold_deduct_item_id).
    exact Hpk.
  - intros i' Hi'. apply in_map_iff in Hi'. destruct Hi' as (i & <- & Hi).
    rewrite fold_deduct_item_id. apply Hlt. exact Hi.
  - intros e He. apply in_app_or in He. destruct He as [He|He].
    + apply Hfk. exact He.
    + apply in_map_iff in He. destruct He as (item & <- & Hitem).
      destruct (Hrows item Hitem) as (i & Hi & Hid). simpl.
      rewrite <- Hid. apply Hlt. exact Hi.
Qed.

Lemma mark_request_store_ok id status now d :
  store_ok d -> store_ok (mark_request id status now d).
Proof. apply same_stock_store_ok. repeat split. Qed.

(** The store a status change commits is still in order when the lines
    of an approval name pairwise different items. *)
Lemma set_status_effect_store_ok id status oldStatus approved_by now d :
  store_ok d ->
  (approving status oldStatus = true ->
   NoDup (map row_item_id (Sql.join_lines id d))) ->
  store_ok (set_status_effect id status oldStatus approved_by now d).
Proof.
  intros [Hk Hl] Hnd. unfold set_status_effect.
  apply mark_request_store_ok.
  destruct (approving status oldStatus); [|split; assumption].
  specialize (Hnd eq_refl).
  assert (Hrows : forall item, In item (Sql.join_lines id d) ->
            (exists i, In i (items d) /\ item_id i = row_item_id item)
            /\ forall i, In i (items d) -> item_id i = row_item_id item ->
                         item_quantity i = current_qty item).
  { intros item Hitem. apply in_join_lines in Hitem.
    destruct Hitem as (ri & i & _ & _ & Hi & Hid & ->). simpl. split.
    - exists i. auto.
    - intros i2 Hi2 Hid2. destruct Hk as (Hpk & _).
      rewrite (primary_key_items (items d) i2 i Hpk Hi2 Hi); congruence. }
  split.
  - apply approve_rows_keys_ok; [exact Hk|]. intros item Hitem.
    apply (Hrows item Hitem).
  - apply approve_rows_ledger; assumption.
Qed.

Lemma NoDup_snoc (l : list Z) x : NoDup l -> ~ In x l -> NoDup (l ++ [x]).
Proof.
  induction l as [|y rest IH]; simpl; intros Hnd Hx.
  - constructor; [intros []|constructor].
  - inversion Hnd as [|? ? Hy Hrest]; subst. constructor.
    + intros Hin. apply in_app_or in Hin. destruct Hin as [Hin|[E|[]]].
      * contradiction.
      * apply Hx. left. symmetry. exact E.
    + apply IH; [exact Hrest|]. intros Hin. apply Hx. right. exact Hin.
Qed.

Lemma post_item_store_ok b f d :
  store_ok d -> store_ok (fst (run (post_item b) f d)).
Proof.
  intros Hok. pose proof (post_item_run_cases b f d) as H.
  destruct (run (post_item b) f d) as [d' r]. simpl.
  destruct H as [->|[->|(row & Hid & ->)]];
    [exact Hok|apply drawn_store_ok; exact Hok|].
  destruct Hok as [(Hpk & Hlt & Hfk) Hl].
  split; [repeat split|]; simpl.
  - rewrite map_app. simpl. apply NoDup_snoc; [exact Hpk|].
    intros Hin. apply in_map_iff in Hin.
    destruct Hin as (i & Hi1 & Hi2). specialize (Hlt i Hi2). lia.
  - intros i Hi. apply in_app_or in Hi. destruct Hi as [Hi|[<-|[]]].
    + specialize (Hlt i Hi). lia.
    + lia.
  - intros e He. specialize (Hfk e He). lia.
  - intros k. destruct (Hl k) as [Hch Hq]. split; [exact Hch|].
    intros i a Hi Hik Ha. apply in_app_or in Hi. destruct Hi as [Hi|[<-|[]]].
    + apply (Hq i a Hi Hik Ha).
    + rewrite entries_of_none in Ha; [discriminate Ha|].
      intros e He. specialize (Hfk e He). lia.
Qed.

Lemma delete_item_store_ok id f d :
  store_ok d -> store_ok (fst (run (delete_item id) f d)).
Proof.
  intros Hok. pose proof (delete_item_run_cases id f d) as H.
  destruct (run (delete_item id) f d) as [d' r]. simpl.
  destruct H as [->| ->]; [exact Hok|].
  destruct Hok as [(Hpk & Hlt & Hfk) Hl].
  assert (Hid : forall i,
             item_id (if item_id i =? id then Sql.with_isActive 0 i else i)
             = item_id i).
  { intros i. destruct (item_id i =? id); reflexivity. }
  split; [repeat split|]; simpl.
  - rewrite (map_item_id_same _ _ Hid). exact Hpk.
  - intros i' Hi'. apply in_map_iff in Hi'. destruct Hi' as (i & <- & Hi).
    rewrite Hid. apply Hlt. exact Hi.
  - exact Hfk.
  - apply (ledger_chained_same_quantities d); [exact Hl|reflexivity|].
    simpl. intros i' Hi'. apply in_map_iff in Hi'.
    destruct Hi' as (i & <- & Hi). exists i. split; [exact Hi|].
    destruct (item_id i =? id); split; reflexivity.
Qed.

Lemma select_first_quantity id d oldQty :
  hd_error (map item_quantity (filter (fun i => item_id i =? id) (items d)))
  = Some oldQty ->
  exists i, In i (items d) /\ item_id i = id /\ item_quantity i = oldQty.
Proof.
  destruct (filter (fun i => item_id i =? id) (items d)) as [|i rest] eqn:Hf;
    simpl; [discriminate|].
  intros H. injection H as <-.
  assert (Hin : In i (filter (fun i => item_id i =? id) (items d)))
    by (rewrite Hf; left; reflexivity).
  apply filter_In in Hin. destruct Hin as [Hin Hid].
  exists i. repeat split; [exact Hin|apply Z.eqb_eq; exact Hid].
Qed.

Lemma put_items_keys_ok id b d : keys_ok d -> keys_ok (put_items id b d).
Proof.
  intros (Hpk & Hlt & Hfk).
  assert (Hid : forall i,
             item_id (if item_id i =? id
                      then Sql.assign_all (put_updates b) i else i)
             = item_id i).
  { intros i. destruct (item_id i =? id); [apply assign_all_item_id|reflexivity]. }
  unfold keys_ok, put_items. simpl. split; [|split].
  - rewrite (map_item_id_same _ _ Hid). exact Hpk.
  - intros i' Hi'. apply in_map_iff in Hi'. destruct Hi' as (i & <- & Hi).
    rewrite Hid. apply Hlt. exact Hi.
  - exact Hfk.
Qed.

(** [PUT] that stores the quantity the item already has, or none. *)
Lemma put_items_store_ok id b d oldQty :
  store_ok d ->
  hd_error (map item_quantity (filter (fun i => item_id i =? id) (items d)))
  = Some oldQty ->
  pu_quantity b = None \/ pu_quantity b = Some oldQty ->
  store_ok (put_items id b d).
Proof.
  intros [Hk Hl] Hsel Hq. split; [apply put_items_keys_ok; exact Hk|].
  apply (ledger_chained_same_quantities d); [exact Hl|reflexivity|].
  unfold put_items. simpl.
  intros i' Hi'. apply in_map_iff in Hi'. destruct Hi' as (i & <- & Hi).
  exists i. split; [exact Hi|].
  destruct (Z.eqb_spec (item_id i) id) as [E|E]; [|split; reflexivity].
  split; [apply assign_all_item_id|].
  rewrite put_updates_quantity.
  destruct Hq as [-> | ->]; [reflexivity|].
  destruct (select_first_quantity id d oldQty Hsel) as (i0 & Hi0 & Hid0 & <-).
  destruct Hk as (Hpk & _).
  rewrite (primary_key_items (items d) i i0 Hpk Hi Hi0); congruence.
Qed.

(** [PUT] that changes the quantity and writes its history row. *)
Lemma put_written_store_ok id b d q oldQty :
  store_ok d ->
  hd_error (map item_quantity (filter (fun i => item_id i =? id) (items d)))
  = Some oldQty ->
  pu_quantity b = Some q ->
  store_ok (set_stock_history (put_items id b d)
              (stock_history d ++ [put_history id b q oldQty])).
Proof.
  intros [Hk Hl] Hsel Hq.
  destruct (select_first_quantity id d oldQty Hsel) as (i0 & Hi0 & Hid0 & Hq0).
  split.
  - destruct (put_items_keys_ok id b d Hk) as (Hpk' & Hlt' & Hfk').
    repeat split; try assumption.
    intros e He. simpl in He. apply in_app_or in He.
    destruct He as [He|[<-|[]]].
    + apply Hfk'. exact He.
    + simpl. destruct Hk as (_ & Hlt & _). rewrite <- Hid0. apply Hlt. exact Hi0.
  - apply (ledger_chained_write d
             (map (fun i => if item_id i =? id
                            then Sql.assign_all (put_updates b) i else i)
                  (items d))
             (put_history id b q oldQty)); simpl.
    + exact Hl.
    + exists i0. auto.
    + intros i Hi Hid. rewrite or0_id. destruct Hk as (Hpk & _).
      rewrite (primary_key_items (items d) i i0 Hpk Hi Hi0); congruence.
    + intros i' Hi'. apply in_map_iff in Hi'. destruct Hi' as (i & <- & Hi).
      exists i. split; [exact Hi|].
      destruct (Z.eqb_spec (item_id i) id) as [E|E]; [|split; reflexivity].
      split; [apply assign_all_item_id|].
      rewrite put_updates_quantity, Hq. reflexivity.
Qed.

Lemma set_status_effect_stock_history id status oldStatus approved_by now d :
  stock_history (set_status_effect id status oldStatus approved_by now d)
  = (stock_history d
     ++ (if approving status oldStatus
         then map (approval_history id approved_by) (Sql.join_lines id d)
         else []))%list.
Proof.
  unfold set_status_effect. rewrite mark_request_stock_history.
  destruct (approving status oldStatus).
  - apply approve_rows_stock_history.
  - rewrite app_nil_r. reflexivity.
Qed.

(* ================================================================== *)
(** ** Ledger consistency, as the handlers keep it *)
(* ================================================================== *)

(** What every handler does to the history, whatever the store rejects. *)
Ltac nothing_written :=
  exists []; rewrite app_nil_r; split; [try reflexivity|constructor].

Lemma handler_history_cases op f d :
  let (d', r) := run (handle op) f d in
  exists new,
    stock_history d' = (stock_history d ++ new)%list
    /\ Forall (written_as op) new.
Proof.
  destruct op as [b|id b|id|uuid now b|id status by_ now]; simpl handle.
  - pose proof (post_item_run_cases b f d) as Hc.
    destruct (run (post_item b) f d) as [d' r].
    nothing_written.
    destruct Hc as [->|[->|(row & _ & ->)]]; reflexivity.
  - pose proof (put_run_cases id b f d) as Hc.
    destruct (run (put_item id b) f d) as [d' r].
    destruct Hc as [[-> _]|(oldQty & Hsel & [(-> & _ & Hq)|(q & Hq & Hne & Hc)])].
    + nothing_written.
    + nothing_written.
    + destruct Hc as [[-> ->]|[-> _]].
      * nothing_written.
      * exists [put_history id b q oldQty]. split; [reflexivity|].
        constructor; [apply put_history_balanced|constructor].
  - pose proof (delete_item_run_cases id f d) as Hc.
    destruct (run (delete_item id) f d) as [d' r].
    nothing_written.
    destruct Hc as [->| ->]; reflexivity.
  - pose proof (post_request_frame uuid now b f d) as Hs.
    destruct (run (post_request uuid now b) f d) as [d' r]. simpl in Hs.
    nothing_written.
    destruct Hs as (_ & _ & Hh). exact Hh.
  - pose proof (patch_run_cases id status by_ now f d) as Hc.
    destruct (run (patch_request_status id status by_ now) f d) as [d' r].
    destruct Hc as [[_ (o & _ & ->)]|[_ ->]].
    + eexists. split; [apply set_status_effect_stock_history|].
      destruct (approving status o); [|constructor].
      apply Forall_forall. intros e He. apply in_map_iff in He.
      destruct He as (item & <- & _). apply approval_history_clamped.
    + nothing_written.
Qed.

(** What every handler does to a store in order. *)
Lemma handler_ledger_cases op f d :
  store_ok d ->
  distinct_lines op d ->
  let (d', r) := run (handle op) f d in
  went_through op r -> store_ok d'.
Proof.
  intros Hok Hdl. destruct op as [b|id b|id|uuid now b|id status by_ now];
    simpl handle; simpl in Hdl.
  - pose proof (post_item_store_ok b f d Hok) as Hs.
    destruct (run (post_item b) f d) as [d' r]. simpl in Hs.
    intros _. exact Hs.
  - pose proof (put_run_cases id b f d) as Hc.
    destruct (run (put_item id b) f d) as [d' r].
    destruct Hc as [[-> _]|(oldQty & Hsel & [(-> & _ & Hq)|(q & Hq & Hne & Hc)])].
    + intros _; exact Hok.
    + intros _; apply (put_items_store_ok id b d oldQty); assumption.
    + destruct Hc as [[-> ->]|[-> _]].
      * intros Ha. exfalso. exact (not_answered_500 _ Ha).
      * intros _. apply put_written_store_ok; assumption.
  - pose proof (delete_item_store_ok id f d Hok) as Hs.
    destruct (run (delete_item id) f d) as [d' r]. simpl in Hs.
    intros _. exact Hs.
  - pose proof (post_request_frame uuid now b f d) as Hs.
    destruct (run (post_request uuid now b) f d) as [d' r]. simpl in Hs.
    intros _. apply (same_stock_store_ok d); assumption.
  - pose proof (patch_run_cases id status by_ now f d) as Hc.
    destruct (run (patch_request_status id status by_ now) f d) as [d' r].
    destruct Hc as [[_ (o & Ho & ->)]|[_ ->]].
    + intros _. apply set_status_effect_store_ok; [exact Hok|].
      apply Hdl. exact Ho.
    + intros _; exact Hok.
Qed.

(** C6, as the handlers have it. Whatever the store rejects and whatever
    the store was, a handler only appends to the history; a row written
    by [PUT] satisfies [after = before + change]; a row written by an
    approval satisfies [after = max 0 (before + change)], which is
    [before + change] exactly when the requested quantity is at most the
    quantity before.  Rows of one item chain ([ledger_chained]): from a
    store in order the store after a handler is in order again, provided
    that an approval which deducts stock is of a request whose lines
    name pairwise different items and that a [PUT] answers without a
    server error. *)
Theorem ledger_kept_by_handlers op f d :
  let (d', r) := run (handle op) f d in
  (exists new,
     stock_history d' = (stock_history d ++ new)%list
     /\ Forall (written_as op) new)
  /\ (store_ok d -> distinct_lines op d -> went_through op r ->
      keys_ok d' /\ ledger_chained d').
Proof.
  pose proof (handler_history_cases op f d) as Hnew.
  pose proof (handler_ledger_cases op f d) as Hkept.
  destruct (run (handle op) f d) as [d' r].
  split; [exact Hnew|].
  intros Hok Hdl Hc. exact (Hkept Hok Hdl Hc).
Qed.

Lemma store_with_ok status lines : store_ok (store_with status lines).
Proof.
  split; [repeat split|]; simpl.
  - repeat constructor. intros [].
  - intros i [<-|[]]. reflexivity.
  - intros e [].
  - intros k. split; [exact I|]. intros i a _ _ H. discriminate H.
Qed.

Lemma ledger_kept_by_handlers_witness :
  let d := store_with "pending" [mkRequestItem "r1" 1 20] in
  let op := PatchStatus "r1" (Some "approved") (Some "manager") 200 in
  let d' := fst (run (handle op) no_faults d) in
  store_ok d
  /\ distinct_lines op d
  /\ stock_history d'
     = [mkStockHistory 1 "request" 10 (-20) 0 (Some "Approved request r1")
                       (Some "manager")]
  /\ keys_ok d' /\ ledger_chained d'.
Proof.
  cbv zeta.
  assert (Hok : store_ok (store_with "pending" [mkRequestItem "r1" 1 20]))
    by apply store_with_ok.
  assert (Hdl : distinct_lines
                  (PatchStatus "r1" (Some "approved") (Some "manager") 200)
                  (store_with "pending" [mkRequestItem "r1" 1 20])).
  { intros o _ _. simpl. repeat constructor. intros []. }
  split; [exact Hok|]. split; [exact Hdl|]. split; [reflexivity|].
  pose proof (ledger_kept_by_handlers
                (PatchStatus "r1" (Some "approved") (Some "manager") 200)
                no_faults
                (store_with "pending" [mkRequestItem "r1" 1 20])) as H.
  destruct (run (handle (PatchStatus "r1" (Some "approved") (Some "manager")
                                     200))
                no_faults (store_with "pending" [mkRequestItem "r1" 1 20]))
    as [d' r].
  destruct H as [_ H]. exact (H Hok Hdl I).
Defined.

(** C6 as stated fails: approving a request for 20 of an item that has
    10 writes a row with before 10, change -20 and after 0. *)
Lemma approval_row_not_balanced :
  let d := store_with "pending" [mkRequestItem "r1" 1 20] in
  ~ every_entry_balanced
      (fst (run (patch_request_status "r1" (Some "approved") None 200)
                no_faults d)).
Proof.
  intros d H. unfold every_entry_balanced in H.
  vm_compute in H. inversion H as [|e rest Hb _]. discriminate Hb.
Qed.

(** Both conditions of the chain are needed.  With two lines on one
    item both rows start from the quantity read before the loop. *)
Lemma chain_broken_by_repeated_item :
  let d := store_with "pending"
             [mkRequestItem "r1" 1 3; mkRequestItem "r1" 1 4] in
  map (fun e => (sh_quantity_before e, sh_quantity_after e))
      (stock_history
         (fst (run (patch_request_status "r1" (Some "approved") None 200)
                   no_faults d)))
  = [(10, 7); (10, 6)]
  /\ ~ ledger_chained
        (fst (run (patch_request_status "r1" (Some "approved") None 200)
                  no_faults d)).
Proof.
  split; [reflexivity|].
  intros H. destruct (H 1) as [Hch _]. vm_compute in Hch.
  destruct Hch as (_ & Hbad & _). discriminate Hbad.
Qed.

(** A [PUT] whose [INSERT] is rejected leaves a quantity no row ends
    with; the row of the next [PUT] starts from it. *)
Lemma chain_broken_by_put_fault :
  let d0 := store_with "pending" [] in
  let d1 := fst (run (put_item 1 (body_quantity 5)) no_faults d0) in
  let d2 := fst (run (put_item 1 (body_quantity 6)) (fun n => Nat.eqb n 2) d1) in
  let d3 := fst (run (put_item 1 (body_quantity 7)) no_faults d2) in
  map (fun e => (sh_quantity_before e, sh_quantity_after e)) (stock_history d3)
  = [(10, 5); (6, 7)]
  /\ ~ ledger_chained d3.
Proof.
  split; [reflexivity|].
  intros H. destruct (H 1) as [Hch _]. vm_compute in Hch.
  destruct Hch as (_ & Hbad & _). discriminate Hbad.
Qed.

(* ================================================================== *)
(** ** Reachable stores *)
(* ================================================================== *)




Lemma approval_status_derived_witness :
  let d := store_with "pending" [mkRequestItem "r1" 1 9] in
  let d' := fst (run (patch_request_status "r1" (Some "approved") None 200)
                     no_faults d) in
  In (Sql.with_quantity_status 1 "low-stock" item_A) (items d')
  /\ item_status (Sql.with_quantity_status 1 "low-stock" item_A)
     = Some (spec_status 1 2).
Proof.
  split; [left; reflexivity|].
  apply (approval_status_derived "r1" None 200 no_faults
           (store_with "pending" [mkRequestItem "r1" 1 9]) (Some "pending")
           (Sql.with_quantity_status 1 "low-stock" item_A)).
  - exact never_fails_no_faults.
  - reflexivity.
  - discriminate.
  - repeat constructor. intros [].
  - left. reflexivity.
  - exists (mkRequestItem "r1" 1 9). repeat split. left. reflexivity.
Defined.

(* ================================================================== *)
(** ** Creating a request *)
(* ================================================================== *)

Lemma has_required_fields_guard b :
  (negb (Js.truthy (pr_project_name b))
   || (List.length (pr_items b) =? 0)%nat)%bool
  = negb (has_required_fields b).
Proof.
  unfold has_required_fields.
  destruct (Js.truthy (pr_project_name b)),
    (List.length (pr_items b) =? 0)%nat; reflexivity.
Qed.

(** The loop over the lines inside the open transaction: it returns
    exactly when every line names an item, and then every line is in. *)
Lemma insert_line_exact requestId item f s w :
  working s = Some w ->
  match client_query
          (Sql.insert_request_item requestId (line_item_id item)
             (line_quantity item)) f s with
  | (Return _, s') =>
      committed s' = committed s
      /\ working s'
         = Some (set_request_items w
                   (request_items w ++ [line_row requestId item]))
      /\ existsb (fun i => item_id i =? line_item_id item) (items w) = true
  | (Throw _, s') => committed s' = committed s
  end.
Proof.
  intros Hw. unfold client_query, Sql.insert_request_item.
  destruct (f (issued s)); simpl; [reflexivity|].
  rewrite Hw.
  destruct (existsb (fun i => item_id i =? line_item_id item) (items w));
    simpl; [|reflexivity].
  repeat split.
Qed.

Lemma for_of_insert_lines requestId lines : forall f s w,
  working s = Some w ->
  match for_of lines
          (fun item =>
             client_query
               (Sql.insert_request_item requestId (line_item_id item)
                  (line_quantity item))) f s with
  | (Return _, s') =>
      committed s' = committed s
      /\ working s'
         = Some (set_request_items w
                   (request_items w ++ map (line_row requestId) lines))
      /\ items_known lines w = true
  | (Throw _, s') => committed s' = committed s
  end.
Proof.
  induction lines as [|item rest IH]; intros f s w Hw; simpl.
  - unfold ret. rewrite app_nil_r. destruct w. simpl in *. auto.
  - unfold bind.
    pose proof (insert_line_exact requestId item f s w Hw) as H1.
    destruct (client_query
                (Sql.insert_request_item requestId (line_item_id item)
                   (line_quantity item)) f s) as [[u|e] s1].
    + destruct H1 as (Hc & Hw1 & Hk1).
      specialize (IH f s1 _ Hw1).
      match goal with
      | |- context [for_of rest ?body f s1] =>
          destruct (for_of rest body f s1) as [[u'|e'] s2]
      end.
      * destruct IH as (Hc2 & Hw2 & Hk2). split; [congruence|]. split.
        -- rewrite Hw2. unfold set_request_items. simpl.
           rewrite <- app_assoc. reflexivity.
        -- rewrite Hk1. exact Hk2.
      * congruence.
    + exact H1.
Qed.

Lemma insert_line_ok requestId item f s w :
  never_fails f ->
  working s = Some w ->
  existsb (fun i => item_id i =? line_item_id item) (items w) = true ->
  client_query
    (Sql.insert_request_item requestId (line_item_id item)
       (line_quantity item)) f s
  = (Return tt,
     mkSession (committed s)
       (Some (set_request_items w
                (request_items w ++ [line_row requestId item])))
       (S (issued s))).
Proof.
  intros Hf Hw Hk. unfold client_query, Sql.insert_request_item.
  rewrite Hf, Hw, Hk. reflexivity.
Qed.

Lemma for_of_insert_lines_ok requestId lines : forall f s w,
  never_fails f ->
  working s = Some w ->
  items_known lines w = true ->
  exists n,
    for_of lines
      (fun item =>
         client_query
           (Sql.insert_request_item requestId (line_item_id item)
              (line_quantity item))) f s
    = (Return tt,
       mkSession (committed s)
         (Some (set_request_items w
                  (request_items w ++ map (line_row requestId) lines))) n).
Proof.
  induction lines as [|item rest IH]; intros f s w Hf Hw Hk; simpl.
  - exists (issued s). unfold ret. rewrite app_nil_r.
    destruct s, w. simpl in *. subst. reflexivity.
  - simpl in Hk. apply andb_prop in Hk. destruct Hk as [Hk1 Hk2].
    unfold bind.
    rewrite (insert_line_ok requestId item f s w Hf Hw Hk1).
    match goal with
    | |- context [for_of rest ?body f ?s1] =>
        destruct (IH f s1 _ Hf eq_refl Hk2) as [n Hn]
    end.
    rewrite Hn. exists n. unfold set_request_items. simpl.
    rewrite <- app_assoc. reflexivity.
Qed.

(** The [catch] block of a handler that works on a client, after the
    [try] block threw with the committed store still [d]. *)
Lemma run_catch_rollback f s e d :
  committed s = d ->
  let (o, s2) := (client_rollback ;;; ret (mkResponse 500 (JFailError e))) f s in
  match o with
  | Return r => (committed s2, Some r)
  | Throw _ => (committed s2, None)
  end
  = (d, None)
  \/ match o with
     | Return r => (committed s2, Some r)
     | Throw _ => (committed s2, None)
     end
     = (d, Some (mkResponse 500 (JFailError e))).
Proof.
  intros Hs. pose proof (catch_rollback f s e) as Hr.
  destruct ((client_rollback ;;; ret (mkResponse 500 (JFailError e))) f s)
    as [[r|e'] s2].
  - destruct Hr as [Hc ->]. right. congruence.
  - left. congruence.
Qed.

Lemma post_request_cases uuid now b f d :
  let (d', r) := run (post_request uuid now b) f d in
  if has_required_fields b
  then (r = Some (mkResponse 201 (JSuccessId uuid))
        /\ d' = post_request_effect uuid now b d
        /\ insertable uuid b d = true)
       \/ gave_up d d' r
  else r = Some (mkResponse 400 (JFailMessage "Missing required fields"))
       /\ d' = d.
Proof.
  unfold run, post_request, try_catch.
  rewrite has_required_fields_guard.
  destruct (has_required_fields b); simpl; [|split; reflexivity].
  assert (Hcatch : forall s e,
             committed s = d ->
             let (d', r) :=
               let (o, s2) :=
                 (client_rollback ;;; ret (mkResponse 500 (JFailError e))) f s in
               match o with
               | Return r => (committed s2, Some r)
               | Throw _ => (committed s2, None)
               end in
             (r = Some (mkResponse 201 (JSuccessId uuid))
              /\ d' = post_request_effect uuid now b d
              /\ insertable uuid b d = true)
             \/ gave_up d d' r).
  { intros s e Hs. pose proof (run_catch_rollback f s e d Hs) as H.
    destruct ((client_rollback ;;; ret (mkResponse 500 (JFailError e))) f s)
      as [o s2].
    destruct H as [-> | ->]; right; split; auto. right. exists e. reflexivity. }
  unfold bind at 1, client_begin. simpl.
  destruct (f 0%nat); simpl.
  { apply (Hcatch _ StoreError). reflexivity. }
  unfold bind at 1, client_query at 1, Sql.insert_request. simpl.
  destruct (f 1%nat); simpl.
  { apply (Hcatch _ StoreError). reflexivity. }
  destruct (existsb (fun r => (req_id r =? uuid)%string) (requests d))
    eqn:Hfresh; simpl.
  { apply (Hcatch _ StoreError). reflexivity. }
  unfold bind at 1.
  match goal with
  | |- context [for_of ?lines ?body f ?s1] =>
      pose proof (for_of_insert_lines uuid lines f s1 _ eq_refl) as Hloop;
      destruct (for_of lines body f s1) as [[u|e] s2]
  end; simpl in Hloop.
  - destruct Hloop as (Hc & Hw & Hk).
    unfold bind, client_commit, ret.
    destruct (f (issued s2)); simpl.
    + apply (Hcatch _ StoreError). simpl. exact Hc.
    + rewrite Hw. left. split; [reflexivity|]. split; [reflexivity|].
      unfold insertable. rewrite Hfresh. exact Hk.
  - apply (Hcatch _ e). exact Hloop.
Qed.

Lemma post_request_ok uuid now b f d :
  never_fails f ->
  has_required_fields b = true ->
  insertable uuid b d = true ->
  run (post_request uuid now b) f d
  = (post_request_effect uuid now b d,
     Some (mkResponse 201 (JSuccessId uuid))).
Proof.
  intros Hf Hreq Hins.
  unfold run, post_request, try_catch.
  rewrite has_required_fields_guard, Hreq. simpl.
  unfold insertable in Hins. apply andb_prop in Hins.
  destruct Hins as [Hfresh Hknown]. apply negb_true_iff in Hfresh.
  unfold bind at 1, client_begin. simpl. rewrite Hf. simpl.
  unfold bind at 1, client_query at 1, Sql.insert_request. simpl.
  rewrite Hf, Hfresh. simpl.
  unfold bind at 1.
  match goal with
  | |- context [for_of ?lines ?body f ?s1] =>
      destruct (for_of_insert_lines_ok uuid lines f s1 _ Hf eq_refl Hknown)
        as [n Hn]; rewrite Hn
  end.
  unfold bind, client_commit, ret. simpl. rewrite Hf. reflexivity.
Qed.

(** X3. Whatever the store rejects, [POST /api/requests] ends in one of
    two ways: it answers 201 with the new id, and the store has gained
    exactly one pending request with that id and one line per item of
    the body, in order, nothing else being touched; or it answers
    anything else and the store is exactly the one before the call.  A
    request is never stored without its lines or with some of them. *)
Theorem post_request_all_or_nothing uuid now b f d :
  let (d', r) := run (post_request uuid now b) f d in
  (r = Some (mkResponse 201 (JSuccessId uuid))
   /\ d' = post_request_effect uuid now b d
   /\ has_required_fields b = true
   /\ insertable uuid b d = true)
  \/ (r <> Some (mkResponse 201 (JSuccessId uuid)) /\ d' = d).
Proof.
  pose proof (post_request_cases uuid now b f d) as H.
  destruct (run (post_request uuid now b) f d) as [d' r].
  destruct (has_required_fields b).
  - destruct H as [(Hr & Hd & Hi)|[Hd Hr]].
    + left. auto.
    + right. split; [|exact Hd].
      destruct Hr as [->|[e ->]]; discriminate.
  - right. destruct H as [-> ->]. split; [discriminate|reflexivity].
Qed.

(** X4. With a store that rejects no statement, [POST /api/requests]
    answers 400 and stores nothing when the project name is missing or
    the list of items is empty; otherwise it answers 201 and stores the
    request when the id is new and every line names an existing item,
    and gives up with the store untouched when a line names an item
    that does not exist. *)
Theorem post_request_answers uuid now b f d :
  never_fails f ->
  let (d', r) := run (post_request uuid now b) f d in
  if has_required_fields b
  then if insertable uuid b d
       then r = Some (mkResponse 201 (JSuccessId uuid))
            /\ d' = post_request_effect uuid now b d
       else gave_up d d' r
  else r = Some (mkResponse 400 (JFailMessage "Missing required fields"))
       /\ d' = d.
Proof.
  intros Hf.
  pose proof (post_request_cases uuid now b f d) as H.
  pose proof (post_request_ok uuid now b f d Hf) as Hok.
  destruct (run (post_request uuid now b) f d) as [d' r].
  destruct (has_required_fields b); [|exact H].
  destruct (insertable uuid b d).
  - specialize (Hok eq_refl eq_refl). injection Hok as -> ->.
    split; reflexivity.
  - destruct H as [(_ & _ & Hi)|H]; [discriminate Hi|exact H].
Qed.

Lemma post_request_answers_witness :
  let d := store_with "pending" [] in
  let b := body_request [mkRequestLine 1 2; mkRequestLine 9 1] in
  never_fails no_faults
  /\ insertable "r2" b d = false
  /\ let (d', r) := run (post_request "r2" 300 b) no_faults d in
     if has_required_fields b
     then if insertable "r2" b d
          then r = Some (mkResponse 201 (JSuccessId "r2"))
               /\ d' = post_request_effect "r2" 300 b d
          else gave_up d d' r
     else r = Some (mkResponse 400 (JFailMessage "Missing required fields"))
          /\ d' = d.
Proof.
  split; [exact never_fails_no_faults|]. split; [reflexivity|].
  apply (post_request_answers "r2" 300
           (body_request [mkRequestLine 1 2; mkRequestLine 9 1]) no_faults
           (store_with "pending" [])).
  exact never_fails_no_faults.
Defined.

(* ================================================================== *)
(** ** Deleting a request *)
(* ================================================================== *)

Lemma delete_request_cases id f d :
  let (d', r) := run (delete_request id) f d in
  (d' = d /\ r = Some (mkResponse 500 (JFailError StoreError))
   /\ f 0%nat = true)
  \/ (f 0%nat = false
      /\ filter (fun r => (req_id r =? id)%string) (requests d) = []
      /\ d' = d
      /\ r = Some (mkResponse 404 (JFailMessage "Request not found")))
  \/ (f 0%nat = false
      /\ filter (fun r => (req_id r =? id)%string) (requests d) <> []
      /\ r = Some (json JSuccess)
      /\ d' = mkDB (items d) (items_id_seq d)
                (filter (fun r => negb (req_id r =? id)%string) (requests d))
                (filter (fun ri => negb (ri_request_id ri =? id)%string)
                        (request_items d))
                (stock_history d)).
Proof.
  unfold run, delete_request, try_catch, bind, pool_query,
    delete_request_rows. simpl.
  destruct (f 0%nat); simpl; [left; auto|].
  destruct (filter (fun r => (req_id r =? id)%string) (requests d))
    as [|r0 rest]; simpl.
  - right. left. auto.
  - right. right. repeat split. discriminate.
Qed.

(** X5. [DELETE /api/requests/:id] never touches items or the stock
    history, so deleting an approved request gives no stock back.  When
    the store executes the statement it answers 404 and changes nothing
    if no request has the id; otherwise it answers success, and the
    requests and lines left are exactly those of other ids. *)
Theorem delete_request_effect id f d :
  let (d', r) := run (delete_request id) f d in
  items d' = items d
  /\ stock_history d' = stock_history d
  /\ (f 0%nat = false ->
      if existsb (fun r => (req_id r =? id)%string) (requests d)
      then r = Some (json JSuccess)
           /\ (forall q, In q (requests d') <->
                         In q (requests d) /\ req_id q <> id)
           /\ (forall ri, In ri (request_items d') <->
                          In ri (request_items d) /\ ri_request_id ri <> id)
      else r = Some (mkResponse 404 (JFailMessage "Request not found"))
           /\ d' = d).
Proof.
  pose proof (delete_request_cases id f d) as H.
  destruct (run (delete_request id) f d) as [d' r].
  assert (Hex : forall l : list Request,
             existsb (fun r => (req_id r =? id)%string) l = true
             <-> filter (fun r => (req_id r =? id)%string) l <> []).
  { induction l as [|x rest IH]; simpl.
    - split; [discriminate|intros H0; contradiction].
    - destruct (req_id x =? id)%string; simpl; [|exact IH].
      split; [discriminate|reflexivity]. }
  destruct H as [(-> & _ & Hf)|[(Hf & Hnone & -> & ->)|(Hf & Hsome & -> & ->)]].
  - repeat split. intros Hf'. congruence.
  - repeat split. intros _.
    destruct (existsb (fun r => (req_id r =? id)%string) (requests d)) eqn:E.
    + apply Hex in E. contradiction.
    + split; reflexivity.
  - simpl. repeat split; intros _.
    apply Hex in Hsome. rewrite Hsome. split; [reflexivity|]. split.
    + intros q. rewrite filter_In, negb_true_iff, String.eqb_neq. tauto.
    + intros ri. rewrite filter_In, negb_true_iff, String.eqb_neq. tauto.
Qed.

Lemma delete_request_effect_witness :
  let d := store_with "approved" [mkRequestItem "r1" 1 5] in
  let (d', r) := run (delete_request "r1") no_faults d in
  items d' = items d
  /\ stock_history d' = stock_history d
  /\ (no_faults 0%nat = false ->
      if existsb (fun r => (req_id r =? "r1")%string) (requests d)
      then r = Some (json JSuccess)
           /\ (forall q, In q (requests d') <->
                         In q (requests d) /\ req_id q <> "r1")
           /\ (forall ri, In ri (request_items d') <->
                          In ri (request_items d) /\ ri_request_id ri <> "r1")
      else r = Some (mkResponse 404 (JFailMessage "Request not found"))
           /\ d' = d).
Proof.
  exact (delete_request_effect "r1" no_faults
           (store_with "approved" [mkRequestItem "r1" 1 5])).
Defined.

(* ================================================================== *)
(** ** Referential integrity across handlers *)
(* ================================================================== *)

(** Integrity only looks at the ids of requests and items and at the
    lines. *)
Lemma refs_ok_same_keys d d' :
  map req_id (requests d') = map req_id (requests d) ->
  request_items d' = request_items d ->
  (forall k, In k (map item_id (items d)) -> In k (map item_id (items d'))) ->
  refs_ok d -> refs_ok d'.
Proof.
  intros Hr Hl Hi (Hpk & Hreq & Hitem). unfold refs_ok.
  rewrite Hr, Hl. repeat split; auto.
Qed.

Lemma mark_request_ids id status now d :
  map req_id (requests (mark_request id status now d)) = map req_id (requests d).
Proof.
  unfold mark_request. simpl. rewrite map_map. apply map_ext.
  intros r. destruct (req_id r =? id)%string; reflexivity.
Qed.

Lemma approve_rows_lines id approved_by rows : forall d,
  request_items (approve_rows id approved_by rows d) = request_items d.
Proof.
  induction rows as [|item rest IH]; intros d; simpl; [reflexivity|].
  rewrite IH. reflexivity.
Qed.

Lemma NoDup_snoc_string (l : list string) x :
  NoDup l -> ~ In x l -> NoDup (l ++ [x]).
Proof.
  induction l as [|y rest IH]; simpl; intros Hnd Hx.
  - constructor; [intros []|constructor].
  - inversion Hnd as [|? ? Hy Hrest]; subst. constructor.
    + intros Hin. apply in_app_or in Hin. destruct Hin as [Hin|[E|[]]].
      * contradiction.
      * apply Hx. left. symmetry. exact E.
    + apply IH; [exact Hrest|]. intros Hin. apply Hx. right. exact Hin.
Qed.

Lemma NoDup_map_filter {A B} (g : A -> B) (p : A -> bool) (l : list A) :
  NoDup (map g l) -> NoDup (map g (filter p l)).
Proof.
  induction l as [|x rest IH]; simpl; intros Hnd; [constructor|].
  inversion Hnd as [|? ? Hx Hrest]; subst.
  destruct (p x); simpl; [|apply IH; exact Hrest].
  constructor; [|apply IH; exact Hrest].
  intros Hin. apply Hx. apply in_map_iff in Hin.
  destruct Hin as (y & Hy & Hin). apply filter_In in Hin.
  apply in_map_iff. exists y. split; [exact Hy|apply Hin].
Qed.

Lemma set_status_effect_refs_ok id status oldStatus approved_by now d :
  refs_ok d -> refs_ok (set_status_effect id status oldStatus approved_by now d).
Proof.
  unfold set_status_effect.
  apply refs_ok_same_keys.
  - rewrite mark_request_ids.
    destruct (approving status oldStatus); [|reflexivity].
    rewrite approve_rows_requests. reflexivity.
  - change (request_items (mark_request id status now
              (if approving status oldStatus
               then approve_rows id approved_by (Sql.join_lines id d) d
               else d)))
      with (request_items
              (if approving status oldStatus
               then approve_rows id approved_by (Sql.join_lines id d) d
               else d)).
    destruct (approving status oldStatus); [|reflexivity].
    apply approve_rows_lines.
  - intros k Hk. rewrite mark_request_items.
    destruct (approving status oldStatus); [|exact Hk].
    rewrite approve_rows_items.
    rewrite map_item_id_same by (intros; apply fold_deduct_item_id).
    exact Hk.
Qed.

Lemma post_request_effect_refs_ok uuid now b d :
  insertable uuid b d = true ->
  refs_ok d -> refs_ok (post_request_effect uuid now b d).
Proof.
  intros Hins (Hpk & Hreq & Hitem).
  unfold insertable in Hins. apply andb_prop in Hins.
  destruct Hins as [Hfresh Hknown]. apply negb_true_iff in Hfresh.
  unfold refs_ok, post_request_effect. simpl.
  rewrite map_app. simpl. split; [|split].
  - apply NoDup_snoc_string; [exact Hpk|].
    intros Hin. apply in_map_iff in Hin. destruct Hin as (r & Hid & Hr).
    assert (E : existsb (fun r => (req_id r =? uuid)%string) (requests d) = true).
    { apply existsb_exists. exists r. split; [exact Hr|].
      apply String.eqb_eq. exact Hid. }
    congruence.
  - intros ri Hin. apply in_or_app. apply in_app_or in Hin.
    destruct Hin as [Hin|Hin]; [left; apply Hreq; exact Hin|].
    right. apply in_map_iff in Hin. destruct Hin as (item & <- & _).
    left. reflexivity.
  - intros ri Hin. apply in_app_or in Hin.
    destruct Hin as [Hin|Hin]; [apply Hitem; exact Hin|].
    apply in_map_iff in Hin. destruct Hin as (item & <- & Hitem').
    unfold items_known in Hknown. rewrite forallb_forall in Hknown.
    specialize (Hknown item Hitem'). apply existsb_exists in Hknown.
    destruct Hknown as (i & Hi & Hid). simpl.
    apply in_map_iff. exists i. split; [apply Z.eqb_eq; exact Hid|exact Hi].
Qed.

(** X6. Every handler that writes keeps referential integrity, whatever
    the store rejects: request ids stay unique, and every line of
    [request_items] references a request and an item that exist. *)
Theorem handlers_keep_references c f d :
  refs_ok d -> refs_ok (fst (run (serve c) f d)).
Proof.
  intros Hok. destruct c as [[b|id b|id|uuid now b|id status by_ now]|id];
    simpl serve.
  - pose proof (post_item_run_cases b f d) as H.
    destruct (run (post_item b) f d) as [d' r]. simpl.
    destruct H as [->|[->|(row & _ & ->)]]; [exact Hok| |].
    + revert Hok. apply refs_ok_same_keys; try reflexivity.
      simpl. intros k Hk. exact Hk.
    + revert Hok. apply refs_ok_same_keys; try reflexivity.
      simpl. intros k Hk. rewrite map_app. apply in_or_app. left. exact Hk.
  - pose proof (put_run_cases id b f d) as H.
    destruct (run (put_item id b) f d) as [d' r]. simpl.
    assert (Hput : refs_ok (put_items id b d)).
    { revert Hok. apply refs_ok_same_keys; try reflexivity.
      unfold put_items. simpl. intros k Hk.
      rewrite map_item_id_same; [exact Hk|].
      intros i. destruct (item_id i =? id);
        [apply assign_all_item_id|reflexivity]. }
    destruct H as [[-> _]|(oldQty & _ & [(-> & _)|(q & _ & _ & [[-> _]|[-> _]])])];
      assumption.
  - pose proof (delete_item_run_cases id f d) as H.
    destruct (run (delete_item id) f d) as [d' r]. simpl.
    destruct H as [->| ->]; [exact Hok|].
    revert Hok. apply refs_ok_same_keys; try reflexivity.
    simpl. intros k Hk. rewrite map_item_id_same; [exact Hk|].
    intros i. destruct (item_id i =? id); reflexivity.
  - pose proof (post_request_cases uuid now b f d) as H.
    destruct (run (post_request uuid now b) f d) as [d' r]. simpl.
    destruct (has_required_fields b).
    + destruct H as [(_ & -> & Hins)|[-> _]]; [|exact Hok].
      apply post_request_effect_refs_ok; assumption.
    + destruct H as [_ ->]. exact Hok.
  - pose proof (patch_run_cases id status by_ now f d) as H.
    destruct (run (patch_request_status id status by_ now) f d) as [d' r].
    simpl. destruct H as [[_ (o & _ & ->)]|[_ ->]]; [|exact Hok].
    apply set_status_effect_refs_ok. exact Hok.
  - pose proof (delete_request_cases id f d) as H.
    destruct (run (delete_request id) f d) as [d' r]. simpl.
    destruct H as [(-> & _)|[(_ & _ & -> & _)|(_ & _ & _ & ->)]];
      try exact Hok.
    destruct Hok as (Hpk & Hreq & Hitem). unfold refs_ok. simpl.
    split; [|split].
    + apply NoDup_map_filter. exact Hpk.
    + intros ri Hin. apply filter_In in Hin. destruct Hin as [Hin Hne].
      apply negb_true_iff, String.eqb_neq in Hne.
      specialize (Hreq ri Hin). apply in_map_iff in Hreq.
      destruct Hreq as (q & Hid & Hq). apply in_map_iff. exists q.
      split; [exact Hid|]. apply filter_In. split; [exact Hq|].
      apply negb_true_iff, String.eqb_neq. congruence.
    + intros ri Hin. apply filter_In in Hin. apply Hitem. apply Hin.
Qed.

Lemma handlers_keep_references_witness :
  let d := store_with "approved" [mkRequestItem "r1" 1 5] in
  refs_ok d /\ refs_ok (fst (run (serve (DeleteRequest "r1")) no_faults d)).
Proof.
  assert (H : refs_ok (store_with "approved" [mkRequestItem "r1" 1 5])).
  { unfold refs_ok. simpl. repeat split.
    - repeat constructor. intros [].
    - intros ri [<-|[]]. left. reflexivity.
    - intros ri [<-|[]]. left. reflexivity. }
  split; [exact H|].
  apply (handlers_keep_references (DeleteRequest "r1") no_faults _ H).
Defined.

(* ================================================================== *)
(** ** Listing items *)
(* ================================================================== *)

(** The status the listing shows is the rule of the data model on a
    quantity that is not negative, and "out-of-stock" below zero. *)
Lemma listed_status_spec q m :
  listed_status q m
  = if q <=? 0 then "out-of-stock" else spec_status q m.
Proof.
  unfold listed_status, spec_status. rewrite or0_id.
  destruct (Z.leb_spec q 0) as [H|H].
  - assert (E : (q >? 0) = false) by (rewrite Z.gtb_ltb; apply Z.ltb_ge; lia).
    rewrite E. reflexivity.
  - assert (E : (q >? 0) = true) by (rewrite Z.gtb_ltb; apply Z.ltb_lt; lia).
    rewrite E.
    assert (E0 : (q =? 0) = false) by (apply Z.eqb_neq; lia).
    assert (E1 : (0 <? q) = true) by (apply Z.ltb_lt; lia).
    rewrite E0, E1. reflexivity.
Qed.

Lemma is_active_iff i :
  is_active i = true <-> item_isActive i = None \/ item_isActive i = Some 1.
Proof.
  unfold is_active. destruct (item_isActive i) as [v|].
  - rewrite Z.eqb_eq. split.
    + intros ->. right. reflexivity.
    + intros [H|H]; [discriminate|congruence].
  - split; auto.
Qed.

Lemma get_items_run f d :
  f 0%nat = false ->
  run_as get_items f d
  = (d, Some (Sent 200 (map format_item (filter is_active (items d))))).
Proof.
  intros Hf. unfold run_as, get_items, try_catch, bind, pool_query. simpl.
  rewrite Hf. reflexivity.
Qed.

(** X7. [GET /api/items] never changes the store, whatever the store
    does.  When the store rejects the query the answer is the 500 of the
    catch block.  When it executes the query, the answer has one view
    per item whose ["isActive"] is 1 or NULL and no other (the order of
    the views is the store's and is not stated); each view shows the
    stored quantity and a status computed from the quantity and the
    threshold - "out-of-stock" for a quantity of 0 or less, the rule of
    the data model otherwise - whatever the stored status column
    holds. *)
Theorem get_items_lists_active f d :
  let (d', a) := run_as get_items f d in
  d' = d
  /\ if f 0%nat
     then a = Some (Refused 500 (JFailError StoreError))
     else exists rows,
         a = Some (Sent 200 (map format_item rows))
         /\ Permutation rows (filter is_active (items d))
         /\ (forall i, In i rows <->
                       In i (items d)
                       /\ (item_isActive i = None \/ item_isActive i = Some 1))
         /\ (forall i, In i rows ->
               iv_quantity (format_item i) = item_quantity i
               /\ iv_status (format_item i)
                  = if item_quantity i <=? 0 then "out-of-stock"
                    else spec_status (item_quantity i) (item_minQuantity i)).
Proof.
  destruct (f 0%nat) eqn:Hf.
  - unfold run_as, get_items, try_catch, bind, pool_query. simpl.
    rewrite Hf. simpl. split; reflexivity.
  - rewrite (get_items_run f d Hf).
    split; [reflexivity|].
    exists (filter is_active (items d)). split; [reflexivity|].
    split; [apply Permutation_refl|]. split.
    + intros i. rewrite filter_In, is_active_iff. tauto.
    + intros i _. simpl. rewrite or0_id. split; [reflexivity|].
      apply listed_status_spec.
Qed.

Lemma get_items_lists_active_witness :
  let d := fst (run (put_item 1 (body_quantity 0)) no_faults
                    (store_with "pending" [])) in
  map item_status (items d) = [Some "in-stock"]
  /\ snd (run_as get_items no_faults d)
     = Some (Sent 200 [mkItemView "1" "A" None None 0 2 "pcs" "out-of-stock" 0])
  /\ let (d', a) := run_as get_items no_faults d in
     d' = d
     /\ exists rows,
          a = Some (Sent 200 (map format_item rows))
          /\ Permutation rows (filter is_active (items d))
          /\ (forall i, In i rows <->
                        In i (items d)
                        /\ (item_isActive i = None \/ item_isActive i = Some 1))
          /\ (forall i, In i rows ->
                iv_quantity (format_item i) = item_quantity i
                /\ iv_status (format_item i)
                   = if item_quantity i <=? 0 then "out-of-stock"
                     else spec_status (item_quantity i) (item_minQuantity i)).
Proof.
  split; [reflexivity|]. split; [reflexivity|].
  exact (get_items_lists_active no_faults
           (fst (run (put_item 1 (body_quantity 0)) no_faults
                     (store_with "pending" [])))).
Defined.

(* ================================================================== *)
(** ** A deleted item: hidden from the list, still served by id *)
(* ================================================================== *)

Lemma format_item_with_isActive v i :
  format_item (Sql.with_isActive v i) = format_item i.
Proof. reflexivity. Qed.

Lemma filter_map_inactive id (l : list Item) :
  filter is_active
    (map (fun i => if item_id i =? id then Sql.with_isActive 0 i else i) l)
  = filter (fun i => is_active i && negb (item_id i =? id)) l.
Proof.
  induction l as [|x rest IH]; simpl; [reflexivity|].
  destruct (item_id x =? id) eqn:E; simpl.
  - rewrite andb_false_r. exact IH.
  - rewrite andb_true_r. destruct (is_active x); rewrite IH; reflexivity.
Qed.

Lemma get_item_run id f d :
  snd (run_as (get_item id) f d)
  = if f 0%nat then Some (Refused 500 (JFailError StoreError))
    else match filter (fun i => item_id i =? id) (items d) with
         | [] => Some (Refused 404 (JFailMessage "Item not found"))
         | item :: _ => Some (Sent 200 (format_item item))
         end.
Proof.
  unfold run_as, get_item, try_catch, bind, pool_query, select_item. simpl.
  destruct (f 0%nat); simpl; [reflexivity|].
  destruct (filter (fun i => item_id i =? id) (items d)); reflexivity.
Qed.

Lemma filter_id_map_inactive id (l : list Item) :
  map format_item
    (filter (fun i => item_id i =? id)
       (map (fun i => if item_id i =? id then Sql.with_isActive 0 i else i) l))
  = map format_item (filter (fun i => item_id i =? id) l).
Proof.
  induction l as [|x rest IH]; simpl; [reflexivity|].
  destruct (item_id x =? id) eqn:E; simpl; rewrite E; simpl.
  - rewrite IH. reflexivity.
  - exact IH.
Qed.

(** X8. After [DELETE /api/items/:id] has run, [GET /api/items] lists
    what it listed before without the rows of that id, while
    [GET /api/items/:id] answers for the id exactly as it did before the
    delete: the item is hidden from the list, not gone. *)
Theorem deleted_item_hidden_not_gone id f f1 f2 d :
  f 0%nat = false ->
  f1 0%nat = false ->
  let d1 := fst (run (delete_item id) f d) in
  snd (run_as get_items f1 d1)
  = Some (Sent 200
            (map format_item
               (filter (fun i => is_active i && negb (item_id i =? id))
                       (items d))))
  /\ snd (run_as (get_item id) f2 d1) = snd (run_as (get_item id) f2 d).
Proof.
  intros Hf Hf1.
  pose proof (delete_item_run_cases id f d) as H.
  assert (Hrun : fst (run (delete_item id) f d)
                 = set_items d
                     (map (fun i => if item_id i =? id
                                    then Sql.with_isActive 0 i else i)
                          (items d))).
  { unfold run, delete_item, try_catch, bind, pool_query. simpl.
    rewrite Hf. reflexivity. }
  clear H. cbv zeta. rewrite Hrun.
  set (d1 := set_items d
               (map (fun i => if item_id i =? id
                              then Sql.with_isActive 0 i else i) (items d))).
  assert (Hitems : items d1
                   = map (fun i => if item_id i =? id
                                   then Sql.with_isActive 0 i else i)
                         (items d)) by reflexivity.
  split.
  - rewrite (get_items_run f1 d1 Hf1). unfold snd. rewrite Hitems.
    rewrite filter_map_inactive. reflexivity.
  - rewrite !get_item_run. destruct (f2 0%nat); [reflexivity|].
    rewrite Hitems.
    pose proof (filter_id_map_inactive id (items d)) as Hm.
    destruct (filter (fun i => item_id i =? id)
                (map (fun i => if item_id i =? id
                               then Sql.with_isActive 0 i else i) (items d)))
      as [|x xs];
      destruct (filter (fun i => item_id i =? id) (items d)) as [|y ys];
      cbn [map] in Hm; try discriminate Hm; [reflexivity|].
    assert (Hx : Some (format_item x) = Some (format_item y))
      by exact (f_equal (@hd_error _) Hm).
    congruence.
Qed.

Lemma deleted_item_hidden_not_gone_witness :
  let d := store_with "pending" [] in
  let d1 := fst (run (delete_item 1) no_faults d) in
  snd (run_as get_items no_faults d1) = Some (Sent 200 [])
  /\ snd (run_as (get_item 1) no_faults d1)
     = Some (Sent 200 (mkItemView "1" "A" None None 10 2 "pcs" "in-stock" 0))
  /\ (snd (run_as get_items no_faults d1)
      = Some (Sent 200
                (map format_item
                   (filter (fun i => is_active i && negb (item_id i =? 1))
                           (items d))))
      /\ snd (run_as (get_item 1) no_faults d1)
         = snd (run_as (get_item 1) no_faults d)).
Proof.
  split; [reflexivity|]. split; [reflexivity|].
  apply (deleted_item_hidden_not_gone 1 no_faults no_faults no_faults
           (store_with "pending" [])); reflexivity.
Defined.

(* ================================================================== *)
(** ** The dashboard figures and the listing *)
(* ================================================================== *)

Lemma get_dashboard_items_run f d :
  never_fails f ->
  snd (run_as get_dashboard_items f d)
  = Some (Sent 200
            (mkItemStats
               (count (filter is_active (items d)))
               (sum_list (map item_quantity (filter is_active (items d))))
               (count (filter (fun i => is_active i
                                        && (item_quantity i <=? item_minQuantity i))
                              (items d)))
               (count (distinct (non_null (map item_category (items d))))))).
Proof.
  intros Hf.
  unfold run_as, get_dashboard_items, try_catch, bind, pool_query. simpl.
  rewrite !Hf. reflexivity.
Qed.

Lemma low_stock_test q m :
  0 <= m ->
  (q <=? m) = negb (listed_status q m =? "in-stock")%string.
Proof.
  intros Hm. unfold listed_status. rewrite or0_id.
  destruct (Z.leb_spec q 0) as [H|H].
  - assert (E : (q >? 0) = false) by (rewrite Z.gtb_ltb; apply Z.ltb_ge; lia).
    rewrite E. simpl. apply Z.leb_le. lia.
  - assert (E : (q >? 0) = true) by (rewrite Z.gtb_ltb; apply Z.ltb_lt; lia).
    rewrite E. destruct (q <=? m); reflexivity.
Qed.

Lemma low_stock_rows (l : list Item) :
  (forall i, In i l -> is_active i = true -> 0 <= item_minQuantity i) ->
  List.length (filter (fun i => is_active i
                                && (item_quantity i <=? item_minQuantity i)) l)
  = List.length (not_in_stock (map format_item (filter is_active l))).
Proof.
  unfold not_in_stock.
  induction l as [|x rest IH]; intros H; simpl; [reflexivity|].
  assert (Hrest : forall i, In i rest -> is_active i = true ->
                            0 <= item_minQuantity i).
  { intros i Hi. apply H. right. exact Hi. }
  destruct (is_active x) eqn:Ha; simpl; [|apply IH; exact Hrest].
  rewrite (low_stock_test (item_quantity x) (item_minQuantity x))
    by (apply H; [left; reflexivity|exact Ha]).
  destruct (negb (listed_status (item_quantity x) (item_minQuantity x)
                  =? "in-stock")%string); simpl; rewrite (IH Hrest);
    reflexivity.
Qed.

Lemma listed_quantities (l : list Item) :
  map iv_quantity (map format_item l) = map item_quantity l.
Proof.
  rewrite map_map. apply map_ext. intros i. simpl. apply or0_id.
Qed.

(** X9. The figures of [GET /api/dashboard/items] agree with what
    [GET /api/items] lists: the number of items is the number of rows
    listed, the total quantity is the sum of the quantities listed and,
    when no active item has a negative threshold, the low stock figure
    is the number of rows listed with a status other than "in-stock"
    (it counts the out-of-stock items too). *)
Theorem dashboard_agrees_with_listing f1 f2 d :
  never_fails f1 ->
  f2 0%nat = false ->
  (forall i, In i (items d) -> is_active i = true -> 0 <= item_minQuantity i) ->
  exists stats rows,
    snd (run_as get_dashboard_items f1 d) = Some (Sent 200 stats)
    /\ snd (run_as get_items f2 d) = Some (Sent 200 rows)
    /\ totalItems stats = count rows
    /\ totalQuantity stats = sum_list (map iv_quantity rows)
    /\ lowStockItems stats = count (not_in_stock rows).
Proof.
  intros Hf1 Hf2 Hmin.
  eexists. exists (map format_item (filter is_active (items d))).
  split; [apply get_dashboard_items_run; exact Hf1|].
  split; [rewrite (get_items_run f2 d Hf2); reflexivity|].
  simpl. unfold count. rewrite length_map, listed_quantities.
  split; [reflexivity|]. split; [reflexivity|].
  rewrite (low_stock_rows (items d) Hmin). reflexivity.
Qed.

Lemma dashboard_agrees_with_listing_witness :
  let d := store_with "pending" [] in
  exists stats rows,
    snd (run_as get_dashboard_items no_faults d) = Some (Sent 200 stats)
    /\ snd (run_as get_items no_faults d) = Some (Sent 200 rows)
    /\ totalItems stats = count rows
    /\ totalQuantity stats = sum_list (map iv_quantity rows)
    /\ lowStockItems stats = count (not_in_stock rows).
Proof.
  apply (dashboard_agrees_with_listing no_faults no_faults
           (store_with "pending" [])).
  - exact never_fails_no_faults.
  - reflexivity.
  - intros i [<-|[]] _. simpl. lia.
Defined.

(* ================================================================== *)
(** ** The stock card of an item *)
(* ================================================================== *)

Lemma filter_primary_key (l : list Item) item :
  NoDup (map item_id l) -> In item l ->
  filter (fun i => item_id item =? item_id i) l = [item]
  /\ filter (fun i => item_id i =? item_id item) l = [item].
Proof.
  induction l as [|x rest IH]; simpl; intros Hnd Hin; [contradiction|].
  inversion Hnd as [|? ? Hx Hrest]; subst.
  assert (Hnone : ~ In (item_id x) (map item_id rest) ->
            forall k, k = item_id x ->
              filter (fun i => k =? item_id i) rest = []
              /\ filter (fun i => item_id i =? k) rest = []).
  { clear. intros Hx k ->. induction rest as [|y ys IHy]; simpl; [auto|].
    assert (item_id x <> item_id y) by (intros E; apply Hx; left; auto).
    assert (Hys : ~ In (item_id x) (map item_id ys))
      by (intros E; apply Hx; right; exact E).
    destruct (IHy Hys) as [H1 H2].
    rewrite (proj2 (Z.eqb_neq _ _) H).
    assert (H' : item_id y <> item_id x) by congruence.
    rewrite (proj2 (Z.eqb_neq _ _) H'). auto. }
  destruct Hin as [->|Hin].
  - rewrite Z.eqb_refl. destruct (Hnone Hx (item_id item) eq_refl) as [-> ->].
    auto.
  - assert (Hne : item_id item <> item_id x).
    { intros E. apply Hx. rewrite <- E. apply in_map. exact Hin. }
    rewrite (proj2 (Z.eqb_neq _ _) Hne).
    assert (Hne' : item_id x <> item_id item) by congruence.
    rewrite (proj2 (Z.eqb_neq _ _) Hne').
    apply IH; assumption.
Qed.

Lemma join_history_entries item (l : list Item) : forall h,
  NoDup (map item_id l) -> In item l ->
  map hv_entry
    (flat_map
       (fun sh =>
          map (fun i => mkHistoryView sh (item_name i))
              (filter (fun i => sh_item_id sh =? item_id i) l))
       (filter (fun sh => sh_item_id sh =? item_id item) h))
  = entries_of (item_id item) h.
Proof.
  intros h Hnd Hin. unfold entries_of.
  induction h as [|e rest IH]; simpl; [reflexivity|].
  destruct (Z.eqb_spec (sh_item_id e) (item_id item)) as [E|E]; [|exact IH].
  simpl. rewrite E.
  destruct (filter_primary_key l item Hnd Hin) as [-> _]. simpl.
  rewrite IH. reflexivity.
Qed.

(** X10. On a store in order, [GET /api/stock-history/item/:itemId] for
    an existing item changes nothing and, when the store executes its
    two queries, sends the item with exactly its history rows, oldest
    first; those rows chain, and the last one ends with the quantity the
    item holds. *)
Theorem stock_card_matches_item f d item :
  store_ok d ->
  In item (items d) ->
  f 0%nat = false -> f 1%nat = false ->
  let (d', a) := run_as (get_item_history (item_id item)) f d in
  d' = d
  /\ exists history,
       a = Some (Sent 200 (mkStockCard (Some item) history))
       /\ map hv_entry history
          = entries_of (item_id item) (stock_history d)
       /\ chained_from None (map hv_entry history)
       /\ (forall a, closing_from None (map hv_entry history) = Some a ->
                     item_quantity item = a).
Proof.
  intros [(Hpk & _) Hl] Hin Hf0 Hf1.
  unfold run_as, get_item_history, try_catch, bind, pool_query,
    select_item_history, select_item. simpl.
  rewrite Hf0. simpl. rewrite Hf1. simpl.
  destruct (filter_primary_key (items d) item Hpk Hin) as [_ ->]. simpl.
  split; [reflexivity|].
  eexists. split; [reflexivity|].
  rewrite (join_history_entries item (items d) (stock_history d) Hpk Hin).
  destruct (Hl (item_id item)) as [Hch Hq].
  split; [reflexivity|]. split; [exact Hch|].
  intros a Ha. apply (Hq item a Hin eq_refl Ha).
Qed.

Lemma stock_card_matches_item_witness :
  let d := fst (run (put_item 1 (body_quantity 4)) no_faults
                    (store_with "pending" [])) in
  let item := Sql.assign (SetQuantity 4) item_A in
  store_ok d
  /\ let (d', a) := run_as (get_item_history (item_id item)) no_faults d in
     d' = d
     /\ exists history,
          a = Some (Sent 200 (mkStockCard (Some item) history))
          /\ map hv_entry history
             = entries_of (item_id item) (stock_history d)
          /\ chained_from None (map hv_entry history)
          /\ (forall a, closing_from None (map hv_entry history) = Some a ->
                        item_quantity item = a).
Proof.
  assert (H : store_ok (fst (run (put_item 1 (body_quantity 4)) no_faults
                                 (store_with "pending" [])))).
  { pose proof (handler_ledger_cases (PutItem 1 (body_quantity 4)) no_faults
                  (store_with "pending" []) (store_with_ok _ _) I) as Hc.
    simpl handle in Hc.
    destruct (run (put_item 1 (body_quantity 4)) no_faults
                  (store_with "pending" [])) as [d' r] eqn:E.
    apply Hc.
    vm_compute in E. injection E as _ <-. apply answered_json. }
  split; [exact H|].
  apply (stock_card_matches_item no_faults _ _ H).
  - left. reflexivity.
  - reflexivity.
  - reflexivity.
Defined.

(** With [after = before + change] on every row, the last row ends
    where the first started plus the sum of the changes. *)
Lemma balanced_chain_total l : forall a0,
  chained_from (Some a0) l ->
  Forall balanced l ->
  closing_from (Some a0) l = Some (a0 + sum_list (map sh_quantity_change l)).
Proof.
  induction l as [|e rest IH]; intros a0 Hch Hb; simpl.
  - f_equal. lia.
  - simpl in Hch. destruct Hch as [Hbefore Hrest].
    inversion Hb as [|? ? He Hb']; subst.
    rewrite (IH _ Hrest Hb'). unfold balanced in He. f_equal. lia.
Qed.

Lemma fold_left_add (g : StockHistory -> Z) l : forall acc,
  fold_left (fun sum h => sum + g h) l acc = acc + sum_list (map g l).
Proof.
  induction l as [|e rest IH]; intros acc; simpl; [lia|].
  rewrite IH. lia.
Qed.

(** Total in minus total out is the sum of the changes. *)
Lemma in_minus_out l :
  sum_by sh_quantity_change (filter (fun h => sh_quantity_change h >? 0) l)
  - sum_by (fun h => Z.abs (sh_quantity_change h))
      (filter (fun h => sh_quantity_change h <? 0) l)
  = sum_list (map sh_quantity_change l).
Proof.
  unfold sum_by. rewrite !fold_left_add.
  induction l as [|e rest IH]; simpl; [reflexivity|].
  rewrite Z.gtb_ltb.
  destruct (Z.ltb_spec 0 (sh_quantity_change e)) as [Hp|Hp];
    destruct (Z.ltb_spec (sh_quantity_change e) 0) as [Hn|Hn]; simpl; lia.
Qed.

(** X11. The summary of the stock card adds up as long as no row was
    clamped: for an item of a store in order whose history rows all
    satisfy [after = before + change], the current quantity shown is the
    quantity before the first row, plus the total in, minus the total
    out. *)
Theorem stock_card_adds_up d item first rest :
  store_ok d ->
  In item (items d) ->
  entries_of (item_id item) (stock_history d) = first :: rest ->
  Forall balanced (first :: rest) ->
  let s := card_summary item (first :: rest) in
  current_quantity s = sh_quantity_before first + total_in s - total_out s.
Proof.
  intros [_ Hl] Hin Hent Hb. destruct (Hl (item_id item)) as [Hch Hq].
  rewrite Hent in Hch, Hq. simpl in Hch. destruct Hch as [_ Hch].
  inversion Hb as [|? ? Hfirst Hrest]; subst.
  pose proof (balanced_chain_total rest _ Hch Hrest) as Hclose.
  specialize (Hq item _ Hin eq_refl Hclose).
  unfold card_summary. cbn [current_quantity total_in total_out].
  rewrite !or0_id.
  pose proof (in_minus_out (first :: rest)) as Hsum.
  unfold sum_list in Hq, Hsum. cbn [map fold_right] in Hsum.
  unfold balanced in Hfirst. lia.
Qed.

Lemma put_store_ok :
  store_ok (fst (run (put_item 1 (body_quantity 4)) no_faults
                     (store_with "pending" []))).
Proof.
  pose proof (handler_ledger_cases (PutItem 1 (body_quantity 4)) no_faults
                (store_with "pending" []) (store_with_ok _ _) I) as Hc.
  simpl handle in Hc.
  destruct (run (put_item 1 (body_quantity 4)) no_faults
                (store_with "pending" [])) as [d' r] eqn:E.
  apply Hc.
  vm_compute in E. injection E as _ <-. apply answered_json.
Qed.

Lemma stock_card_adds_up_witness :
  let d := fst (run (put_item 1 (body_quantity 4)) no_faults
                    (store_with "pending" [])) in
  let item := Sql.assign (SetQuantity 4) item_A in
  let first := put_history 1 (body_quantity 4) 4 10 in
  let s := card_summary item [first] in
  (current_quantity s, sh_quantity_before first, total_in s, total_out s)
  = (4, 10, 0, 6)
  /\ current_quantity s = sh_quantity_before first + total_in s - total_out s.
Proof.
  split; [reflexivity|].
  apply (stock_card_adds_up
           (fst (run (put_item 1 (body_quantity 4)) no_faults
                     (store_with "pending" [])))
           (Sql.assign (SetQuantity 4) item_A)
           (put_history 1 (body_quantity 4) 4 10) []).
  - exact put_store_ok.
  - left. reflexivity.
  - reflexivity.
  - constructor; [apply put_history_balanced|constructor].
Defined.

(* ================================================================== *)
(** ** [PUT /api/items/:id], statement by statement *)
(* ================================================================== *)

Lemma put_run_exact id b f d :
  let (d', r) := run (put_item id b) f d in
  if f 0%nat
  then d' = d /\ r = Some (mkResponse 500 (JFailError StoreError))
  else
    match map item_quantity (filter (fun i => item_id i =? id) (items d)) with
    | [] => d' = d /\ r = Some (mkResponse 404 (JFailMessage "Item not found"))
    | oldQty :: _ =>
        match put_updates b with
        | [] => d' = d
                /\ r = Some (json (JSuccessMessage "No updates provided"))
        | _ :: _ =>
            if f 1%nat
            then d' = d /\ r = Some (mkResponse 500 (JFailError StoreError))
            else
              match pu_quantity b with
              | Some q =>
                  if q =? oldQty
                  then d' = put_items id b d
                       /\ r = Some (json (JRow (updated_row id b d)))
                  else if f 2%nat
                       then d' = put_items id b d
                            /\ r = Some (mkResponse 500 (JFailError StoreError))
                       else d' = set_stock_history (put_items id b d)
                                   (stock_history d
                                    ++ [put_history id b q oldQty])
                            /\ r = Some (json (JRow (updated_row id b d)))
              | None => d' = put_items id b d
                        /\ r = Some (json (JRow (updated_row id b d)))
              end
        end
    end.
Proof.
  unfold run, put_item, try_catch, bind at 1, pool_query at 1. simpl.
  destruct (f 0%nat); simpl; [auto|].
  destruct (map item_quantity (filter (fun i => item_id i =? id) (items d)))
    as [|oldQty rest]; simpl; [auto|].
  unfold updated_row, put_items.
  destruct (put_updates b) as [|u us]; simpl; [auto|].
  unfold bind at 1, pool_query at 1. simpl.
  destruct (f 1%nat); simpl; [auto|].
  destruct (pu_quantity b) as [q|].
  - destruct (q =? oldQty); simpl.
    + unfold bind, ret. simpl. auto.
    + unfold bind, pool_query, ret. simpl.
      destruct (f 2%nat); simpl; auto.
  - unfold bind, ret. simpl. auto.
Qed.

Lemma assign_all_twice b i :
  Sql.assign_all (put_updates b) (Sql.assign_all (put_updates b) i)
  = Sql.assign_all (put_updates b) i.
Proof.
  unfold put_updates.
  destruct (pu_name b), (pu_description b), (pu_category b), (pu_quantity b),
    (pu_minQuantity b), (pu_unit b), (pu_price b); reflexivity.
Qed.

Lemma put_items_twice id b d :
  put_items id b (put_items id b d) = put_items id b d.
Proof.
  unfold put_items, set_items. simpl. f_equal.
  rewrite map_map. apply map_ext. intros i.
  destruct (item_id i =? id) eqn:E.
  - rewrite assign_all_item_id, E. apply assign_all_twice.
  - rewrite E. reflexivity.
Qed.

Lemma put_items_history id b d h :
  put_items id b (set_stock_history d h)
  = set_stock_history (put_items id b d) h.
Proof. reflexivity. Qed.

Lemma put_items_quantity id b d :
  map item_quantity
      (filter (fun i => item_id i =? id) (items (put_items id b d)))
  = map (fun i => match pu_quantity b with
                  | Some q => q
                  | None => item_quantity i
                  end)
        (filter (fun i => item_id i =? id) (items d)).
Proof.
  unfold put_items, set_items. simpl.
  induction (items d) as [|i l IH]; simpl; [reflexivity|].
  destruct (item_id i =? id) eqn:E.
  - rewrite assign_all_item_id, E. simpl. rewrite put_updates_quantity, IH.
    reflexivity.
  - rewrite E. exact IH.
Qed.

(** X12. A [PUT /api/items/:id] that answered with the updated row can be
    sent again, over any store behaviour: the second call changes nothing,
    and in particular adds no second history row. *)
Theorem put_item_twice id b f1 f2 d :
  (exists row, snd (run (put_item id b) f1 d) = Some (json (JRow row))) ->
  let d1 := fst (run (put_item id b) f1 d) in
  fst (run (put_item id b) f2 d1) = d1.
Proof.
  intros [row Hrow]. cbv zeta.
  pose proof (put_run_exact id b f1 d) as H1.
  destruct (run (put_item id b) f1 d) as [d1 r1]. simpl in Hrow. simpl fst.
  subst r1.
  assert (Hd1 : exists oldQty rest h,
             map item_quantity (filter (fun i => item_id i =? id) (items d))
             = oldQty :: rest
             /\ d1 = set_stock_history (put_items id b d) h).
  { destruct (f1 0%nat); [destruct H1 as [_ H1]; discriminate|].
    destruct (map item_quantity (filter (fun i => item_id i =? id) (items d)))
      as [|oldQty rest]; [destruct H1 as [_ H1]; discriminate|].
    exists oldQty, rest.
    destruct (put_updates b); [destruct H1 as [_ H1]; discriminate|].
    destruct (f1 1%nat); [destruct H1 as [_ H1]; discriminate|].
    destruct (pu_quantity b) as [q|].
    - destruct (q =? oldQty).
      + exists (stock_history d). split; [reflexivity|].
        destruct H1 as [-> _]. destruct d; reflexivity.
      + destruct (f1 2%nat);
          try (destruct H1 as [_ H1]; discriminate);
          eexists; (split; [reflexivity|]); destruct H1 as [-> _]; reflexivity.
    - exists (stock_history d). split; [reflexivity|].
      destruct H1 as [-> _]. destruct d; reflexivity. }
  clear H1. destruct Hd1 as (oldQty & rest & h & Hsel & ->).
  pose proof (put_run_exact id b f2 (set_stock_history (put_items id b d) h))
    as H2.
  destruct (run (put_item id b) f2 (set_stock_history (put_items id b d) h))
    as [d2 r2]. simpl fst.
  destruct (f2 0%nat); [apply H2|].
  replace (items (set_stock_history (put_items id b d) h))
    with (items (put_items id b d)) in H2 by reflexivity.
  rewrite put_items_quantity in H2.
  destruct (filter (fun i => item_id i =? id) (items d)) as [|i0 l0];
    [discriminate|].
  cbn [map] in H2.
  destruct (put_updates b) eqn:Hu; [apply H2|].
  destruct (f2 1%nat); [apply H2|].
  rewrite put_items_history, put_items_twice in H2.
  destruct (pu_quantity b) as [q|].
  - rewrite Z.eqb_refl in H2. apply H2.
  - apply H2.
Qed.

Lemma put_item_twice_witness :
  let d := store_with "pending" [] in
  let d1 := fst (run (put_item 1 (body_quantity 4)) no_faults d) in
  List.length (stock_history d1) = 1%nat
  /\ fst (run (put_item 1 (body_quantity 4)) no_faults d1) = d1.
Proof.
  split; [reflexivity|].
  apply (put_item_twice 1 (body_quantity 4) no_faults no_faults
           (store_with "pending" [])).
  eexists. reflexivity.
Defined.

Lemma assign_all_isActive b i :
  item_isActive (Sql.assign_all (put_updates b) i) = item_isActive i
  /\ item_status (Sql.assign_all (put_updates b) i) = item_status i.
Proof.
  unfold put_updates.
  destruct (pu_name b), (pu_description b), (pu_category b), (pu_quantity b),
    (pu_minQuantity b), (pu_unit b), (pu_price b); split; reflexivity.
Qed.

Lemma put_run_shape id b f d :
  exists new,
    fst (run (put_item id b) f d)
    = set_stock_history d (stock_history d ++ new)
    /\ new = []
    \/ fst (run (put_item id b) f d)
       = set_stock_history (put_items id b d) (stock_history d ++ new)
       /\ (new = []
           \/ exists q oldQty, new = [put_history id b q oldQty]).
Proof.
  pose proof (put_run_exact id b f d) as H.
  destruct (run (put_item id b) f d) as [d' r]. simpl fst.
  assert (Hd : d = set_stock_history d (stock_history d ++ []))
    by (rewrite app_nil_r; destruct d; reflexivity).
  assert (Hp : put_items id b d
               = set_stock_history (put_items id b d) (stock_history d ++ []))
    by (rewrite app_nil_r; destruct d; reflexivity).
  destruct (f 0%nat);
    [exists []; left; split; [destruct H as [-> _]; exact Hd|reflexivity]|].
  destruct (map item_quantity (filter (fun i => item_id i =? id) (items d)))
    as [|oldQty rest];
    [exists []; left; split; [destruct H as [-> _]; exact Hd|reflexivity]|].
  destruct (put_updates b);
    [exists []; left; split; [destruct H as [-> _]; exact Hd|reflexivity]|].
  destruct (f 1%nat);
    [exists []; left; split; [destruct H as [-> _]; exact Hd|reflexivity]|].
  destruct (pu_quantity b) as [q|].
  - destruct (q =? oldQty).
    + exists []. right. split; [destruct H as [-> _]; exact Hp|left; reflexivity].
    + destruct (f 2%nat).
      * exists []. right.
        split; [destruct H as [-> _]; exact Hp|left; reflexivity].
      * exists [put_history id b q oldQty]. right.
        split; [destruct H as [-> _]; reflexivity|].
        right. exists q, oldQty. reflexivity.
  - exists []. right. split; [destruct H as [-> _]; exact Hp|left; reflexivity].
Qed.

Lemma Forall2_map_same {A} (rel : A -> A -> Prop) (g : A -> A) (l : list A) :
  (forall x, rel x (g x)) -> Forall2 rel l (map g l).
Proof.
  intros H. induction l as [|x l IH]; simpl; constructor; [apply H|exact IH].
Qed.

Lemma Forall2_same {A} (rel : A -> A -> Prop) (l : list A) :
  (forall x, rel x x) -> Forall2 rel l l.
Proof.
  intros H. induction l as [|x l IH]; constructor; [apply H|exact IH].
Qed.

(** X13. What [PUT /api/items/:id] never touches, whatever the body and
    whatever the store rejects: requests, their lines and the id
    sequence; the id, the stored status and the ["isActive"] flag of
    every item (so it neither restores a deleted item nor recomputes a
    status); every field of the items with another id; and no item is
    added or removed.  The history only grows, by at most one row, and
    that row names the item.  Nothing is said of the order in which the
    store keeps the rows of [items]. *)
Theorem put_item_frame id b f d :
  let d' := fst (run (put_item id b) f d) in
  requests d' = requests d
  /\ request_items d' = request_items d
  /\ items_id_seq d' = items_id_seq d
  /\ rows_updated (put_kept id) (items d) (items d')
  /\ exists new,
       stock_history d' = (stock_history d ++ new)%list
       /\ (List.length new <= 1)%nat
       /\ Forall (fun e => sh_item_id e = id) new.
Proof.
  cbv zeta. destruct (put_run_shape id b f d) as [new [[-> ->]|[-> Hnew]]].
  - split; [reflexivity|]. split; [reflexivity|]. split; [reflexivity|].
    split.
    + exists (items d). split; [apply Permutation_refl|].
      apply Forall2_same. intros i. repeat split.
    + exists []. simpl. repeat split; [lia|constructor].
  - unfold put_items, set_items, set_stock_history. simpl.
    split; [reflexivity|]. split; [reflexivity|]. split; [reflexivity|].
    split.
    + eexists. split; [apply Permutation_refl|].
      apply Forall2_map_same. intros i. unfold put_kept.
      destruct (Z.eqb_spec (item_id i) id) as [E|E].
      * split; [apply assign_all_item_id|].
        split; [apply assign_all_isActive|].
        split; [apply assign_all_isActive|]. intros Hne. contradiction.
      * repeat split.
    + exists new. split; [reflexivity|].
      destruct Hnew as [->|(q & oldQty & ->)]; simpl.
      * split; [lia|constructor].
      * split; [lia|]. constructor; [reflexivity|constructor].
Qed.

Lemma put_item_frame_witness :
  let d := mkDB [item_A; item_B] 3 [] [] [] in
  let d' := fst (run (put_item 2 (body_quantity 0)) no_faults d) in
  map item_quantity (items d') = [10; 0]
  /\ requests d' = requests d
  /\ request_items d' = request_items d
  /\ items_id_seq d' = items_id_seq d
  /\ rows_updated (put_kept 2) (items d) (items d')
  /\ exists new,
       stock_history d' = (stock_history d ++ new)%list
       /\ (List.length new <= 1)%nat
       /\ Forall (fun e => sh_item_id e = 2) new.
Proof.
  split; [reflexivity|].
  exact (put_item_frame 2 (body_quantity 0) no_faults
           (mkDB [item_A; item_B] 3 [] [] [])).
Defined.

Lemma filter_put_items id b d :
  filter (fun i => item_id i =? id) (items (put_items id b d))
  = map (Sql.assign_all (put_updates b))
        (filter (fun i => item_id i =? id) (items d)).
Proof.
  unfold put_items, set_items. simpl.
  induction (items d) as [|i l IH]; simpl; [reflexivity|].
  destruct (item_id i =? id) eqn:E.
  - rewrite assign_all_item_id, E. simpl. rewrite IH. reflexivity.
  - rewrite E. exact IH.
Qed.

(** X14. A [PUT /api/items/:id] with a quantity, on an item of the store,
    when the store rejects nothing: the answer is the first row with
    that id after the update, every row with that id stores the new
    quantity, and the history gets one row exactly when the quantity
    differs from the stored one - from the old quantity to the new one,
    the difference as change, "restock" for an increase and
    "adjustment" for a decrease, with [historyNotes], else [notes], else
    'Manual update' as notes. *)
Theorem put_item_records_change id b f d item rest q :
  never_fails f ->
  filter (fun i => item_id i =? id) (items d) = item :: rest ->
  pu_quantity b = Some q ->
  let (d', r) := run (put_item id b) f d in
  let old := item_quantity item in
  r = Some (json (JRow (Some (Sql.assign_all (put_updates b) item))))
  /\ (forall i', In i' (items d') -> item_id i' = id -> item_quantity i' = q)
  /\ stock_history d'
     = (stock_history d
        ++ if q =? old then []
           else [mkStockHistory id
                   (if q >? old then "restock" else "adjustment")
                   old (q - old) q
                   (Js.or_str (pu_historyNotes b)
                      (Js.or_str (pu_notes b) (Some "Manual update")))
                   (pu_userId b)])%list.
Proof.
  intros Hf Hfil Hq.
  pose proof (put_run_exact id b f d) as H.
  destruct (run (put_item id b) f d) as [d' r].
  rewrite !Hf, Hfil, Hq in H. cbn [map] in H.
  assert (Hu : exists u us, put_updates b = u :: us).
  { unfold put_updates. rewrite Hq.
    destruct (pu_name b), (pu_description b), (pu_category b),
      (pu_minQuantity b), (pu_unit b), (pu_price b); simpl;
      eexists; eexists; reflexivity. }
  destruct Hu as (u & us & Hu). rewrite Hu in H.
  assert (Hrow : updated_row id b d
                 = Some (Sql.assign_all (put_updates b) item)).
  { unfold updated_row. rewrite filter_put_items, Hfil. reflexivity. }
  assert (Hall : forall i', In i' (items (put_items id b d)) ->
                            item_id i' = id -> item_quantity i' = q).
  { intros i' Hi' Hid. unfold put_items, set_items in Hi'. simpl in Hi'.
    apply in_map_iff in Hi'. destruct Hi' as (i & <- & _).
    destruct (item_id i =? id) eqn:E.
    - rewrite put_updates_quantity, Hq. reflexivity.
    - apply Z.eqb_neq in E. contradiction. }
  cbv zeta. rewrite Hrow in H.
  destruct (q =? item_quantity item).
  - destruct H as [-> ->]. rewrite app_nil_r.
    split; [reflexivity|]. split; [exact Hall|reflexivity].
  - destruct H as [-> ->].
    split; [reflexivity|]. split; [exact Hall|]. simpl. unfold put_history.
    rewrite !or0_id. reflexivity.
Qed.

Lemma put_item_records_change_witness :
  let (d', r) := run (put_item 1 (body_quantity 14)) no_faults
                     (store_with "pending" []) in
  r = Some (json (JRow (Some (Sql.assign (SetQuantity 14) item_A))))
  /\ (forall i', In i' (items d') -> item_id i' = 1 -> item_quantity i' = 14)
  /\ stock_history d'
     = [mkStockHistory 1 "restock" 10 4 14 (Some "Manual update") None].
Proof.
  exact (put_item_records_change 1 (body_quantity 14) no_faults
           (store_with "pending" []) item_A [] 14
           never_fails_no_faults eq_refl eq_refl).
Defined.

(** X15. [PUT /api/items/:id] writes nothing in two cases, when the store
    answers the first query: no item has the id (404 "Item not found"),
    and the body names none of the seven columns - [notes],
    [historyNotes] and [userId] alone are no update ("No updates
    provided", with status 200). *)
Theorem put_item_refuses id b f d :
  f 0%nat = false ->
  (~ In id (map item_id (items d)) ->
   run (put_item id b) f d
   = (d, Some (mkResponse 404 (JFailMessage "Item not found"))))
  /\ (In id (map item_id (items d)) ->
      forall notes historyNotes userId,
        run (put_item id
               (mkPutItemBody None notes historyNotes userId
                              None None None None None None)) f d
        = (d, Some (mkResponse 200 (JSuccessMessage "No updates provided")))).
Proof.
  intros Hf. split.
  - intros Hno.
    pose proof (put_run_exact id b f d) as H.
    destruct (run (put_item id b) f d) as [d' r]. rewrite Hf in H.
    destruct (filter (fun i => item_id i =? id) (items d)) as [|i l] eqn:Hfil.
    + destruct H as [-> ->]. reflexivity.
    + exfalso. apply Hno.
      assert (Hin : In i (filter (fun i => item_id i =? id) (items d)))
        by (rewrite Hfil; left; reflexivity).
      apply filter_In in Hin. destruct Hin as [Hin Hid].
      apply Z.eqb_eq in Hid. subst id. apply in_map. exact Hin.
  - intros Hin notes historyNotes userId.
    pose proof (put_run_exact id
                  (mkPutItemBody None notes historyNotes userId
                                 None None None None None None) f d) as H.
    destruct (run _ f d) as [d' r]. rewrite Hf in H.
    apply in_map_iff in Hin. destruct Hin as (i & Hid & Hin).
    destruct (filter (fun i => item_id i =? id) (items d)) as [|i0 l] eqn:Hfil.
    + exfalso.
      assert (Hi : In i (filter (fun i => item_id i =? id) (items d)))
        by (apply filter_In; split; [exact Hin|apply Z.eqb_eq; exact Hid]).
      rewrite Hfil in Hi. exact Hi.
    + simpl in H. destruct H as [-> ->]. reflexivity.
Qed.

Lemma put_item_refuses_witness :
  run (put_item 7 (body_quantity 3)) no_faults (store_with "pending" [])
  = (store_with "pending" [],
     Some (mkResponse 404 (JFailMessage "Item not found")))
  /\ run (put_item 1
            (mkPutItemBody None (Some "recount") None (Some "u1")
                           None None None None None None))
         no_faults (store_with "pending" [])
     = (store_with "pending" [],
        Some (mkResponse 200 (JSuccessMessage "No updates provided"))).
Proof.
  destruct (put_item_refuses 7 (body_quantity 3) no_faults
              (store_with "pending" []) eq_refl) as [H404 _].
  destruct (put_item_refuses 1 (body_quantity 3) no_faults
              (store_with "pending" []) eq_refl) as [_ Hnone].
  split.
  - apply H404. simpl. intros [H|[]]. discriminate.
  - apply Hnone. left. reflexivity.
Defined.






(* ================================================================== *)
(** ** Requests: creating, reading back, deleting *)
(* ================================================================== *)


Lemma get_request_run users id f d :
  run_as (get_request users id) f d
  = (d,
     if f 0%nat then Some (Refused 500 (JFailError StoreError))
     else match flat_map (left_join_requester users)
                  (filter (fun r => (req_id r =? id)%string) (requests d)) with
          | [] => Some (Refused 404 (JFailMessage "Request not found"))
          | request :: _ =>
              if f 1%nat then Some (Refused 500 (JFailError StoreError))
              else
                Some (Sent 200
                        (mkRequestView request
                           (flat_map
                              (fun ri =>
                                 map (fun i => mkLineView ri (item_name i)
                                                 (item_category i))
                                     (filter (fun i => ri_item_id ri =? item_id i)
                                             (items d)))
                              (filter (fun ri => (ri_request_id ri =? id)%string)
                                      (request_items d)))))
          end).
Proof.
  unfold run_as, get_request, try_catch, bind at 1, pool_query at 1,
    select_request. simpl.
  destruct (f 0%nat); simpl; [reflexivity|].
  destruct (flat_map (left_join_requester users)
              (filter (fun r => (req_id r =? id)%string) (requests d)));
    simpl; [reflexivity|].
  unfold bind, pool_query, select_request_items, ret. simpl.
  destruct (f 1%nat); reflexivity.
Qed.

Lemma fresh_id_requests uuid d :
  existsb (fun r => (req_id r =? uuid)%string) (requests d) = false ->
  forall r, In r (requests d) -> (req_id r =? uuid)%string = false.
Proof.
  intros H r Hr. destruct (req_id r =? uuid)%string eqn:E; [|reflexivity].
  assert (Ht : existsb (fun r => (req_id r =? uuid)%string) (requests d) = true)
    by (apply existsb_exists; exists r; split; assumption).
  congruence.
Qed.

Lemma fresh_id_lines uuid d :
  refs_ok d ->
  existsb (fun r => (req_id r =? uuid)%string) (requests d) = false ->
  forall ri, In ri (request_items d) ->
             (ri_request_id ri =? uuid)%string = false.
Proof.
  intros (_ & Href & _) H ri Hri.
  destruct (ri_request_id ri =? uuid)%string eqn:E; [|reflexivity].
  apply String.eqb_eq in E. specialize (Href ri Hri). rewrite E in Href.
  apply in_map_iff in Href. destruct Href as (r & Hid & Hr).
  pose proof (fresh_id_requests uuid d H r Hr) as Hn.
  rewrite Hid, String.eqb_refl in Hn. discriminate.
Qed.

Lemma line_rows_of uuid (lines : list RequestLine) :
  forall ri, In ri (map (line_row uuid) lines) ->
             (ri_request_id ri =? uuid)%string = true.
Proof.
  intros ri Hri. apply in_map_iff in Hri. destruct Hri as (l & <- & _).
  apply String.eqb_refl.
Qed.

Lemma post_request_created uuid now b f d :
  snd (run (post_request uuid now b) f d)
  = Some (mkResponse 201 (JSuccessId uuid)) ->
  fst (run (post_request uuid now b) f d) = post_request_effect uuid now b d
  /\ existsb (fun r => (req_id r =? uuid)%string) (requests d) = false
  /\ items_known (pr_items b) d = true.
Proof.
  pose proof (post_request_cases uuid now b f d) as H.
  destruct (run (post_request uuid now b) f d) as [d' r]. simpl.
  intros ->. destruct (has_required_fields b).
  - destruct H as [(_ & -> & Hins)|[_ [Hn|[e He]]]]; try discriminate.
    unfold insertable in Hins. apply andb_prop in Hins.
    destruct Hins as [Hfresh Hknown]. apply negb_true_iff in Hfresh.
    auto.
  - destruct H as [H _]. discriminate.
Qed.




Lemma store_with_no_lines_refs_ok status : refs_ok (store_with status []).
Proof.
  unfold refs_ok. simpl. repeat split.
  - repeat constructor. intros [].
  - intros ri [].
  - intros ri [].
Qed.


(** X18. Deleting a request that was just created undoes the creation.
    On a store with referential integrity, after a [POST /api/requests]
    that answered 201, a [DELETE /api/requests/:id] with the new id that
    the store executes answers success and leaves exactly the store of
    before the creation. *)
Theorem post_then_delete_request uuid now b f f2 d :
  refs_ok d ->
  snd (run (post_request uuid now b) f d)
  = Some (mkResponse 201 (JSuccessId uuid)) ->
  f2 0%nat = false ->
  let d1 := fst (run (post_request uuid now b) f d) in
  run (delete_request uuid) f2 d1 = (d, Some (json JSuccess)).
Proof.
  intros Hrefs H201 Hf. cbv zeta.
  destruct (post_request_created uuid now b f d H201) as (-> & Hfresh & _).
  pose proof (delete_request_cases uuid f2 (post_request_effect uuid now b d))
    as H.
  destruct (run (delete_request uuid) f2 (post_request_effect uuid now b d))
    as [d' r].
  assert (Hhit : filter (fun r => (req_id r =? uuid)%string)
                   (requests (post_request_effect uuid now b d))
                 = [new_request uuid now b]).
  { unfold post_request_effect. cbn [requests]. rewrite filter_app.
    rewrite (proj1 (filter_none _ _ (fresh_id_requests uuid d Hfresh))).
    cbn [app filter new_request req_id]. rewrite String.eqb_refl.
    reflexivity. }
  rewrite Hhit in H.
  destruct H as [(_ & _ & Ht)|[(_ & Hnil & _)|(_ & _ & -> & ->)]];
    [congruence|discriminate|].
  f_equal. unfold post_request_effect. cbn [requests request_items items
    items_id_seq stock_history].
  rewrite !filter_app.
  rewrite (proj2 (filter_none _ _ (fresh_id_requests uuid d Hfresh))).
  rewrite (proj2 (filter_none _ _ (fresh_id_lines uuid d Hrefs Hfresh))).
  rewrite (proj2 (filter_all _ _ (line_rows_of uuid (pr_items b)))).
  cbn [filter new_request req_id]. rewrite String.eqb_refl. cbn [negb].
  rewrite !app_nil_r. destruct d; reflexivity.
Qed.

Lemma post_then_delete_request_witness :
  let d := store_with "pending" [] in
  let d1 := fst (run (post_request "r2" 200
                        (body_request [mkRequestLine 1 3])) no_faults d) in
  List.length (request_items d1) = 1%nat
  /\ run (delete_request "r2") no_faults d1 = (d, Some (json JSuccess)).
Proof.
  split; [reflexivity|].
  apply (post_then_delete_request "r2" 200 (body_request [mkRequestLine 1 3])
           no_faults no_faults (store_with "pending" [])).
  - apply store_with_no_lines_refs_ok.
  - reflexivity.
  - reflexivity.
Defined.

(** X19. After a [DELETE /api/requests/:id] that the store executed,
    [GET /api/requests/:id] answers 404 "Request not found" for that id,
    whether or not a request had it, and changes nothing. *)
Theorem deleted_request_not_found users id f f2 d :
  f 0%nat = false ->
  f2 0%nat = false ->
  let d1 := fst (run (delete_request id) f d) in
  run_as (get_request users id) f2 d1
  = (d1, Some (Refused 404 (JFailMessage "Request not found"))).
Proof.
  intros Hf Hf2. cbv zeta.
  pose proof (delete_request_cases id f d) as H.
  destruct (run (delete_request id) f d) as [d' r]. simpl fst.
  rewrite get_request_run, Hf2.
  destruct H as [(_ & _ & Ht)|[(_ & Hnil & -> & _)|(_ & _ & _ & ->)]];
    [congruence| |].
  - rewrite Hnil. reflexivity.
  - cbn [requests].
    assert (Hn : filter (fun r => (req_id r =? id)%string)
                   (filter (fun r => negb (req_id r =? id)%string) (requests d))
                 = []).
    { apply filter_none. intros x Hx. apply filter_In in Hx.
      destruct Hx as [_ Hx]. apply negb_true_iff in Hx. exact Hx. }
    rewrite Hn. reflexivity.
Qed.

Lemma deleted_request_not_found_witness :
  let d := store_with "approved" [mkRequestItem "r1" 1 5] in
  (exists view,
     snd (run_as (get_request [] "r1") no_faults d) = Some (Sent 200 view))
  /\ let d1 := fst (run (delete_request "r1") no_faults d) in
     run_as (get_request [] "r1") no_faults d1
     = (d1, Some (Refused 404 (JFailMessage "Request not found"))).
Proof.
  split; [eexists; reflexivity|].
  apply (deleted_request_not_found [] "r1" no_faults no_faults
           (store_with "approved" [mkRequestItem "r1" 1 5]));
    reflexivity.
Defined.

(* ================================================================== *)
(** ** Accounts *)
(* ================================================================== *)

Lemma login_run bc b f s :
  run_pool (login bc b) f s
  = (s,
     Some
       match lb_email b, lb_password b with
       | Some email, Some password =>
           if (email =? EmptyString)%string || (password =? EmptyString)%string
           then mkAuthResponse 400 (AuthFail "Email and password are required")
           else if f 0%nat
                then mkAuthResponse 500 (AuthFail "Internal server error")
                else
                  match filter (fun u => (user_email u =? email)%string)
                               (site_users s) with
                  | [] => mkAuthResponse 401 (AuthFail "Invalid email or password")
                  | user :: _ =>
                      if password_matches bc password (user_password user)
                      then mkAuthResponse 200
                             (AuthUser (Some "Login successful") (user_id user)
                                       (user_name user) (user_email user)
                                       (user_role user))
                      else mkAuthResponse 401
                             (AuthFail "Invalid email or password")
                  end
       | _, _ => mkAuthResponse 400 (AuthFail "Email and password are required")
       end).
Proof.
  unfold run_pool, login, pool_try_catch.
  destruct (lb_email b) as [email|], (lb_password b) as [password|];
    try reflexivity.
  destruct ((email =? EmptyString)%string || (password =? EmptyString)%string);
    [reflexivity|].
  unfold pool_bind, db_query, select_users_by_email. simpl.
  destruct (f 0%nat); [reflexivity|].
  destruct (filter (fun u => (user_email u =? email)%string) (site_users s))
    as [|user rest]; [reflexivity|].
  unfold password_matches.
  destruct (if is_bcrypt_hash (user_password user)
            then bc_compare bc password (user_password user)
            else (user_password user =? password)%string); reflexivity.
Qed.

(** X20. [POST /api/auth/login] never changes the store.  It answers
    with a user only when the body has a non-empty email and password
    and that user is an account with this email whose stored password
    matches - compared by [bcrypt] when the stored password starts with
    '$2a$' or '$2b$', as plain text otherwise.  When the store answers
    the query and both fields are filled, every refusal is the same 401
    "Invalid email or password", whether the email is unknown or the
    password wrong. *)
Theorem login_checks_password bc b f s :
  let (s', r) := run_pool (login bc b) f s in
  s' = s
  /\ (forall msg id username email role,
        r = Some (mkAuthResponse 200 (AuthUser msg id username email role)) ->
        exists u password,
          In u (site_users s)
          /\ lb_email b = Some email /\ lb_password b = Some password
          /\ email <> EmptyString /\ password <> EmptyString
          /\ u = mkUser id username email (user_password u) role
          /\ password_matches bc password (user_password u) = true)
  /\ (f 0%nat = false ->
      Js.truthy (lb_email b) = true -> Js.truthy (lb_password b) = true ->
      (exists id username email role,
         r = Some (mkAuthResponse 200
                     (AuthUser (Some "Login successful") id username email
                               role)))
      \/ r = Some (mkAuthResponse 401 (AuthFail "Invalid email or password"))).
Proof.
  rewrite login_run. split; [reflexivity|]. split.
  - intros msg id username email role H.
    destruct (lb_email b) as [e|], (lb_password b) as [p|]; try discriminate.
    destruct (e =? EmptyString)%string eqn:Ee; [discriminate|].
    destruct (p =? EmptyString)%string eqn:Ep; [discriminate|].
    simpl in H. destruct (f 0%nat); [discriminate|].
    destruct (filter (fun u => (user_email u =? e)%string) (site_users s))
      as [|user rest] eqn:Hfil; [discriminate|].
    destruct (password_matches bc p (user_password user)) eqn:Hm;
      [|discriminate].
    injection H as _ <- <- <- <-.
    assert (Hin : In user (filter (fun u => (user_email u =? e)%string)
                                  (site_users s)))
      by (rewrite Hfil; left; reflexivity).
    apply filter_In in Hin. destruct Hin as [Hin He].
    apply String.eqb_eq in He. apply String.eqb_neq in Ee, Ep.
    subst e. exists user, p.
    repeat split; try assumption; try reflexivity.
    destruct user; reflexivity.
  - intros Hf He Hp.
    destruct (lb_email b) as [e|], (lb_password b) as [p|]; try discriminate.
    simpl in He, Hp. apply negb_true_iff in He, Hp. rewrite He, Hp, Hf.
    simpl.
    destruct (filter (fun u => (user_email u =? e)%string) (site_users s))
      as [|user rest]; [right; reflexivity|].
    destruct (password_matches bc p (user_password user));
      [left; eauto|right; reflexivity].
Qed.

Lemma login_checks_password_witness :
  let b := mkLoginBody (Some "admin@gudang.com") (Some "admin123") in
  run_pool (login toy_bcrypt b) no_faults seed_site
  = (seed_site,
     Some (mkAuthResponse 200
             (AuthUser (Some "Login successful") "user_admin_01"
                       "Admin Gudang 03" "admin@gudang.com" "admin")))
  /\ exists u password,
       In u (site_users seed_site)
       /\ lb_email b = Some "admin@gudang.com"
       /\ lb_password b = Some password
       /\ "admin@gudang.com" <> EmptyString /\ password <> EmptyString
       /\ u = mkUser "user_admin_01" "Admin Gudang 03" "admin@gudang.com"
                     (user_password u) "admin"
       /\ password_matches toy_bcrypt password (user_password u) = true.
Proof.
  cbv zeta.
  assert (E : run_pool (login toy_bcrypt
                          (mkLoginBody (Some "admin@gudang.com")
                                       (Some "admin123")))
                       no_faults seed_site
              = (seed_site,
                 Some (mkAuthResponse 200
                         (AuthUser (Some "Login successful") "user_admin_01"
                                   "Admin Gudang 03" "admin@gudang.com"
                                   "admin")))) by reflexivity.
  split; [exact E|].
  pose proof (login_checks_password toy_bcrypt
                (mkLoginBody (Some "admin@gudang.com") (Some "admin123"))
                no_faults seed_site) as H.
  rewrite E in H. destruct H as (_ & H & _).
  exact (H _ _ _ _ _ eq_refl).
Defined.

Lemma post_user_run bc uuid b f s :
  run_pool (post_user bc uuid b) f s
  = match ub_name b, ub_email b, ub_password b with
    | Some name, Some email, Some password =>
        if (name =? EmptyString)%string || (email =? EmptyString)%string
           || (password =? EmptyString)%string
        then (s, Some (mkAuthResponse 400 (AuthFail "Missing required fields")))
        else if f 0%nat
             then (s, Some (mkAuthResponse 500 (AuthError StoreError)))
             else
               if existsb (fun u => (user_email u =? email)%string)
                          (site_users s)
               then (s, Some (mkAuthResponse 400
                                (AuthFail "Email already registered")))
               else if f 1%nat
                         || existsb (fun u => (user_id u =? uuid)%string)
                                    (site_users s)
                    then (s, Some (mkAuthResponse 500 (AuthError StoreError)))
                    else
                      (set_users s
                         (site_users s
                          ++ [mkUser uuid name email (bc_hash bc password)
                                     (str_or (ub_role b) "user")]),
                       Some (mkAuthResponse 201
                               (AuthUser None uuid name email
                                         (str_or (ub_role b) "user"))))
    | _, _, _ =>
        (s, Some (mkAuthResponse 400 (AuthFail "Missing required fields")))
    end.
Proof.
  unfold run_pool, post_user, pool_try_catch.
  destruct (ub_name b) as [name|], (ub_email b) as [email|],
    (ub_password b) as [password|]; try reflexivity.
  destruct ((name =? EmptyString)%string || (email =? EmptyString)%string
            || (password =? EmptyString)%string); [reflexivity|].
  unfold pool_bind at 1, db_query at 1, select_users_by_email. simpl.
  destruct (f 0%nat); [reflexivity|].
  assert (Hex : forall l : list User,
             existsb (fun u => (user_email u =? email)%string) l
             = match filter (fun u => (user_email u =? email)%string) l with
               | [] => false
               | _ :: _ => true
               end).
  { induction l as [|u l IH]; simpl; [reflexivity|].
    destruct (user_email u =? email)%string; [reflexivity|exact IH]. }
  rewrite Hex.
  destruct (filter (fun u => (user_email u =? email)%string) (site_users s))
    as [|u0 rest] eqn:Hfil; [|reflexivity].
  unfold pool_bind, db_query, insert_user. simpl.
  destruct (f 1%nat); [reflexivity|]. simpl.
  rewrite Hex, Hfil, orb_false_r.
  destruct (existsb (fun u => (user_id u =? uuid)%string) (site_users s));
    reflexivity.
Qed.

Lemma existsb_false_not_in {A} (key : A -> string) (k : string) (l : list A) :
  existsb (fun x => (key x =? k)%string) l = false ->
  ~ In k (map key l).
Proof.
  intros H Hin. apply in_map_iff in Hin. destruct Hin as (x & Hk & Hx).
  assert (Ht : existsb (fun x => (key x =? k)%string) l = true).
  { apply existsb_exists. exists x. split; [exact Hx|].
    rewrite Hk. apply String.eqb_refl. }
  congruence.
Qed.

(** X21. [POST /api/users] keeps accounts distinct, whatever the body and
    whatever the store rejects: it touches neither the stock tables nor
    the categories nor any existing account, adds at most one account,
    and emails and ids that were pairwise different stay so - a second
    registration with an email already stored (compared exactly, case
    included) adds nothing.  An account it adds holds the bcrypt hash,
    and the role 'user' when the body gives none. *)
Theorem post_user_keeps_accounts_distinct bc uuid b f s :
  NoDup (map user_email (site_users s)) ->
  NoDup (map user_id (site_users s)) ->
  let s' := fst (run_pool (post_user bc uuid b) f s) in
  NoDup (map user_email (site_users s'))
  /\ NoDup (map user_id (site_users s'))
  /\ site_db s' = site_db s
  /\ site_categories s' = site_categories s
  /\ site_categories_id_seq s' = site_categories_id_seq s
  /\ (site_users s' = site_users s
      \/ exists name email password,
           ub_name b = Some name /\ ub_email b = Some email
           /\ ub_password b = Some password
           /\ site_users s'
              = (site_users s
                 ++ [mkUser uuid name email (bc_hash bc password)
                            (str_or (ub_role b) "user")])%list).
Proof.
  intros He Hi. cbv zeta. rewrite post_user_run.
  assert (Hsame : NoDup (map user_email (site_users s))
                  /\ NoDup (map user_id (site_users s))
                  /\ site_db s = site_db s
                  /\ site_categories s = site_categories s
                  /\ site_categories_id_seq s = site_categories_id_seq s
                  /\ (site_users s = site_users s
                      \/ exists name email password,
                           ub_name b = Some name /\ ub_email b = Some email
                           /\ ub_password b = Some password
                           /\ site_users s
                              = (site_users s
                                 ++ [mkUser uuid name email
                                            (bc_hash bc password)
                                            (str_or (ub_role b) "user")])%list))
    by (repeat split; auto).
  destruct (ub_name b) as [name|], (ub_email b) as [email|],
    (ub_password b) as [password|]; try exact Hsame.
  destruct ((name =? EmptyString)%string || (email =? EmptyString)%string
            || (password =? EmptyString)%string); [exact Hsame|].
  destruct (f 0%nat); [exact Hsame|].
  destruct (existsb (fun u => (user_email u =? email)%string) (site_users s))
    eqn:Hemail; [exact Hsame|].
  destruct (f 1%nat); [exact Hsame|]. simpl.
  destruct (existsb (fun u => (user_id u =? uuid)%string) (site_users s))
    eqn:Hid; [exact Hsame|].
  clear Hsame. simpl. rewrite !map_app. simpl.
  split; [apply NoDup_snoc_string;
          [exact He|apply (existsb_false_not_in user_email); exact Hemail]|].
  split; [apply NoDup_snoc_string;
          [exact Hi|apply (existsb_false_not_in user_id); exact Hid]|].
  repeat split. right. exists name, email, password. auto.
Qed.

Lemma seed_users_distinct :
  NoDup (map user_email (site_users seed_site))
  /\ NoDup (map user_id (site_users seed_site)).
Proof.
  split; simpl; repeat constructor; simpl;
    try (intros [H|[]]; discriminate); intros [].
Qed.

Lemma post_user_keeps_accounts_distinct_witness :
  let b := mkPostUserBody (Some "Budi") (Some "Admin@gudang.com") (Some "pw")
                          None in
  let s' := fst (run_pool (post_user toy_bcrypt "u3" b) no_faults seed_site) in
  map user_email (site_users s')
  = ["admin@gudang.com"; "manager@gudang.com"; "Admin@gudang.com"]
  /\ NoDup (map user_email (site_users s'))
  /\ NoDup (map user_id (site_users s'))
  /\ site_db s' = site_db seed_site
  /\ site_categories s' = site_categories seed_site
  /\ site_categories_id_seq s' = site_categories_id_seq seed_site
  /\ (site_users s' = site_users seed_site
      \/ exists name email password,
           ub_name b = Some name /\ ub_email b = Some email
           /\ ub_password b = Some password
           /\ site_users s'
              = (site_users seed_site
                 ++ [mkUser "u3" name email (bc_hash toy_bcrypt password)
                            (str_or (ub_role b) "user")])%list).
Proof.
  split; [reflexivity|].
  exact (post_user_keeps_accounts_distinct toy_bcrypt "u3"
           (mkPostUserBody (Some "Budi") (Some "Admin@gudang.com") (Some "pw")
                           None)
           no_faults seed_site
           (proj1 seed_users_distinct) (proj2 seed_users_distinct)).
Defined.

(** X22. Registering and logging in.  After a [POST /api/users] that
    answered 201, a login with the registered email and password, when
    the store answers the query, succeeds with the id, name, email and
    role the registration answered - provided [bcrypt.compare] accepts
    the password against [bcrypt.hash] of it and the hash starts with
    '$2a$' or '$2b$'. *)
Theorem register_then_login bc uuid b f f2 s password id username email role :
  ub_password b = Some password ->
  is_bcrypt_hash (bc_hash bc password) = true ->
  bc_compare bc password (bc_hash bc password) = true ->
  snd (run_pool (post_user bc uuid b) f s)
  = Some (mkAuthResponse 201 (AuthUser None id username email role)) ->
  f2 0%nat = false ->
  let s1 := fst (run_pool (post_user bc uuid b) f s) in
  run_pool (login bc (mkLoginBody (Some email) (Some password))) f2 s1
  = (s1, Some (mkAuthResponse 200
                 (AuthUser (Some "Login successful") id username email role))).
Proof.
  intros Hp Hprefix Hcmp H201 Hf2. cbv zeta.
  rewrite login_run. rewrite post_user_run in *.
  rewrite Hp in *.
  destruct (ub_name b) as [name|], (ub_email b) as [e|]; try discriminate.
  destruct (name =? EmptyString)%string eqn:En; [discriminate|].
  destruct (e =? EmptyString)%string eqn:Ee; [discriminate|].
  destruct (password =? EmptyString)%string eqn:Epw; [discriminate|].
  simpl in *.
  destruct (f 0%nat); [discriminate|].
  destruct (existsb (fun u => (user_email u =? e)%string) (site_users s))
    eqn:Hemail; [discriminate|].
  destruct (f 1%nat); [discriminate|]. simpl in *.
  destruct (existsb (fun u => (user_id u =? uuid)%string) (site_users s));
    [discriminate|].
  simpl in *. injection H201 as <- <- <- <-.
  rewrite Ee, Epw, Hf2. simpl.
  rewrite filter_app.
  assert (Hnone : filter (fun u => (user_email u =? e)%string) (site_users s)
                  = []).
  { apply filter_none. intros u Hu.
    destruct (user_email u =? e)%string eqn:E; [|reflexivity].
    assert (Ht : existsb (fun u => (user_email u =? e)%string) (site_users s)
                 = true)
      by (apply existsb_exists; exists u; split; assumption).
    congruence. }
  rewrite Hnone. simpl. rewrite String.eqb_refl. simpl.
  unfold password_matches. simpl. rewrite Hprefix, Hcmp. reflexivity.
Qed.

Lemma register_then_login_witness :
  let b := mkPostUserBody (Some "Budi") (Some "budi@gudang.com")
                          (Some "rahasia") None in
  let s1 := fst (run_pool (post_user toy_bcrypt "u3" b) no_faults seed_site) in
  map user_password (site_users s1) = ["admin123"; "manager123"; "$2b$rahasia"]
  /\ run_pool (login toy_bcrypt
                 (mkLoginBody (Some "budi@gudang.com") (Some "rahasia")))
              no_faults s1
     = (s1, Some (mkAuthResponse 200
                    (AuthUser (Some "Login successful") "u3" "Budi"
                              "budi@gudang.com" "user"))).
Proof.
  split; [reflexivity|].
  exact (register_then_login toy_bcrypt "u3"
           (mkPostUserBody (Some "Budi") (Some "budi@gudang.com")
                           (Some "rahasia") None)
           no_faults no_faults seed_site "rahasia" "u3" "Budi"
           "budi@gudang.com" "user" eq_refl eq_refl eq_refl eq_refl eq_refl).
Defined.

Lemma count_roles (l : list User) :
  (List.length (filter (fun u => (user_role u =? "admin")%string) l)
   + List.length (filter (fun u => (user_role u =? "manager")%string) l)
   + List.length (filter (fun u => (user_role u =? "user")%string) l)
   + List.length
       (filter (fun u => negb ((user_role u =? "admin")%string
                               || (user_role u =? "manager")%string
                               || (user_role u =? "user")%string)) l)
   = List.length l)%nat.
Proof.
  induction l as [|u l IH]; simpl; [reflexivity|].
  destruct (String.eqb_spec (user_role u) "admin") as [E1|E1];
    destruct (String.eqb_spec (user_role u) "manager") as [E2|E2];
    destruct (String.eqb_spec (user_role u) "user") as [E3|E3];
    try (rewrite E1 in E2; discriminate);
    try (rewrite E1 in E3; discriminate);
    try (rewrite E2 in E3; discriminate);
    simpl; lia.
Qed.

(** X23. The figures of [GET /api/dashboard/users], when the store
    answers its four queries: the counts by role never add up to more
    than the total, and they miss exactly the accounts whose role is
    none of 'admin', 'manager' and 'user' - a role [POST /api/users]
    stores as it comes. *)
Theorem dashboard_users_by_role f s :
  never_fails f ->
  exists stats,
    run_pool get_dashboard_users f s = (s, Some (Sent 200 stats))
    /\ totalUsers stats = List.length (site_users s)
    /\ (role_admin stats + role_manager stats + role_user stats
        + List.length
            (filter (fun u => negb ((user_role u =? "admin")%string
                                    || (user_role u =? "manager")%string
                                    || (user_role u =? "user")%string))
                    (site_users s))
        = totalUsers stats)%nat.
Proof.
  intros Hf.
  unfold run_pool, get_dashboard_users, pool_try_catch, pool_bind, db_query,
    count_users, count_users_with_role, pool_ret.
  simpl. rewrite !Hf. simpl.
  eexists. split; [reflexivity|]. simpl. split; [reflexivity|].
  apply count_roles.
Qed.

Lemma dashboard_users_by_role_witness :
  let s := fst (run_pool (post_user toy_bcrypt "u3"
                            (mkPostUserBody (Some "Budi")
                               (Some "budi@gudang.com") (Some "rahasia")
                               (Some "staff")))
                         no_faults seed_site) in
  exists stats,
    run_pool get_dashboard_users no_faults s = (s, Some (Sent 200 stats))
    /\ totalUsers stats = 3%nat
    /\ (role_admin stats + role_manager stats + role_user stats + 1
        = totalUsers stats)%nat.
Proof.
  exact (dashboard_users_by_role no_faults _ never_fails_no_faults).
Defined.

(* ================================================================== *)
(** ** Categories *)
(* ================================================================== *)

Lemma delete_category_run id f s :
  run_pool (delete_category id) f s
  = let refused := (s, Some (mkCategoryResponse 500 (CatError StoreError))) in
    let deleted (n : nat) :=
      if f n then refused
      else (set_categories s
              (filter (fun c => negb (cat_id c =? id)) (site_categories s)),
            Some (match filter (fun c => cat_id c =? id) (site_categories s) with
                  | [] => mkCategoryResponse 404 (CatFail "Category not found")
                  | _ :: _ => mkCategoryResponse 200 CatSuccess
                  end)) in
    if f 0%nat then refused
    else match filter (fun c => cat_id c =? id) (site_categories s) with
         | [] => deleted 1%nat
         | c :: _ =>
             if f 1%nat then refused
             else match active_items_in (cat_name c) (site_db s) with
                  | [] => deleted 2%nat
                  | used =>
                      (s, Some (mkCategoryResponse 400
                                  (CatFail (in_use_message (List.length used)
                                                           (cat_name c)))))
                  end
         end.
Proof.
  unfold run_pool, delete_category, pool_try_catch.
  unfold pool_bind at 1, db_query at 1, select_category_name. simpl.
  destruct (f 0%nat); [reflexivity|].
  destruct (filter (fun c => cat_id c =? id) (site_categories s))
    as [|c rest] eqn:Hfil; simpl.
  - unfold delete_category_then_answer, pool_bind, db_query,
      delete_category_rows. simpl.
    destruct (f 1%nat); [reflexivity|]. rewrite Hfil. reflexivity.
  - unfold pool_bind at 1, db_query at 1, count_active_items_in. simpl.
    destruct (f 1%nat); [reflexivity|].
    destruct (active_items_in (cat_name c) (site_db s)) as [|i used]; simpl.
    + unfold delete_category_then_answer, pool_bind, db_query,
        delete_category_rows. simpl.
      destruct (f 2%nat); [reflexivity|]. rewrite Hfil. reflexivity.
    + reflexivity.
Qed.

Lemma category_by_id (l : list Category) c :
  NoDup (map cat_id l) -> In c l ->
  filter (fun x => cat_id x =? cat_id c) l = [c].
Proof.
  induction l as [|x l IH]; simpl; intros Hnd Hin; [contradiction|].
  inversion Hnd as [|? ? Hnot Hnd']; subst.
  destruct Hin as [->|Hin].
  - rewrite Z.eqb_refl. f_equal. apply filter_none.
    intros y Hy. apply Z.eqb_neq. intros E. apply Hnot. rewrite <- E.
    apply in_map. exact Hy.
  - destruct (Z.eqb_spec (cat_id x) (cat_id c)) as [E|_].
    + exfalso. apply Hnot. rewrite E. apply in_map. exact Hin.
    + apply IH; assumption.
Qed.

(** X24. A category in use is never deleted.  When ids of categories are
    pairwise different and an active item (["isActive"] 1 or NULL) has
    the name of the category as its category, [DELETE
    /api/categories/:id] leaves the whole store as it is, whatever the
    store rejects, and when the store answers the two queries it refuses
    with status 400 and a message giving the number of such items. *)
Theorem delete_category_in_use f s c i :
  NoDup (map cat_id (site_categories s)) ->
  In c (site_categories s) ->
  In i (items (site_db s)) ->
  item_category i = Some (cat_name c) ->
  is_active i = true ->
  let (s', r) := run_pool (delete_category (cat_id c)) f s in
  s' = s
  /\ (f 0%nat = false -> f 1%nat = false ->
      exists n,
        (0 < n)%nat
        /\ n = List.length (active_items_in (cat_name c) (site_db s))
        /\ r = Some (mkCategoryResponse 400
                       (CatFail (in_use_message n (cat_name c))))).
Proof.
  intros Hnd Hc Hi Hcat Hact.
  rewrite delete_category_run. cbv zeta.
  rewrite (category_by_id _ c Hnd Hc).
  assert (Hused : In i (active_items_in (cat_name c) (site_db s))).
  { unfold active_items_in. apply filter_In. split; [exact Hi|].
    rewrite Hcat, Hact. simpl. rewrite String.eqb_refl. reflexivity. }
  destruct (f 0%nat); [split; [reflexivity|discriminate]|].
  destruct (f 1%nat); [split; [reflexivity|discriminate]|].
  destruct (active_items_in (cat_name c) (site_db s)) as [|i0 used];
    [contradiction|].
  split; [reflexivity|]. intros _ _.
  exists (List.length (i0 :: used)). simpl. repeat split. lia.
Qed.

(** X25. A category no active item uses can be deleted, and soft-deleted
    items do not count as users.  When ids of categories are pairwise
    different, the category exists and every item with its name as
    category is inactive, a [DELETE /api/categories/:id] the store
    executes answers success, removes that category and no other, and
    leaves the items - the inactive ones keep the name of the deleted
    category. *)
Theorem delete_category_unused f s c :
  never_fails f ->
  NoDup (map cat_id (site_categories s)) ->
  In c (site_categories s) ->
  (forall i, In i (items (site_db s)) ->
             item_category i = Some (cat_name c) -> is_active i = false) ->
  let (s', r) := run_pool (delete_category (cat_id c)) f s in
  r = Some (mkCategoryResponse 200 CatSuccess)
  /\ site_db s' = site_db s
  /\ site_users s' = site_users s
  /\ (forall x, In x (site_categories s') <->
                In x (site_categories s) /\ x <> c).
Proof.
  intros Hf Hnd Hc Hunused.
  rewrite delete_category_run. cbv zeta.
  rewrite (category_by_id _ c Hnd Hc), !Hf.
  assert (Hnone : active_items_in (cat_name c) (site_db s) = []).
  { unfold active_items_in. apply filter_none. intros i Hi.
    destruct (item_category i) as [k|] eqn:Hk; simpl; [|reflexivity].
    destruct (String.eqb_spec k (cat_name c)) as [E|E]; [|reflexivity].
    simpl. apply (Hunused i Hi). rewrite Hk, E. reflexivity. }
  rewrite Hnone.
  split; [reflexivity|]. split; [reflexivity|]. split; [reflexivity|].
  intros x. cbn [site_categories set_categories]. rewrite filter_In.
  split.
  - intros [Hx Hne]. split; [exact Hx|].
    apply negb_true_iff, Z.eqb_neq in Hne. intros ->. apply Hne. reflexivity.
  - intros [Hx Hne]. split; [exact Hx|].
    apply negb_true_iff, Z.eqb_neq. intros E. apply Hne.
    assert (Hin : In x (filter (fun y => cat_id y =? cat_id c)
                               (site_categories s)))
      by (apply filter_In; split; [exact Hx|apply Z.eqb_eq; exact E]).
    rewrite (category_by_id _ c Hnd Hc) in Hin.
    destruct Hin as [<-|[]]. reflexivity.
Qed.

Lemma delete_category_in_use_witness :
  let (s', r) := run_pool (delete_category 1) no_faults category_site in
  s' = category_site
  /\ (no_faults 0%nat = false -> no_faults 1%nat = false ->
      exists n,
        (0 < n)%nat
        /\ n = List.length (active_items_in "ATK" (site_db category_site))
        /\ r = Some (mkCategoryResponse 400
                       (CatFail (in_use_message n "ATK")))).
Proof.
  apply (delete_category_in_use no_faults category_site
           (mkCategory 1 "ATK" None 0 0) item_pen).
  - repeat constructor. intros [].
  - left. reflexivity.
  - left. reflexivity.
  - reflexivity.
  - reflexivity.
Defined.

Lemma delete_category_unused_witness :
  let s := mkSite (fst (run (delete_item 1) no_faults (site_db category_site)))
                  seed_users (site_categories category_site) 2 in
  let (s', r) := run_pool (delete_category 1) no_faults s in
  r = Some (mkCategoryResponse 200 CatSuccess)
  /\ site_db s' = site_db s
  /\ site_users s' = site_users s
  /\ (forall x, In x (site_categories s') <->
                In x (site_categories s) /\ x <> mkCategory 1 "ATK" None 0 0).
Proof.
  apply (delete_category_unused no_faults
           (mkSite (fst (run (delete_item 1) no_faults
                             (site_db category_site)))
                   seed_users (site_categories category_site) 2)
           (mkCategory 1 "ATK" None 0 0)).
  - exact never_fails_no_faults.
  - repeat constructor. intros [].
  - left. reflexivity.
  - intros i [<-|[]] _. reflexivity.
Defined.

Lemma post_category_run now b f s :
  run_pool (post_category now b) f s
  = match cb_name b with
    | Some name =>
        if (name =? EmptyString)%string
        then (s, Some (mkCategoryResponse 400 (CatFail "Name required")))
        else if f 0%nat
             then (s, Some (mkCategoryResponse 500 (CatError StoreError)))
             else
               let id := site_categories_id_seq s in
               if existsb (fun c => (cat_name c =? name)%string)
                          (site_categories s)
               then (mkSite (site_db s) (site_users s) (site_categories s)
                            (id + 1),
                     Some (mkCategoryResponse 500 (CatError StoreError)))
               else
                 let row := mkCategory id name (cb_description b) now now in
                 (mkSite (site_db s) (site_users s)
                         (site_categories s ++ [row]) (id + 1),
                  Some (mkCategoryResponse 201 (CatRow (Some row))))
    | None => (s, Some (mkCategoryResponse 400 (CatFail "Name required")))
    end.
Proof.
  unfold run_pool, post_category, pool_try_catch.
  destruct (cb_name b) as [name|]; [|reflexivity].
  destruct (name =? EmptyString)%string; [reflexivity|].
  unfold pool_bind, db_query, insert_category. simpl.
  destruct (f 0%nat); [reflexivity|].
  destruct (existsb (fun c => (cat_name c =? name)%string) (site_categories s));
    reflexivity.
Qed.

Lemma put_category_run id now b f s :
  (run_pool (put_category id now b) f s
   = (s, Some (mkCategoryResponse 500 (CatError StoreError)))
   \/ run_pool (put_category id now b) f s
      = (s, Some (mkCategoryResponse 404 (CatFail "Category not found"))))
  \/ exists n c row,
       cb_name b = Some n
       /\ filter (fun c => cat_id c =? id) (site_categories s) = [c]
       /\ existsb (fun c => (cat_name c =? n)%string)
                  (filter (fun c => negb (cat_id c =? id)) (site_categories s))
          = false
       /\ run_pool (put_category id now b) f s
          = (set_categories s
               (map (fun c => if cat_id c =? id
                              then mkCategory (cat_id c) n (cb_description b)
                                              (cat_createdAt c) now
                              else c)
                    (site_categories s)),
             Some (mkCategoryResponse 200 (CatRow (Some row)))).
Proof.
  unfold run_pool, put_category, pool_try_catch, pool_bind, db_query,
    update_category. simpl.
  destruct (f 0%nat); [left; left; reflexivity|].
  destruct (filter (fun c => cat_id c =? id) (site_categories s))
    as [|c hit] eqn:Hfil; [left; right; reflexivity|].
  destruct (cb_name b) as [n|]; [|left; left; reflexivity].
  destruct (existsb (fun c => (cat_name c =? n)%string)
              (filter (fun c => negb (cat_id c =? id)) (site_categories s)))
    eqn:Hdup; simpl; [left; left; reflexivity|].
  destruct hit as [|c2 hit]; simpl; [|left; left; reflexivity].
  assert (Hrows : filter (fun c => cat_id c =? id)
                    (map (fun c => if cat_id c =? id
                                   then mkCategory (cat_id c) n
                                          (cb_description b)
                                          (cat_createdAt c) now
                                   else c)
                         (site_categories s))
                  = [mkCategory (cat_id c) n (cb_description b)
                                (cat_createdAt c) now]).
  { revert Hfil. clear. induction (site_categories s) as [|x l IH]; simpl;
      [discriminate|].
    destruct (cat_id x =? id) eqn:E; simpl.
    - rewrite E. intros H. injection H as -> Hl. f_equal.
      revert Hl. clear. induction l as [|y l IH]; simpl; [reflexivity|].
      destruct (cat_id y =? id) eqn:E; [discriminate|].
      rewrite E. exact IH.
    - rewrite E. exact IH. }
  rewrite Hrows. simpl.
  right. exists n, c, (mkCategory (cat_id c) n (cb_description b)
                                  (cat_createdAt c) now).
  split; [reflexivity|]. split; [reflexivity|]. split; [exact Hdup|].
  reflexivity.
Qed.

Lemma rename_keeps_names id n description now (l : list Category) c :
  NoDup (map cat_name l) ->
  filter (fun c => cat_id c =? id) l = [c] ->
  existsb (fun c => (cat_name c =? n)%string)
          (filter (fun c => negb (cat_id c =? id)) l) = false ->
  NoDup (map cat_name
           (map (fun c => if cat_id c =? id
                          then mkCategory (cat_id c) n description
                                          (cat_createdAt c) now
                          else c) l)).
Proof.
  intros Hnd Hone Hfree.
  assert (Hother : forall x, In x l -> cat_id x <> id -> cat_name x <> n).
  { intros x Hx Hid E.
    assert (Ht : existsb (fun c => (cat_name c =? n)%string)
                   (filter (fun c => negb (cat_id c =? id)) l) = true).
    { apply existsb_exists. exists x. split.
      - apply filter_In. split; [exact Hx|].
        apply negb_true_iff, Z.eqb_neq. exact Hid.
      - rewrite E. apply String.eqb_refl. }
    congruence. }
  clear Hfree. revert c Hnd Hone Hother.
  induction l as [|x l IH]; simpl; intros c Hnd Hone Hother; [constructor|].
  inversion Hnd as [|? ? Hx Hnd']; subst.
  destruct (cat_id x =? id) eqn:E; simpl.
  - injection Hone as -> Hrest.
    assert (Hsame : map (fun c0 => if cat_id c0 =? id
                                   then mkCategory (cat_id c0) n description
                                                   (cat_createdAt c0) now
                                   else c0) l = l).
    { rewrite <- (map_id l) at 2. apply map_ext_in. intros y Hy.
      destruct (cat_id y =? id) eqn:Ey; [|reflexivity].
      assert (Hin : In y (filter (fun c => cat_id c =? id) l))
        by (apply filter_In; split; assumption).
      rewrite Hrest in Hin. destruct Hin. }
    rewrite Hsame. constructor; [|exact Hnd'].
    intros Hin. apply in_map_iff in Hin. destruct Hin as (y & Hy & Hin).
    apply (Hother y (or_intror Hin)); [|exact Hy].
    intros Ey.
    assert (Hin' : In y (filter (fun c => cat_id c =? id) l))
      by (apply filter_In; split; [exact Hin|apply Z.eqb_eq; exact Ey]).
    rewrite Hrest in Hin'. destruct Hin'.
  - constructor.
    + intros Hin. apply in_map_iff in Hin. destruct Hin as (y' & Hy' & Hin).
      apply in_map_iff in Hin. destruct Hin as (y & <- & Hin).
      destruct (cat_id y =? id) eqn:Ey; simpl in Hy'.
      * apply Z.eqb_neq in E.
        apply (Hother x (or_introl eq_refl) E). symmetry. exact Hy'.
      * apply Hx. rewrite <- Hy'. apply in_map. exact Hin.
    + apply (IH c Hnd' Hone).
      intros y Hy. apply Hother. right. exact Hy.
Qed.

Lemma rename_keeps_ids id n description now (l : list Category) :
  map cat_id
      (map (fun c => if cat_id c =? id
                     then mkCategory (cat_id c) n description
                                     (cat_createdAt c) now
                     else c) l)
  = map cat_id l.
Proof.
  rewrite map_map. apply map_ext. intros c.
  destruct (cat_id c =? id); reflexivity.
Qed.

(** X26. The three handlers that write categories keep the keys of the
    table, whatever the store rejects: names stay pairwise different,
    ids stay pairwise different and below the sequence.  None of them
    touches the stock tables or the accounts; renaming a category in
    particular leaves the category of every item as it was. *)
Theorem category_handlers_keep_keys c f s :
  categories_ok s ->
  let s' := fst (run_pool (serve_category c) f s) in
  categories_ok s'
  /\ site_db s' = site_db s
  /\ site_users s' = site_users s.
Proof.
  intros (Hn & Hi & Hlt). cbv zeta.
  assert (Hsame : categories_ok s /\ site_db s = site_db s
                  /\ site_users s = site_users s)
    by (repeat split; assumption).
  destruct c as [now b|id now b|id]; simpl serve_category.
  - rewrite post_category_run.
    destruct (cb_name b) as [name|]; [|exact Hsame].
    destruct (name =? EmptyString)%string; [exact Hsame|].
    destruct (f 0%nat); [exact Hsame|]. cbv zeta.
    destruct (existsb (fun c => (cat_name c =? name)%string)
                      (site_categories s)) eqn:Hdup; simpl.
    + split; [|split; reflexivity].
      split; [exact Hn|]. split; [exact Hi|].
      simpl. intros c Hc. specialize (Hlt c Hc). lia.
    + split; [|split; reflexivity].
      unfold categories_ok. simpl. rewrite !map_app. simpl.
      split; [apply NoDup_snoc_string;
              [exact Hn|apply (existsb_false_not_in cat_name); exact Hdup]|].
      split.
      * apply NoDup_snoc; [exact Hi|].
        intros Hin. apply in_map_iff in Hin. destruct Hin as (x & Hx & Hin).
        specialize (Hlt x Hin). lia.
      * intros x Hx. apply in_app_or in Hx. destruct Hx as [Hx|[<-|[]]].
        -- specialize (Hlt x Hx). lia.
        -- simpl. lia.
  - destruct (put_category_run id now b f s)
      as [[-> | ->]|(n & c & row & Hname & Hone & Hfree & ->)];
      try exact Hsame.
    simpl. split; [|split; reflexivity].
    unfold categories_ok. simpl.
    split; [apply (rename_keeps_names id n _ now _ c); assumption|].
    rewrite rename_keeps_ids. split; [exact Hi|].
    intros x Hx. apply in_map_iff in Hx. destruct Hx as (y & <- & Hy).
    specialize (Hlt y Hy). destruct (cat_id y =? id); exact Hlt.
  - rewrite delete_category_run. cbv zeta.
    assert (Hdel : categories_ok
                     (set_categories s
                        (filter (fun c => negb (cat_id c =? id))
                                (site_categories s)))).
    { unfold categories_ok. simpl.
      split; [apply NoDup_map_filter; exact Hn|].
      split; [apply NoDup_map_filter; exact Hi|].
      intros x Hx. apply filter_In in Hx. apply Hlt. apply Hx. }
    destruct (f 0%nat); [exact Hsame|].
    destruct (filter (fun c => cat_id c =? id) (site_categories s))
      as [|c rest].
    + destruct (f 1%nat); [exact Hsame|]. simpl.
      split; [exact Hdel|split; reflexivity].
    + destruct (f 1%nat); [exact Hsame|].
      destruct (active_items_in (cat_name c) (site_db s)); [|exact Hsame].
      destruct (f 2%nat); [exact Hsame|]. simpl.
      split; [exact Hdel|split; reflexivity].
Qed.

Lemma category_handlers_keep_keys_witness :
  let c := PutCategory 1 50 (mkCategoryFields (Some "Alat Tulis") None) in
  let s' := fst (run_pool (serve_category c) no_faults category_site) in
  map cat_name (site_categories s') = ["Alat Tulis"]
  /\ map item_category (items (site_db s')) = [Some "ATK"]
  /\ categories_ok s'
  /\ site_db s' = site_db category_site
  /\ site_users s' = site_users category_site.
Proof.
  split; [reflexivity|]. split; [reflexivity|].
  apply (category_handlers_keep_keys
           (PutCategory 1 50 (mkCategoryFields (Some "Alat Tulis") None))
           no_faults category_site).
  unfold categories_ok. simpl. repeat split.
  - repeat constructor. intros [].
  - repeat constructor. intros [].
  - intros c [<-|[]]. simpl. lia.
Defined.
